(** * Validation, normalisation and scoring pipeline

    A shallow embedding of [src/utils/dataValidation.ts]
    ([validateAndProcessData], [standardizeCountryNames]) and of
    [src/utils/dataProcessing.ts] ([processExcelData]).

    JavaScript numbers are IEEE 754 binary64 values, embedded as Rocq's
    primitive floats.  Strings are sequences of code units below U+0100.
    Objects used as dictionaries
    (a spreadsheet row, the weights) are finite maps from property names to
    values; objects whose property order is observed ([Object.values],
    [Object.entries]) are association lists in insertion order. *)

From Stdlib Require Import Floats Ascii String ZArith.
From stdpp Require Import gmap strings list pretty.

Set Warnings "-inexact-float,-clear-no-such-hyp".
Set Default Proof Using "Type".

(** ** JavaScript values and runtime functions *)

(** The cell values a decoded spreadsheet row can hold. *)
Inductive value : Type :=
| VUndefined
| VNull
| VBool (b : bool)
| VNum (x : float)
| VStr (s : string).

(** [typeof v === 'string'] *)
Definition typeof_string (v : value) : bool :=
  match v with VStr _ => true | _ => false end.

(** ToBoolean: [undefined], [null], [false], [0], [-0], [NaN] and [''] are
    falsy. *)
Definition truthy (v : value) : bool :=
  match v with
  | VUndefined | VNull => false
  | VBool b => b
  | VNum x => negb (is_zero x || is_nan x)
  | VStr s => negb (String.eqb s "")
  end.

(** A plain object: own enumerable string-keyed properties. *)
Abbreviation object := (gmap string value).

(** [o[k]] for a key that [Object.prototype] does not define: the own
    property, or [undefined]. *)
Definition get (o : object) (k : string) : value :=
  default VUndefined (o !! k).

(** [Object.keys(o)] *)
Definition keys (o : object) : list string := (map_to_list o).*1.

(** An element of the [rawData] array: an object, or a falsy hole
    ([null]/[undefined]), which the validator guards against with [!row] and
    [rawData[0] || {}]. *)
Abbreviation row := (option object).

Definition keys_of_row (r : row) : list string :=
  match r with Some o => keys o | None => [] end.

(** *** String.prototype.trim

    A string is a sequence of code units below U+0100, one per [ascii].  The
    white space and line terminators of ECMAScript in that range are TAB, LF,
    VT, FF, CR, SPACE and NO-BREAK SPACE. *)
Definition is_white (a : ascii) : bool :=
  match a with
  | "009"%char | "010"%char | "011"%char | "012"%char | "013"%char
  | " "%char | "160"%char => true
  | _ => false
  end.

Fixpoint trimStart (s : string) : string :=
  match s with
  | EmptyString => EmptyString
  | String a s' => if is_white a then trimStart s' else s
  end.

Fixpoint trimEnd (s : string) : string :=
  match s with
  | EmptyString => EmptyString
  | String a s' =>
      match trimEnd s' with
      | EmptyString => if is_white a then EmptyString else String a EmptyString
      | t => String a t
      end
  end.

Definition trim (s : string) : string := trimEnd (trimStart s).

(** [Array.prototype.join] on strings. *)
Fixpoint join (sep : string) (l : list string) : string :=
  match l with
  | [] => ""
  | [x] => x
  | x :: rest => x +:+ sep +:+ join sep rest
  end.

(** *** parseFloat on a string

    [parseFloat_string] is the runtime's reading of a string: skip leading
    white space, take the longest prefix that is a StrDecimalLiteral and
    round its mathematical value to binary64, or answer NaN when there is no
    such prefix.  The pipeline is embedded over an arbitrary such function
    (section variable below); the definition here is the instance the
    examples run on. *)
Module DecimalLiteral.

Definition digit_of (a : ascii) : option Z :=
  let n := Z.of_nat (nat_of_ascii a) in
  if ((48 <=? n) && (n <=? 57))%Z then Some (n - 48)%Z else None.

(** Reads a run of decimal digits: the accumulated value, how many digits
    were read, and the rest of the string. *)
Fixpoint digits (s : string) (acc : Z) (count : Z) : Z * Z * string :=
  match s with
  | EmptyString => (acc, count, s)
  | String a s' =>
      match digit_of a with
      | Some d => digits s' (10 * acc + d)%Z (count + 1)%Z
      | None => (acc, count, s)
      end
  end.

(** The exponent part [e[+-]ddd], 0 when it is absent or has no digit. *)
Definition exponent (s : string) : Z :=
  match s with
  | String a s' =>
      if (Ascii.eqb a "e" || Ascii.eqb a "E")%bool then
        match s' with
        | String "-" s'' =>
            let '(e, n, _) := digits s'' 0%Z 0%Z in
            if (n =? 0)%Z then 0%Z else (- e)%Z
        | String "+" s'' =>
            let '(e, n, _) := digits s'' 0%Z 0%Z in
            if (n =? 0)%Z then 0%Z else e
        | _ =>
            let '(e, n, _) := digits s' 0%Z 0%Z in
            if (n =? 0)%Z then 0%Z else e
        end
      else 0%Z
  | EmptyString => 0%Z
  end.

(** Nearest binary64 (ties to even) to [m * 10^e], for [m > 0]. *)
Definition round_decimal (m e : Z) : float :=
  if (0 <=? e)%Z then
    SF2Prim (binary_normalize prec emax (m * 10 ^ e) 0 false)
  else
    let d := (10 ^ (- e))%Z in
    let s := (Z.log2 d + 66)%Z in
    let q := (m * 2 ^ s / d)%Z in
    let sticky := if (m * 2 ^ s mod d =? 0)%Z then 0%Z else 1%Z in
    SF2Prim (binary_normalize prec emax (2 * q + sticky) (- s - 1) false).

Definition unsigned (s : string) : option float :=
  if String.prefix "Infinity" s then Some infinity
  else
    let '(ip, n1, rest) := digits s 0%Z 0%Z in
    let '(m, n2, rest') :=
      match rest with
      | String "." r => digits r ip 0%Z
      | _ => (ip, 0%Z, rest)
      end in
    if (n1 + n2 =? 0)%Z then None
    else if (m =? 0)%Z then Some 0%float
    else Some (round_decimal m (exponent rest' - n2)).

Definition parse (s : string) : float :=
  match trimStart s with
  | String "-" s' =>
      match unsigned s' with Some x => (- x)%float | None => nan end
  | String "+" s' => default nan (unsigned s')
  | s' => default nan (unsigned s')
  end.

End DecimalLiteral.

Definition parseFloat_string : string → float := DecimalLiteral.parse.

(** [Array.prototype.includes] on strings. *)
Definition includes (l : list string) (x : string) : bool :=
  bool_decide (x ∈ l).

(** Own property of an object literal written as an association list. *)
Fixpoint assoc {A : Type} (k : string) (l : list (string * A)) : option A :=
  match l with
  | [] => None
  | (k', v) :: rest => if String.eqb k k' then Some v else assoc k rest
  end.

(** [Object.values(o).reduce((sum, score) => sum + score, 0)] *)
Definition sum_values (o : list (string * float)) : float :=
  fold_left PrimFloat.add (map snd o) 0%float.

(** ** types.ts *)

(** What the [country] field of a record can hold at run time.  It is
    declared [string]; the normaliser reads [COUNTRY_NAME_MAPPINGS[name]] on
    an object literal, and such a read falls back to the members the literal
    inherits from [Object.prototype], so it can also place one of those
    members (a built-in function, or the prototype object itself for
    [__proto__]) in the field.  [Inherited m] is the value of
    [Object.prototype[m]]. *)
Inductive country_name : Type :=
| Name (s : string)
| Inherited (member : string).

Record CountryData : Type := mkCountryData {
  country : country_name;
  ai : value;
  quantum : value;
  semiconductors : value;
  biotech : value;
  space : value;
  fintech : value;
  totalScore : float;
  sectorScores : list (string * float)
}.

(** [SectorWeights]: an object read by property name; a missing property reads
    as [undefined]. *)
Abbreviation SectorWeights := (gmap string float).

(** ** dataValidation.ts *)

Record ValidationResult : Type := mkValidationResult {
  isValid : bool;
  errors : list string;
  warnings : list string
}.

Record ProcessedData : Type := mkProcessedData {
  data : list CountryData;
  validation : ValidationResult
}.

Definition REQUIRED_COLUMNS : list string :=
  ["Country"; "AI"; "Quantum"; "Semiconductors"; "Biotech"; "Space";
   "Fintech"].

Definition COLUMN_MAPPINGS : list (string * string) :=
  [("Country", "country"); ("AI", "ai"); ("Quantum", "quantum");
   ("Semiconductors", "semiconductors"); ("Biotech", "biotech");
   ("Space", "space"); ("Fintech", "fintech")].

Definition SECTOR_WEIGHTS : list (string * float) :=
  [("ai", 0.2%float); ("quantum", 0.1%float); ("semiconductors", 0.2%float);
   ("biotech", 0.2%float); ("space", 0.2%float); ("fintech", 0.1%float)].

Definition COUNTRY_NAME_MAPPINGS : list (string * string) :=
  [("USA", "United States of America");
   ("US", "United States of America");
   ("United States", "United States of America");
   ("UK", "United Kingdom");
   ("PRC", "China");
   ("People's Republic of China", "China");
   ("Korea", "South Korea");
   ("Republic of Korea", "South Korea");
   ("Korea, Republic of", "South Korea");
   ("Korea, Dem. Rep.", "North Korea");
   ("Democratic People's Republic of Korea", "North Korea");
   ("DPRK", "North Korea");
   ("Russian Federation", "Russia");
   ("Czech Republic", "Czechia");
   ("UAE", "United Arab Emirates")].

(** [validation.errors.push(msg)] and [validation.warnings.push(msg)] *)
Definition push_error (msg : string) (v : ValidationResult) : ValidationResult :=
  {| isValid := isValid v; errors := errors v ++ [msg];
     warnings := warnings v |}.

Definition push_warning (msg : string) (v : ValidationResult) : ValidationResult :=
  {| isValid := isValid v; errors := errors v;
     warnings := warnings v ++ [msg] |}.

Definition set_isValid (b : bool) (v : ValidationResult) : ValidationResult :=
  {| isValid := b; errors := errors v; warnings := warnings v |}.

(** The string held by a value whose [typeof] is ['string']. *)
Definition string_of (v : value) : string :=
  match v with VStr s => s | _ => "" end.

(** The variables that the [rawData.forEach] callback closes over and
    mutates. *)
Record validator_state : Type := mkState {
  processedData : list CountryData;
  countrySet : gset string;
  report : ValidationResult
}.

(** The variables of the inner [Object.entries(SECTOR_WEIGHTS).forEach]. *)
Record sector_state : Type := mkSectorState {
  sector_report : ValidationResult;
  scores : list (string * float);
  hasInvalidScore : bool
}.

Section Pipeline.

(** The runtime's [parseFloat] restricted to strings. *)
Variable parse_string : string → float.

(** [parseFloat(v)] is [parseFloat(ToString(v))].  For a number, ToString
    prints the shortest decimal that reads back as the same number, with
    [-0] printed as ["0"], and NaN and the infinities by name; the other
    non-string primitives print as words that start no decimal literal. *)
Definition parseFloat (v : value) : float :=
  match v with
  | VNum x => if is_zero x then 0%float else x
  | VStr s => parse_string s
  | VUndefined | VNull | VBool _ => nan
  end.

(** The body of [Object.entries(SECTOR_WEIGHTS).forEach(([sector, weight])
    => ...)].  The six keys are distinct, so [sectorScores[sector] = value]
    appends a property. *)
Definition check_sector (mappedRow : object) (name : string)
    (st : sector_state) (entry : string * float) : sector_state :=
  let sector := entry.1 in
  let value := parseFloat (get mappedRow sector) in
  if is_nan value then
    {| sector_report :=
         push_error ("Invalid " +:+ sector +:+ " value for " +:+ name)
           (sector_report st);
       scores := scores st;
       hasInvalidScore := true |}
  else if (value <? 0)%float then
    {| sector_report :=
         push_error ("Negative " +:+ sector +:+ " value for " +:+ name)
           (sector_report st);
       scores := scores st;
       hasInvalidScore := true |}
  else
    {| sector_report :=
         if (1 <? value)%float then
           push_warning (sector +:+ " value > 1 for " +:+ name)
             (sector_report st)
         else sector_report st;
       scores := scores st ++ [(sector, value)];
       hasInvalidScore := hasInvalidScore st |}.

(** [Object.entries(COLUMN_MAPPINGS).reduce(..., {})] *)
Definition map_columns (o : object) : object :=
  fold_left (fun acc '(excelCol, internalCol) =>
               <[internalCol := get o excelCol]> acc)
    COLUMN_MAPPINGS ∅.

(** The body of [rawData.forEach((row, index) => ...)]. *)
Definition processRow (st : validator_state) (r : row) (index : nat)
    : validator_state :=
  match r with
  | None => st
  | Some o =>
    if (length (keys o) =? 0)%nat then st
    else
      let mappedRow := map_columns o in
      let c := get mappedRow "country" in
      if negb (truthy c) || negb (typeof_string c) then
        {| processedData := processedData st;
           countrySet := countrySet st;
           report :=
             push_error ("Invalid country name at row " +:+ pretty (index + 1)%nat)
               (report st) |}
      else
        let name := string_of c in
        if bool_decide (name ∈ countrySet st) then
          {| processedData := processedData st;
             countrySet := countrySet st;
             report :=
               push_warning ("Duplicate country found: " +:+ name)
                 (report st) |}
        else
          let seen := {[name]} ∪ countrySet st in
          let sec :=
            fold_left (check_sector mappedRow name) SECTOR_WEIGHTS
              {| sector_report := report st; scores := [];
                 hasInvalidScore := false |} in
          if hasInvalidScore sec then
            {| processedData := processedData st;
               countrySet := seen;
               report := sector_report sec |}
          else
            let countryData :=
              {| country := Name (trim name);
                 ai := get mappedRow "ai";
                 quantum := get mappedRow "quantum";
                 semiconductors := get mappedRow "semiconductors";
                 biotech := get mappedRow "biotech";
                 space := get mappedRow "space";
                 fintech := get mappedRow "fintech";
                 totalScore := sum_values (scores sec);
                 sectorScores := scores sec |} in
            {| processedData := processedData st ++ [countryData];
               countrySet := seen;
               report := sector_report sec |}
  end.

(** [const processedData = []; const countrySet = new Set()], next to the
    [validation] object created on entry. *)
Definition initial_state (validation : ValidationResult) : validator_state :=
  {| processedData := []; countrySet := ∅; report := validation |}.

(** [rawData.forEach], from [index] on. *)
Fixpoint forEach_rows (rows : list row) (index : nat) (st : validator_state)
    : validator_state :=
  match rows with
  | [] => st
  | r :: rest => forEach_rows rest (S index) (processRow st r index)
  end.

(** [rawData] is an array here, so the [!rawData] half of the first guard
    never fires. *)
Definition validateAndProcessData (rawData : list row) : ProcessedData :=
  let validation :=
    {| isValid := true; errors := []; warnings := [] |} in
  if (length rawData =? 0)%nat then
    {| data := [];
       validation := push_error "No data provided" (set_isValid false validation) |}
  else
    let columns := keys_of_row (default None (head rawData)) in
    let missingColumns :=
      List.filter (fun col => negb (includes columns col)) REQUIRED_COLUMNS in
    if (0 <? length missingColumns)%nat then
      {| data := [];
         validation :=
           push_error ("Missing required columns: " +:+ join ", " missingColumns)
             (set_isValid false validation) |}
    else
      let st := forEach_rows rawData 0 (initial_state validation) in
      {| data := processedData st;
         validation :=
           if (0 <? length (errors (report st)))%nat
           then set_isValid false (report st)
           else report st |}.

(** *** standardizeCountryNames *)

(** The property names every object literal inherits from
    [Object.prototype]; each holds a function, except the accessor
    [__proto__], whose getter returns the prototype object. *)
Definition OBJECT_PROTOTYPE : list string :=
  ["constructor"; "__defineGetter__"; "__defineSetter__"; "hasOwnProperty";
   "__lookupGetter__"; "__lookupSetter__"; "isPrototypeOf";
   "propertyIsEnumerable"; "toString"; "valueOf"; "__proto__";
   "toLocaleString"].

(** ToPropertyKey of a [country] value.  A built-in function prints as
    [function f() { [native code] }] ([Object.prototype.constructor] is the
    function named [Object]) and the prototype object as
    [[object Object]]. *)
Definition property_key (c : country_name) : string :=
  match c with
  | Name s => s
  | Inherited m =>
      if String.eqb m "__proto__" then "[object Object]"
      else
        "function "
        +:+ (if String.eqb m "constructor" then "Object" else m)
        +:+ "() { [native code] }"
  end.

(** [COUNTRY_NAME_MAPPINGS[k]]: the own property, else the inherited one,
    else [undefined]. *)
Definition mapping_lookup (k : string) : option country_name :=
  match assoc k COUNTRY_NAME_MAPPINGS with
  | Some canonical => Some (Name canonical)
  | None => if includes OBJECT_PROTOTYPE k then Some (Inherited k) else None
  end.

(** ToBoolean of a [country] value: objects are truthy. *)
Definition name_truthy (c : country_name) : bool :=
  match c with
  | Name s => negb (String.eqb s "")
  | Inherited _ => true
  end.

(** [COUNTRY_NAME_MAPPINGS[item.country] || item.country] *)
Definition standardizeCountryName (c : country_name) : country_name :=
  match mapping_lookup (property_key c) with
  | Some found => if name_truthy found then found else c
  | None => c
  end.

Definition standardizeCountryNames (data : list CountryData)
    : list CountryData :=
  map (fun item =>
         {| country := standardizeCountryName (country item);
            ai := ai item;
            quantum := quantum item;
            semiconductors := semiconductors item;
            biotech := biotech item;
            space := space item;
            fintech := fintech item;
            totalScore := totalScore item;
            sectorScores := sectorScores item |})
    data.

(** ** dataProcessing.ts *)

(** [weights.k] as an operand of [*]: a missing property is [undefined],
    which ToNumber turns into NaN. *)
Definition weight (weights : SectorWeights) (k : string) : float :=
  default nan (weights !! k).

(** The callback of [standardizedData.map] in [processExcelData]. *)
Definition score_country (weights : SectorWeights) (c : CountryData)
    : CountryData :=
  let sectorScores :=
    [("ai", (parseFloat (ai c) * weight weights "ai")%float);
     ("quantum", (parseFloat (quantum c) * weight weights "quantum")%float);
     ("semiconductors",
       (parseFloat (semiconductors c) * weight weights "semiconductors")%float);
     ("biotech", (parseFloat (biotech c) * weight weights "biotech")%float);
     ("space", (parseFloat (space c) * weight weights "space")%float);
     ("fintech", (parseFloat (fintech c) * weight weights "fintech")%float)] in
  let totalScore := sum_values sectorScores in
  {| country := country c;
     ai := ai c;
     quantum := quantum c;
     semiconductors := semiconductors c;
     biotech := biotech c;
     space := space c;
     fintech := fintech c;
     totalScore := totalScore;
     sectorScores := sectorScores |}.

(** No step of the embedded pipeline throws on these inputs, so the [catch]
    branch (which also returns the empty list) is not reached. *)
Definition processExcelData (rawData : list row) (weights : SectorWeights)
    : list CountryData :=
  let result := validateAndProcessData rawData in
  if negb (isValid (validation result)) then []
  else map (score_country weights) (standardizeCountryNames (data result)).

End Pipeline.


(** ** constants.ts *)

Definition defaultSectorWeights : SectorWeights :=
  list_to_map
    [("ai", 0.2%float); ("quantum", 0.1%float); ("semiconductors", 0.2%float);
     ("biotech", 0.2%float); ("space", 0.2%float); ("fintech", 0.1%float)].

(** ** Vocabulary of the specification *)

(** The six sector keys, in the order the specification fixes. *)
Definition SECTORS : list string :=
  ["ai"; "quantum"; "semiconductors"; "biotech"; "space"; "fintech"].

(** The raw (unweighted) cell a record keeps for a sector key. *)
Definition raw_cell (c : CountryData) (k : string) : value :=
  if String.eqb k "ai" then ai c
  else if String.eqb k "quantum" then quantum c
  else if String.eqb k "semiconductors" then semiconductors c
  else if String.eqb k "biotech" then biotech c
  else if String.eqb k "space" then space c
  else if String.eqb k "fintech" then fintech c
  else VUndefined.

(** The dot product of raw scores and weights, accumulated from 0 over the
    keys in the order given. *)
Definition dot_product (raw w : string → float) (ks : list string) : float :=
  fold_left (fun acc k => (acc + raw k * w k)%float) ks 0%float.

(** [Math.abs(a - b) <= tol] *)
Definition within_tolerance (tol a b : float) : bool :=
  (abs (a - b) <=? tol)%float.

(** The required columns that the first row lacks. *)
Definition missing_columns (first : row) : list string :=
  List.filter (λ col, negb (includes (keys_of_row first) col)) REQUIRED_COLUMNS.

(** The fresh [validation] object. *)
Definition fresh_validation : ValidationResult :=
  {| isValid := true; errors := []; warnings := [] |}.

(** ** Sample inputs *)

(** A spreadsheet row with the seven required columns. *)
Definition sample_object (c a q s b sp f : value) : object :=
  <["Country" := c]> (<["AI" := a]> (<["Quantum" := q]>
    (<["Semiconductors" := s]> (<["Biotech" := b]> (<["Space" := sp]>
    (<["Fintech" := f]> ∅)))))).

Definition sample_row (c a q s b sp f : value) : row :=
  Some (sample_object c a q s b sp f).

Definition row_japan : row :=
  sample_row (VStr "Japan") (VNum 0.5) (VNum 0.25) (VNum 0.75) (VNum 0.5)
    (VNum 1) (VNum 0.125).

Definition row_usa : row :=
  sample_row (VStr "USA") (VNum 1) (VStr "0.5") (VNum 0.75) (VNum 0.5)
    (VNum 2) (VNum 0.25).

(** The default weights with the [quantum] key removed. *)
Definition weights_without_quantum : SectorWeights :=
  delete "quantum" defaultSectorWeights.

(** What a record exposes apart from [totalScore] and [sectorScores]: its
    country and its six raw cells. *)
Definition same_raw_fields (r1 r2 : CountryData) : Prop :=
  country r1 = country r2 ∧ ∀ j, raw_cell r1 j = raw_cell r2 j.

(** The spreadsheet column behind an internal field name
    ([COLUMN_MAPPINGS] read from right to left). *)
Definition column_of (k : string) : string :=
  if String.eqb k "country" then "Country"
  else if String.eqb k "ai" then "AI"
  else if String.eqb k "quantum" then "Quantum"
  else if String.eqb k "semiconductors" then "Semiconductors"
  else if String.eqb k "biotech" then "Biotech"
  else if String.eqb k "space" then "Space"
  else if String.eqb k "fintech" then "Fintech"
  else "".

(** *** What one row contributes, in the words of the specification

    [cell k] is the raw cell of the row for sector [k]; [x] is what it parses
    to. *)

(** Non-numeric or negative: the value that excludes a row. *)
Definition rejected (x : float) : bool :=
  is_nan x || (x <? 0)%float.

(** The error entry, if any, that a parsed sector value causes. *)
Definition sector_error (name k : string) (x : float) : option string :=
  if is_nan x then Some ("Invalid " +:+ k +:+ " value for " +:+ name)
  else if (x <? 0)%float then Some ("Negative " +:+ k +:+ " value for " +:+ name)
  else None.

(** The warning entry, if any, that a parsed sector value causes. *)
Definition sector_warning (name k : string) (x : float) : option string :=
  if rejected x then None
  else if (1 <? x)%float then Some (k +:+ " value > 1 for " +:+ name)
  else None.

(** The score entry that an accepted sector value leaves. *)
Definition sector_score (k : string) (x : float) : option (string * float) :=
  if rejected x then None else Some (k, x).

Section RowOutcome.

Variable parse_string : string → float.

(** The parsed value of the sector-[k] field of a row. *)
Definition sector_value (o : object) (k : string) : float :=
  parseFloat parse_string (get o (column_of k)).

Definition row_errors (o : object) (name : string) : list string :=
  omap (λ k, sector_error name k (sector_value o k)) SECTORS.

Definition row_warnings (o : object) (name : string) : list string :=
  omap (λ k, sector_warning name k (sector_value o k)) SECTORS.

(** Some sector field of the row is non-numeric or negative. *)
Definition row_rejected (o : object) : bool :=
  existsb (λ k, rejected (sector_value o k)) SECTORS.

(** The record of a row whose six sector fields are all accepted. *)
Definition row_record (o : object) (name : string) : CountryData :=
  let scores := (λ k, (k, sector_value o k)) <$> SECTORS in
  {| country := Name (trim name);
     ai := get o "AI";
     quantum := get o "Quantum";
     semiconductors := get o "Semiconductors";
     biotech := get o "Biotech";
     space := get o "Space";
     fintech := get o "Fintech";
     totalScore := sum_values scores;
     sectorScores := scores |}.

(** The state after a row with a fresh, valid country name. *)
Definition after_fresh_row (st : validator_state) (o : object) (name : string)
    : validator_state :=
  {| processedData :=
       if row_rejected o then processedData st
       else processedData st ++ [row_record o name];
     countrySet := {[name]} ∪ countrySet st;
     report :=
       {| isValid := isValid (report st);
          errors := errors (report st) ++ row_errors o name;
          warnings := warnings (report st) ++ row_warnings o name |} |}.

(** A record that comes from a row satisfying [P]: the validator accepted
    all six sector fields of the row and built the record from its cells. *)
Definition validated_from (P : object → Prop) (d : CountryData) : Prop :=
  ∃ o name,
    P o ∧ get o "Country" = VStr name ∧ name ≠ ""
    ∧ row_rejected o = false ∧ d = row_record o name.

End RowOutcome.

(** The state after a row whose country name is rejected. *)
Definition after_invalid_name (st : validator_state) (index : nat)
    : validator_state :=
  {| processedData := processedData st;
     countrySet := countrySet st;
     report :=
       push_error ("Invalid country name at row " +:+ pretty (index + 1)%nat)
         (report st) |}.

(** The state after a row whose country name was already seen. *)
Definition after_duplicate (st : validator_state) (name : string)
    : validator_state :=
  {| processedData := processedData st;
     countrySet := countrySet st;
     report := push_warning ("Duplicate country found: " +:+ name) (report st) |}.

(** A first row without the [Quantum] column, and with a negative cell. *)
Definition row_without_quantum : row :=
  Some (delete "Quantum"
          (sample_object (VStr "Japan") (VNum (-1)) (VNum 0.25) (VNum 0.75)
             (VNum 0.5) (VNum 1) (VNum 0.125))).

(** The state in which the loop of the validator reaches row [n]. *)
Definition state_at (parse_string : string → float) (rawData : list row)
    (n : nat) : validator_state :=
  forEach_rows parse_string (take n rawData) 0 (initial_state fresh_validation).

(** A row whose only defect is a negative [biotech] value. *)
Definition object_negative_biotech : object :=
  sample_object (VStr "Chile") (VNum 0.5) (VNum 0.25) (VNum 0.75)
    (VNum (-0.5)) (VNum 1) (VNum 0.125).

(** Two loop states that differ at most in the texts of their errors and
    in [d] extra warnings on the left. *)
Definition same_up_to_warnings (d : nat) (st1 st2 : validator_state) : Prop :=
  processedData st1 = processedData st2
  ∧ countrySet st1 = countrySet st2
  ∧ isValid (report st1) = isValid (report st2)
  ∧ length (errors (report st1)) = length (errors (report st2))
  ∧ length (warnings (report st1)) = (d + length (warnings (report st2)))%nat.

(** Japan, twice: first with a negative [ai] cell, then without a defect. *)
Definition row_japan_negative : row :=
  sample_row (VStr "Japan") (VNum (-1)) (VNum 0.25) (VNum 0.75) (VNum 0.5)
    (VNum 1) (VNum 0.125).

(** A repeat of Japan whose sector cells are all defective. *)
Definition object_japan_broken : object :=
  sample_object (VStr "Japan") (VStr "n/a") (VNum (-3)) VUndefined VNull
    (VBool true) (VNum nan).

(** A row with a value above 1, which only draws a warning. *)
Definition row_above_one : row :=
  sample_row (VStr "Chile") (VNum 0.5) (VNum 0.25) (VNum 7) (VNum 0.5)
    (VNum 1) (VNum 0.125).

(** Rows whose countries differ only by an alias, by surrounding blanks, or
    are blank altogether. *)
Definition row_blank : row :=
  sample_row (VStr "  ") (VNum 0.5) (VNum 0.25) (VNum 0.75) (VNum 0.5)
    (VNum 1) (VNum 0.125).

Definition row_us : row :=
  sample_row (VStr "US") (VNum 0.5) (VNum 0.25) (VNum 0.75) (VNum 0.5)
    (VNum 1) (VNum 0.125).

Definition row_japan_padded : row :=
  sample_row (VStr "Japan ") (VNum 0.5) (VNum 0.25) (VNum 0.75) (VNum 0.5)
    (VNum 1) (VNum 0.125).

(** A validated record for a country name, with fixed scores. *)
Definition sample_record (c : country_name) : CountryData :=
  {| country := c;
     ai := VNum 0.5; quantum := VNum 0.25; semiconductors := VNum 0.75;
     biotech := VNum 0.5; space := VNum 1; fintech := VNum 0.125;
     totalScore := 3.125;
     sectorScores :=
       [("ai", 0.5%float); ("quantum", 0.25%float);
        ("semiconductors", 0.75%float); ("biotech", 0.5%float);
        ("space", 1%float); ("fintech", 0.125%float)] |}.

(** A spreadsheet row for a country spelled like a property of
    [Object.prototype]. *)
Definition row_constructor : row :=
  sample_row (VStr "constructor") (VNum 0.5) (VNum 0.25) (VNum 0.75)
    (VNum 0.5) (VNum 1) (VNum 0.125).

(** ** Further vocabulary *)

(** The cell of a row for a column, [None] when the row is a hole or has no
    such property. *)
Definition cell_of (r : row) (col : string) : option value :=
  r ≫= (λ o : object, o !! col).

(** Two rows that agree on being empty and on the seven required cells. *)
Definition same_required_cells (r r' : row) : Prop :=
  (keys_of_row r = [] ↔ keys_of_row r' = [])
  ∧ ∀ col, col ∈ REQUIRED_COLUMNS → cell_of r col = cell_of r' col.

(** Two loop states that differ at most in the texts of their errors. *)
Definition same_but_error_texts (st1 st2 : validator_state) : Prop :=
  processedData st1 = processedData st2
  ∧ countrySet st1 = countrySet st2
  ∧ isValid (report st1) = isValid (report st2)
  ∧ warnings (report st1) = warnings (report st2)
  ∧ length (errors (report st1)) = length (errors (report st2)).

(** A row with a country and nothing else, and rows with extra columns. *)
Definition row_country_only : row := Some {["Country" := VStr "Peru"]}.

Definition row_japan_annotated : row :=
  Some (<["Notes" := VStr "revised"]>
          (sample_object (VStr "Japan") (VNum 0.5) (VNum 0.25) (VNum 0.75)
             (VNum 0.5) (VNum 1) (VNum 0.125))).

Definition object_numeric_country : object :=
  sample_object (VNum 42) (VStr "x") (VNum (-1)) (VNum 0.75) (VNum 0.5)
    (VNum 1) (VNum 0.125).

Definition object_infinite_space : object :=
  sample_object (VStr "Chile") (VNum 0.5) (VNum 0.25) (VNum 0.75) (VNum 0.5)
    (VNum infinity) (VNum 0.125).

(** A row none of whose six sector cells is a string. *)
Definition sector_cells_not_strings (r : row) : Prop :=
  ∀ o k, r = Some o → k ∈ SECTORS → typeof_string (get o (column_of k)) = false.

(** A second reading of strings, unlike [parseFloat_string]. *)
Definition parse_nothing : string → float := λ _, nan.

(** ** parseXlsxData (dataProcessing.ts), also inlined in App's [onDrop]

    [XLSX.read], [decode_range] and [encode_cell] belong to the xlsx
    library.  A worksheet is taken as decoded: [ref] is the range that
    [decode_range(worksheet['!ref'] || 'A1')] returns, with 0-based rows and
    columns, and [cells] maps the position that [encode_cell] names to the
    [v] field of the cell object stored there ([VUndefined] when the cell
    object has no [v]). *)

Record sheet_range : Type := mkRange {
  s_r : nat;
  s_c : nat;
  e_r : nat;
  e_c : nat
}.

Record worksheet : Type := mkWorksheet {
  ref : sheet_range;
  cells : gmap (nat * nat) value
}.

(** The two conversions of the runtime that the reader relies on:
    [Number::toString] and [StringToNumber]. *)
Class Runtime : Type := {
  number_to_string : float → string;
  string_to_number : string → float
}.

Section Ingest.

Context `{Runtime}.

(** [Number(v)] *)
Definition Number (v : value) : float :=
  match v with
  | VUndefined => nan
  | VNull => 0%float
  | VBool b => if b then 1%float else 0%float
  | VNum x => x
  | VStr s => string_to_number s
  end.

(** ToPropertyKey of a primitive used as [row[header]]. *)
Definition property_name (v : value) : string :=
  match v with
  | VStr s => s
  | VNum x => number_to_string x
  | VBool b => if b then "true" else "false"
  | VNull => "null"
  | VUndefined => "undefined"
  end.

(** [cell?.v || ''] for the cell object, if any, at a position. *)
Definition header_of (cell : option value) : value :=
  match cell with
  | Some v => if truthy v then v else VStr ""
  | None => VStr ""
  end.

(** [cell ? Number(cell.v) : 0] *)
Definition cell_number (ws : worksheet) (R C : nat) : float :=
  match cells ws !! (R, C) with
  | Some v => Number v
  | None => 0%float
  end.

(** [row[key] = x] on an object literal: an own property is created or
    overwritten, except for [__proto__], whose inherited setter ignores a
    number. *)
Definition assign (key : string) (x : value) (o : object) : object :=
  if String.eqb key "__proto__" then o else <[key := x]> o.

(** [headers.forEach((header, index) => ...)], from [index] on. *)
Fixpoint forEach_headers (ws : worksheet) (R : nat) (headers : list value)
    (index : nat) (o : object) : object :=
  match headers with
  | [] => o
  | header :: rest =>
      forEach_headers ws R rest (S index)
        (assign (property_name header)
           (VNum (cell_number ws R (index + 1))) o)
  end.

(** The first loop: the header cells right of the first column. *)
Definition read_headers (ws : worksheet) : list value :=
  (λ C, header_of (cells ws !! (s_r (ref ws), C)))
    <$> seq (s_c (ref ws) + 1) (e_c (ref ws) - s_c (ref ws)).

(** The body of the second loop; [None] stands for [continue]. *)
Definition read_row (ws : worksheet) (headers : list value) (R : nat)
    : option row :=
  match cells ws !! (R, s_c (ref ws)) with
  | None => None
  | Some v =>
      Some (Some (forEach_headers ws R headers 0 {["Country" := v]}))
  end.

Definition parseXlsxData (ws : worksheet) : list row :=
  let headers := read_headers ws in
  omap (read_row ws headers) (seq (s_r (ref ws) + 1) (e_r (ref ws) - s_r (ref ws))).

(** What [onDrop] does with a decoded sheet: the records to display, or the
    message it passes to [setError]. *)
Definition onDrop (parse_string : string → float) (ws : worksheet)
    (sectorWeights : SectorWeights) : string + list CountryData :=
  let jsonData := parseXlsxData ws in
  let processedData := processExcelData parse_string jsonData sectorWeights in
  if (length processedData =? 0)%nat then
    inl "Failed to process data. Please check the file format and try again."
  else inr processedData.

(** The key that the header at column [C] of the header row becomes. *)
Definition header_key (ws : worksheet) (C : nat) : string :=
  property_name (header_of (cells ws !! (s_r (ref ws), C))).

End Ingest.

(** A sheet laid out as the application expects: names in column A, the six
    sector columns under their headers, one country per row.  The cell C3
    (Peru, Quantum) is empty. *)
Definition sample_sheet : worksheet :=
  {| ref := {| s_r := 0; s_c := 0; e_r := 2; e_c := 6 |};
     cells :=
       list_to_map
         [((0, 0), VStr "Name"); ((0, 1), VStr "AI"); ((0, 2), VStr "Quantum");
          ((0, 3), VStr "Semiconductors"); ((0, 4), VStr "Biotech");
          ((0, 5), VStr "Space"); ((0, 6), VStr "Fintech");
          ((1, 0), VStr "Japan"); ((1, 1), VNum 0.5); ((1, 2), VNum 0.25);
          ((1, 3), VNum 0.75); ((1, 4), VNum 0.5); ((1, 5), VNum 1);
          ((1, 6), VNum 0.125);
          ((2, 0), VStr "Peru"); ((2, 1), VNum 0.25);
          ((2, 3), VNum 0.5); ((2, 4), VNum 0.5); ((2, 5), VNum 0.75);
          ((2, 6), VNum 1)] |}.

(** The same sheet without its data rows. *)
Definition headers_only_sheet : worksheet :=
  {| ref := {| s_r := 0; s_c := 0; e_r := 0; e_c := 6 |};
     cells := cells sample_sheet |}.

(** Stand-ins for the two conversions on the samples, which never call
    them: their headers are strings and their data cells are numbers. *)
#[export] Instance sample_runtime : Runtime :=
  {| number_to_string := λ _, ""; string_to_number := λ _, nan |}.

(** The sample sheet with a second header named [Country]. *)
Definition country_header_sheet : worksheet :=
  {| ref := ref sample_sheet;
     cells := <[(0, 3) := VStr "Country"]> (cells sample_sheet) |}.

(** ** calculateColorIntensity (dataProcessing.ts) *)

(** [Math.min(a, b)] and [Math.max(a, b)]: NaN if either argument is NaN;
    [-0] counts as smaller than [+0]. *)
Definition Math_min (a b : float) : float :=
  if is_nan a || is_nan b then nan
  else if (a <? b)%float then a
  else if (b <? a)%float then b
  else if is_zero a && negb (get_sign a) then b
  else a.

Definition Math_max (a b : float) : float :=
  if is_nan a || is_nan b then nan
  else if (a <? b)%float then b
  else if (b <? a)%float then a
  else if is_zero a && get_sign a then b
  else a.

(** [const intensity = Math.max(0, Math.min(0.9, value / max))] *)
Definition color_intensity (value max : float) : float :=
  Math_max 0 (Math_min 0.9 (value / max)).

Definition calculateColorIntensity `{Runtime} (value max : float) : string :=
  "rgba(34, 197, 94, " +:+ number_to_string (color_intensity value max) +:+ ")".

(** ** fromHexString (encoding.ts) *)

(** The line terminators below U+0100, which [.] does not match. *)
Definition is_line_terminator (a : ascii) : bool :=
  match a with
  | "010"%char | "013"%char => true
  | _ => false
  end.

(** [hexString.match(/.{1,2}/g) ?? []]: from left to right, the greedy
    matches of one or two code units that are not line terminators; [null]
    (no match) becomes the empty array. *)
Fixpoint match_chunks (s : string) : list string :=
  match s with
  | EmptyString => []
  | String a s' =>
      if is_line_terminator a then match_chunks s'
      else
        match s' with
        | EmptyString => [String a EmptyString]
        | String b s'' =>
            if is_line_terminator b then String a EmptyString :: match_chunks s''
            else String a (String b EmptyString) :: match_chunks s''
        end
  end.

(** The value of a digit in radix 16. *)
Definition hex_digit (a : ascii) : option Z :=
  let n := Z.of_nat (nat_of_ascii a) in
  if ((48 <=? n) && (n <=? 57))%Z then Some (n - 48)%Z
  else if ((97 <=? n) && (n <=? 102))%Z then Some (n - 87)%Z
  else if ((65 <=? n) && (n <=? 70))%Z then Some (n - 55)%Z
  else None.

(** The value of the longest prefix of radix-16 digits, [acc] being the
    value read so far and [seen] telling whether a digit was read. *)
Fixpoint hex_prefix (s : string) (acc : Z) (seen : bool) : option Z :=
  match s with
  | EmptyString => if seen then Some acc else None
  | String a s' =>
      match hex_digit a with
      | Some d => hex_prefix s' (16 * acc + d)%Z true
      | None => if seen then Some acc else None
      end
  end.

(** [parseInt(s, 16)] as an integer, [None] for NaN: leading white space is
    dropped, then a sign, then a [0x] or [0X] prefix, and the longest run of
    digits is read.  [-0] is not told from [0], and the integer is the
    exact one, which is the number returned as long as it is below 2^53
    (as for the chunks of at most two code units read here). *)
Definition parseInt16 (s : string) : option Z :=
  let S := trimStart s in
  let sign := match S with String "-" _ => (-1)%Z | _ => 1%Z end in
  let S := match S with String "-" r | String "+" r => r | _ => S end in
  let S := match S with
           | String "0" (String "x" r) | String "0" (String "X" r) => r
           | _ => S
           end in
  Z.mul sign <$> hex_prefix S 0 false.

(** The conversion of [Uint8Array.from] for an integer or NaN. *)
Definition ToUint8 (x : option Z) : Z :=
  match x with
  | None => 0%Z
  | Some n => (n mod 256)%Z
  end.

Definition fromHexString (hexString : string) : list Z :=
  (λ byte, ToUint8 (parseInt16 byte)) <$> match_chunks hexString.

(** *** The encoding that [fromHexString] reads back *)

(** The lower-case digit of a value below 16. *)
Definition hex_char (d : Z) : ascii :=
  ascii_of_nat (Z.to_nat (if (d <? 10)%Z then d + 48 else d + 87)%Z).

(** Two digits per byte, high digit first. *)
Fixpoint to_hex (bytes : list Z) : string :=
  match bytes with
  | [] => EmptyString
  | b :: rest =>
      String (hex_char (b / 16)) (String (hex_char (b mod 16)) (to_hex rest))
  end.


(** ** App.tsx: the weight sliders *)

(** [setSectorWeights(prev => ({ ...prev, [sector]: value }))]: the weights
    object that replaces [prev].  A computed key defines an own property,
    whatever its name. *)
Definition handleSectorWeightChange (prev : SectorWeights) (sector : string)
    (value : float) : SectorWeights :=
  <[sector := value]> prev.

(** ** Scores that leave the finite range *)

(** A row that the validator accepts (with a "> 1" warning) and whose [AI]
    cell is close to the largest binary64 number. *)
Definition row_huge : row :=
  sample_row (VStr "Japan") (VNum 1e308) (VNum 0.25) (VNum 0.75) (VNum 0.5)
    (VNum 1) (VNum 0.125).

(** A row that the validator accepts and whose [AI] cell is [Infinity]. *)
Definition row_infinite : row :=
  sample_row (VStr "Japan") (VNum infinity) (VNum 0.25) (VNum 0.75) (VNum 0.5)
    (VNum 1) (VNum 0.125).

(** The default weights with the weight of [ai] set to 10, and to 0. *)
Definition weights_ai_ten : SectorWeights :=
  <["ai" := 10%float]> defaultSectorWeights.

Definition weights_ai_zero : SectorWeights :=
  <["ai" := 0%float]> defaultSectorWeights.

(** ** Rows without a country name *)

(** Two rows whose [Country] cell is the same empty string, the second with
    defective sector cells. *)
Definition row_nameless : row :=
  sample_row (VStr "") (VNum 0.5) (VNum 0.25) (VNum 0.75) (VNum 0.5)
    (VNum 1) (VNum 0.125).

Definition row_nameless_broken : row :=
  sample_row (VStr "") (VStr "n/a") (VNum (-3)) VUndefined VNull
    (VBool true) (VNum nan).

(** * Properties *)

(** Case analysis on a sector key known to be one of the six: replaces the
    key by each of them in turn. *)
Ltac each_sector H :=
  unfold SECTORS in H; rewrite !elem_of_cons, elem_of_nil in H;
  destruct H as [-> | [-> | [-> | [-> | [-> | [-> | []]]]]]].

(** ** Floating-point facts *)

Section FloatFacts.

Local Open Scope float_scope.

Lemma add_nan_r (x : float) : x + nan = nan.
Proof.
  apply Prim2SF_inj. rewrite add_spec.
  change (Prim2SF nan) with S754_nan.
  unfold SF64add. now destruct (Prim2SF x).
Qed.

Lemma add_nan_l (x : float) : nan + x = nan.
Proof.
  apply Prim2SF_inj. rewrite add_spec.
  change (Prim2SF nan) with S754_nan. reflexivity.
Qed.

Lemma mul_nan_r (x : float) : x * nan = nan.
Proof.
  apply Prim2SF_inj. rewrite mul_spec.
  change (Prim2SF nan) with S754_nan.
  unfold SF64mul. now destruct (Prim2SF x).
Qed.

Lemma is_finite_nan : is_finite nan = false.
Proof. reflexivity. Qed.

(** A finite number minus itself is [+0]. *)
Lemma sub_diag_finite (x : float) : is_finite x = true → x - x = 0.
Proof.
  unfold is_finite, is_nan, is_infinity.
  rewrite !FloatAxioms.eqb_spec, abs_spec. intros Hfin.
  apply Prim2SF_inj. rewrite sub_spec.
  change (Prim2SF 0) with (S754_zero false).
  change (Prim2SF infinity) with (S754_infinity false) in Hfin.
  unfold SF64sub.
  destruct (Prim2SF x) as [s | s | | s m e].
  - now destruct s.
  - destruct s; vm_compute in Hfin; discriminate.
  - vm_compute in Hfin; discriminate.
  - cbn [SFsub]. now rewrite Z.sub_diag.
Qed.

(** A number below another one is not NaN. *)
Lemma ltb_not_nan (x y : float) : (x <? y) = true → is_nan x = false.
Proof.
  unfold is_nan. rewrite ltb_spec, FloatAxioms.eqb_spec.
  unfold SFltb, SFeqb.
  destruct (Prim2SF x) as [s | s | | s m e]; cbn [SFcompare negb].
  - done.
  - by destruct s.
  - done.
  - intros _. destruct s; rewrite Z.compare_refl;
      change (Pos.compare_cont Eq m m) with (m ?= m)%positive;
      by rewrite Pos.compare_refl.
Qed.

End FloatFacts.

(** ** The scorer *)

Section Scorer.

Variable parse_string : string → float.

Local Open Scope float_scope.

Lemma score_country_total (weights : SectorWeights) (c : CountryData) :
  totalScore (score_country parse_string weights c)
  = dot_product (λ k, parseFloat parse_string (raw_cell c k))
      (weight weights) SECTORS.
Proof. reflexivity. Qed.

Lemma score_country_raw_cell (weights : SectorWeights) (c : CountryData) k :
  raw_cell (score_country parse_string weights c) k = raw_cell c k.
Proof. reflexivity. Qed.

Lemma dot_product_ext (raw w w' : string → float) (ks : list string) :
  Forall (λ k, w k = w' k) ks →
  dot_product raw w ks = dot_product raw w' ks.
Proof.
  unfold dot_product. intros Hks. generalize 0.
  induction Hks as [|k ks Hk _ IH]; intros acc; simpl; [done|].
  now rewrite Hk, IH.
Qed.

Lemma within_tolerance_refl (x : float) :
  is_finite x = true → within_tolerance 1e-9 x x = true.
Proof.
  intros Hx. unfold within_tolerance. now rewrite sub_diag_finite.
Qed.

End Scorer.

(** ** Changing or omitting one weight *)

Section Weights.

Variable parse_string : string → float.

Local Open Scope float_scope.

Lemma sector_contribution (weights : SectorWeights) (c : CountryData) j :
  j ∈ SECTORS →
  assoc j (sectorScores (score_country parse_string weights c))
  = Some (parseFloat parse_string (raw_cell c j) * weight weights j).
Proof.
  intros Hj. each_sector Hj; reflexivity.
Qed.

Lemma sector_contribution_other (weights : SectorWeights) (c : CountryData) j :
  j ∉ SECTORS →
  assoc j (sectorScores (score_country parse_string weights c)) = None.
Proof.
  unfold SECTORS. rewrite !not_elem_of_cons. intros (?&?&?&?&?&?&_).
  cbn [score_country sectorScores assoc].
  repeat match goal with
         | |- context [String.eqb j ?s] =>
             destruct (String.eqb_spec j s); [congruence|]
         end.
  reflexivity.
Qed.

Lemma sectorScores_keys (weights : SectorWeights) (c : CountryData) :
  (sectorScores (score_country parse_string weights c)).*1 = SECTORS.
Proof. reflexivity. Qed.

(** Two weight objects that agree on a key give the same contribution for
    that key. *)
Lemma score_country_agree (w1 w2 : SectorWeights) (c : CountryData) j :
  w1 !! j = w2 !! j →
  assoc j (sectorScores (score_country parse_string w1 c))
  = assoc j (sectorScores (score_country parse_string w2 c)).
Proof.
  intros Hj. destruct (decide (j ∈ SECTORS)) as [Hin | Hout].
  - rewrite !sector_contribution by done. unfold weight. now rewrite Hj.
  - now rewrite !sector_contribution_other.
Qed.

Lemma score_country_same_raw (w1 w2 : SectorWeights) (c : CountryData) :
  same_raw_fields (score_country parse_string w1 c)
    (score_country parse_string w2 c).
Proof. split; reflexivity. Qed.

(** The outputs of two runs on the same rows are related record by record
    by any relation that holds between the two scorings of one record. *)
Lemma processExcelData_pointwise (R : CountryData → CountryData → Prop)
    (rawData : list row) (w1 w2 : SectorWeights) :
  (∀ c, R (score_country parse_string w1 c) (score_country parse_string w2 c)) →
  Forall2 R (processExcelData parse_string rawData w1)
    (processExcelData parse_string rawData w2).
Proof.
  intros HR. unfold processExcelData.
  destruct (negb _); [constructor|].
  apply Forall2_fmap, Forall_Forall2_diag, Forall_forall. intros c _. apply HR.
Qed.

(** A missing weight poisons the sum. *)
Lemma score_country_missing_weight (weights : SectorWeights) (c : CountryData) k :
  k ∈ SECTORS → weights !! k = None →
  totalScore (score_country parse_string weights c) = nan.
Proof.
  intros Hk Hnone.
  assert (Hw : weight weights k = nan) by (unfold weight; now rewrite Hnone).
  cbn [score_country totalScore sum_values map fold_left snd].
  each_sector Hk; rewrite Hw, mul_nan_r, ?add_nan_r, ?add_nan_l; reflexivity.
Qed.

(** C2, as amended.  When a sector key [k] is absent from the weights, the
    scorer does not fail, but it does not treat the weight as 0 either:
    [weights[k]] reads as [undefined], so in every output record the
    contribution of [k] and [totalScore] are NaN (not finite).  Everything
    else -- the country, the raw cells, the contributions of the other
    sectors -- is what the weights extended with [weights[k] = 0] give. *)
Theorem missing_weight_gives_nan
    (rawData : list row) (weights : SectorWeights) (k : string) :
  k ∈ SECTORS → weights !! k = None →
  Forall2 (λ r r0,
             same_raw_fields r r0
             ∧ (∀ j, j ≠ k → assoc j (sectorScores r) = assoc j (sectorScores r0))
             ∧ assoc k (sectorScores r) = Some nan
             ∧ totalScore r = nan
             ∧ is_finite (totalScore r) = false)
    (processExcelData parse_string rawData weights)
    (processExcelData parse_string rawData (<[k := 0]> weights)).
Proof.
  intros Hk Hnone. apply processExcelData_pointwise. intros c.
  split; [apply score_country_same_raw|].
  split; [intros j Hj; apply score_country_agree; now rewrite lookup_insert_ne|].
  split.
  { rewrite sector_contribution by done. unfold weight.
    now rewrite Hnone, mul_nan_r. }
  now rewrite (score_country_missing_weight _ _ k).
Qed.

(** C9.  Two weight configurations that differ only in the weight of sector
    [k] give outputs that agree, record by record, on every field except
    [totalScore] and the weighted contribution of [k]: same country, same raw
    cells, same contribution for every other sector. *)
Theorem rescoring_frame
    (rawData : list row) (w1 w2 : SectorWeights) (k : string) :
  (∀ j, j ≠ k → w1 !! j = w2 !! j) →
  Forall2 (λ r1 r2,
             same_raw_fields r1 r2
             ∧ (sectorScores r1).*1 = (sectorScores r2).*1
             ∧ ∀ j, j ≠ k → assoc j (sectorScores r1) = assoc j (sectorScores r2))
    (processExcelData parse_string rawData w1)
    (processExcelData parse_string rawData w2).
Proof.
  intros Hw. apply processExcelData_pointwise. intros c.
  split; [apply score_country_same_raw|].
  split; [reflexivity|].
  intros j Hj. apply score_country_agree. now apply Hw.
Qed.

End Weights.

Lemma missing_weight_gives_nan_witness :
  Forall2 (λ r r0,
             same_raw_fields r r0
             ∧ (∀ j, j ≠ "quantum" →
                  assoc j (sectorScores r) = assoc j (sectorScores r0))
             ∧ assoc "quantum" (sectorScores r) = Some nan
             ∧ totalScore r = nan
             ∧ is_finite (totalScore r) = false)
    (processExcelData parseFloat_string [row_japan; row_usa]
       weights_without_quantum)
    (processExcelData parseFloat_string [row_japan; row_usa]
       (<["quantum" := 0%float]> weights_without_quantum)).
Proof.
  apply (missing_weight_gives_nan parseFloat_string [row_japan; row_usa]
           weights_without_quantum "quantum").
  - unfold SECTORS. set_solver.
  - reflexivity.
Defined.

(** C2 as stated fails: without the [quantum] weight the scores are NaN, while
    with [quantum = 0] they are finite numbers. *)
Lemma missing_weight_is_not_zero :
  let out :=
    processExcelData parseFloat_string [row_japan] weights_without_quantum in
  let out0 :=
    processExcelData parseFloat_string [row_japan]
      (<["quantum" := 0%float]> weights_without_quantum) in
  out ≠ out0
  ∧ (λ r, is_finite (totalScore r)) <$> out = [false]
  ∧ (λ r, is_finite (totalScore r)) <$> out0 = [true].
Proof.
  cbv zeta. split; [|split; vm_compute; reflexivity].
  intros Heq.
  apply (f_equal (fmap (λ r, is_finite (totalScore r)))) in Heq.
  vm_compute in Heq. discriminate.
Qed.

Lemma rescoring_frame_witness :
  Forall2 (λ r1 r2,
             same_raw_fields r1 r2
             ∧ (sectorScores r1).*1 = (sectorScores r2).*1
             ∧ ∀ j, j ≠ "ai" → assoc j (sectorScores r1) = assoc j (sectorScores r2))
    (processExcelData parseFloat_string [row_japan; row_usa]
       defaultSectorWeights)
    (processExcelData parseFloat_string [row_japan; row_usa]
       (<["ai" := 0.5%float]> defaultSectorWeights)).
Proof.
  apply (rescoring_frame parseFloat_string [row_japan; row_usa]
           defaultSectorWeights (<["ai" := 0.5%float]> defaultSectorWeights)
           "ai").
  intros j Hj. now rewrite lookup_insert_ne.
Defined.

(** ** Runtime helpers *)

Lemma elem_of_keys (o : object) (k : string) : k ∈ keys o ↔ is_Some (o !! k).
Proof.
  unfold keys. rewrite list_elem_of_fmap. split.
  - intros [[k' v] [-> Hin]]. apply elem_of_map_to_list in Hin. by eexists.
  - intros [v Hv]. exists (k, v). split; [done|]. by apply elem_of_map_to_list.
Qed.

Lemma map_columns_lookup (o : object) (k : string) :
  k ∈ "country" :: SECTORS → get (map_columns o) k = get o (column_of k).
Proof.
  unfold SECTORS. rewrite !elem_of_cons, elem_of_nil.
  intros [-> | [-> | [-> | [-> | [-> | [-> | [-> | []]]]]]]];
    unfold map_columns, get; cbn [fold_left COLUMN_MAPPINGS];
    by simplify_map_eq.
Qed.

Lemma trimStart_fixed (s : string) :
  match s with String a _ => is_white a = false | EmptyString => True end →
  trimStart s = s.
Proof. destruct s as [|a s]; [done|]. cbn. by intros ->. Qed.

Lemma trimEnd_head (a : ascii) (s : string) :
  is_white a = false → ∃ t, trimEnd (String a s) = String a t.
Proof.
  intros Ha. cbn. destruct (trimEnd s); rewrite ?Ha; by eexists.
Qed.

Lemma trimStart_head (s : string) :
  match trimStart s with
  | String a _ => is_white a = false
  | EmptyString => True
  end.
Proof.
  induction s as [|a s IH]; [done|]. cbn.
  destruct (is_white a) eqn:Ha; [done|]. by rewrite Ha.
Qed.

Lemma trimEnd_idemp (s : string) : trimEnd (trimEnd s) = trimEnd s.
Proof.
  induction s as [|a s IH]; [done|]. cbn.
  destruct (trimEnd s) as [|b t] eqn:Ht.
  - destruct (is_white a) eqn:Ha; [done|]. cbn. by rewrite Ha.
  - cbn [trimEnd] in *. by rewrite IH.
Qed.

(** [trim] leaves a trimmed string alone. *)
Lemma trim_idemp (s : string) : trim (trim s) = trim s.
Proof.
  unfold trim. pose proof (trimStart_head s) as Hhead.
  destruct (trimStart s) as [|a t] eqn:Hs; [done|].
  destruct (trimEnd_head a t Hhead) as [u Hu].
  rewrite (trimStart_fixed (trimEnd (String a t))).
  - apply trimEnd_idemp.
  - by rewrite Hu.
Qed.

(** ** One row of the validator *)

Section Row.

Variable parse_string : string → float.

Local Open Scope float_scope.

(** The inner loop over the sectors, as a whole. *)
Lemma check_sector_fold (m : object) (name : string)
    (entries : list (string * float)) (st : sector_state) :
  let x k := parseFloat parse_string (get m k) in
  fold_left (check_sector parse_string m name) entries st
  = {| sector_report :=
         {| isValid := isValid (sector_report st);
            errors :=
              errors (sector_report st)
              ++ omap (λ k, sector_error name k (x k)) entries.*1;
            warnings :=
              warnings (sector_report st)
              ++ omap (λ k, sector_warning name k (x k)) entries.*1 |};
       scores := scores st ++ omap (λ k, sector_score k (x k)) entries.*1;
       hasInvalidScore :=
         hasInvalidScore st || existsb (λ k, rejected (x k)) entries.*1 |}.
Proof.
  cbv zeta. revert st.
  induction entries as [|[k w] entries IH]; intros [[v es ws] sc h].
  - cbn. by rewrite !app_nil_r, orb_false_r.
  - cbn [fold_left fmap list_fmap omap list_omap existsb fst]. rewrite IH.
    unfold check_sector, sector_error, sector_warning, sector_score, rejected.
    cbn [fst sector_report scores hasInvalidScore push_error push_warning
         isValid errors warnings].
    set (x := parseFloat parse_string (get m k)).
    destruct (is_nan x); [|destruct (x <? 0)];
      cbn [orb sector_report scores hasInvalidScore isValid errors warnings];
      rewrite ?orb_true_r, ?orb_true_l, ?orb_false_l, ?app_nil_r.
    3: destruct (1 <? x).
    all: cbn [push_error push_warning isValid errors warnings app].
    all: by rewrite <- ?app_assoc.
Qed.

Lemma accepted_scores (x : string → float) (ks : list string) :
  existsb (λ k, rejected (x k)) ks = false →
  omap (λ k, sector_score k (x k)) ks = (λ k, (k, x k)) <$> ks.
Proof.
  induction ks as [|k ks IH]; [done|]. cbn.
  intros [Hk Hks]%orb_false_elim. unfold sector_score at 1.
  rewrite Hk. cbn. by rewrite IH.
Qed.

Lemma keys_nonempty (o : object) (k : string) :
  is_Some (o !! k) → (length (keys o) =? 0)%nat = false.
Proof.
  intros Hk%elem_of_keys. destruct (keys o); [by apply elem_of_nil in Hk|done].
Qed.

(** The callback of [rawData.forEach] on a row that is not empty. *)
Lemma processRow_spec (st : validator_state) (o : object) (index : nat) :
  (length (keys o) =? 0)%nat = false →
  processRow parse_string st (Some o) index
  = match get o "Country" with
    | VStr name =>
        if String.eqb name "" then after_invalid_name st index
        else if bool_decide (name ∈ countrySet st) then after_duplicate st name
        else after_fresh_row parse_string st o name
    | _ => after_invalid_name st index
    end.
Proof.
  intros Hkeys. unfold processRow. rewrite Hkeys. cbv zeta.
  rewrite (map_columns_lookup o "country") by set_solver.
  change (column_of "country") with "Country".
  destruct (get o "Country") as [| |b|x|name];
    cbn [truthy typeof_string negb orb string_of];
    rewrite ?orb_true_r; try done.
  destruct (String.eqb name ""); [done|]. cbn [negb orb].
  destruct (bool_decide (name ∈ countrySet st)); [done|].
  rewrite check_sector_fold.
  cbn [sector_report scores hasInvalidScore orb app].
  change (SECTOR_WEIGHTS.*1) with SECTORS.
  unfold after_fresh_row, row_rejected, row_errors, row_warnings, sector_value.
  unfold SECTORS.
  cbn [existsb omap list_omap].
  rewrite !(map_columns_lookup o) by (unfold SECTORS; set_solver).
  change (column_of "ai") with "AI".
  change (column_of "quantum") with "Quantum".
  change (column_of "semiconductors") with "Semiconductors".
  change (column_of "biotech") with "Biotech".
  change (column_of "space") with "Space".
  change (column_of "fintech") with "Fintech".
  match goal with |- (if ?b then _ else _) = _ => destruct b eqn:Hrej end;
    [reflexivity|].
  repeat (apply orb_false_elim in Hrej as [? Hrej]).
  unfold sector_score, row_record, sector_value.
  repeat match goal with H : rejected _ = false |- _ => rewrite H; clear H end.
  reflexivity.
Qed.

End Row.

(** ** The structural guards *)

Section Guards.

Variable parse_string : string → float.

Lemma missing_columns_spec (first : row) (col : string) :
  col ∈ missing_columns first
  ↔ col ∈ REQUIRED_COLUMNS ∧ col ∉ keys_of_row first.
Proof.
  unfold missing_columns, includes.
  rewrite list_elem_of_In, filter_In, <- list_elem_of_In, negb_true_iff.
  by rewrite bool_decide_eq_false.
Qed.

(** C4.  When [rawData] is empty, or its first row lacks one of the seven
    required columns, the validator returns no record, [isValid = false],
    no warning and exactly one error: the top-level one (for a missing
    column, the message that lists the missing columns).  No row is looked
    at, so nothing is recorded per row. *)
Theorem validator_fails_fast (rawData : list row) :
  let first := default None (head rawData) in
  rawData = [] ∨ (∃ col, col ∈ REQUIRED_COLUMNS ∧ col ∉ keys_of_row first) →
  validateAndProcessData parse_string rawData
  = {| data := [];
       validation :=
         {| isValid := false;
            errors :=
              [match rawData with
               | [] => "No data provided"
               | _ => "Missing required columns: "
                      +:+ join ", " (missing_columns first)
               end];
            warnings := [] |} |}
  ∧ (rawData ≠ [] →
     missing_columns first ≠ []
     ∧ ∀ col, col ∈ missing_columns first
              ↔ col ∈ REQUIRED_COLUMNS ∧ col ∉ keys_of_row first).
Proof.
  cbv zeta. intros Hguard. destruct rawData as [|r rest].
  { split; [reflexivity|done]. }
  destruct Hguard as [?|[col Hcol]]; [done|].
  apply missing_columns_spec in Hcol.
  assert (Hne : missing_columns (default None (head (r :: rest))) ≠ []).
  { intros Hnil. rewrite Hnil in Hcol. by apply elem_of_nil in Hcol. }
  split; [|intros _; split; [done|apply missing_columns_spec]].
  unfold validateAndProcessData. cbn [length Nat.eqb]. cbv zeta.
  fold (missing_columns (default None (head (r :: rest)))).
  destruct (missing_columns (default None (head (r :: rest)))); done.
Qed.

End Guards.

Lemma validator_fails_fast_witness :
  validateAndProcessData parseFloat_string [row_without_quantum; row_usa]
  = {| data := [];
       validation :=
         {| isValid := false;
            errors := ["Missing required columns: Quantum"];
            warnings := [] |} |}.
Proof.
  refine (proj1 (validator_fails_fast parseFloat_string
                   [row_without_quantum; row_usa] _)).
  right. exists "Quantum". split; [set_solver|].
  vm_compute. intros H. repeat (inversion H as [|??? H']; clear H; rename H' into H).
Defined.

(** ** Sector validation of one row *)

Section SectorValidation.

Variable parse_string : string → float.

Local Open Scope float_scope.

Lemma get_string_is_Some (o : object) (k name : string) :
  get o k = VStr name → is_Some (o !! k).
Proof. unfold get. destruct (o !! k); [by eexists|done]. Qed.

(** A row with a valid country name is either a duplicate or fresh. *)
Lemma processRow_named (st : validator_state) (o : object) (name : string)
    (index : nat) :
  get o "Country" = VStr name → name ≠ "" →
  processRow parse_string st (Some o) index
  = if bool_decide (name ∈ countrySet st) then after_duplicate st name
    else after_fresh_row parse_string st o name.
Proof.
  intros Hc Hname.
  rewrite processRow_spec by (eapply keys_nonempty, get_string_is_Some, Hc).
  rewrite Hc. by apply String.eqb_neq in Hname as ->.
Qed.

Lemma sector_error_length (name : string) (x : string → float)
    (ks : list string) :
  length (omap (λ k, sector_error name k (x k)) ks)
  = length (List.filter (λ k, rejected (x k)) ks).
Proof.
  induction ks as [|k ks IH]; [done|]. cbn.
  unfold sector_error at 1, rejected at 1.
  destruct (is_nan (x k)); [cbn; by rewrite IH|].
  destruct (x k <? 0); cbn; by rewrite IH.
Qed.

Lemma sector_warning_length (name : string) (x : string → float)
    (ks : list string) :
  length (omap (λ k, sector_warning name k (x k)) ks)
  = length (List.filter (λ k, negb (rejected (x k)) && (1 <? x k)) ks).
Proof.
  induction ks as [|k ks IH]; [done|]. cbn.
  unfold sector_warning at 1.
  destruct (rejected (x k)); [done|].
  destruct (1 <? x k); cbn; by rewrite IH.
Qed.

Lemma accepted_no_error (name : string) (x : string → float)
    (ks : list string) :
  existsb (λ k, rejected (x k)) ks = false →
  omap (λ k, sector_error name k (x k)) ks = [].
Proof.
  intros Hacc. apply length_zero_iff_nil. rewrite sector_error_length.
  induction ks as [|k ks IH]; [done|]. cbn in *.
  apply orb_false_elim in Hacc as [-> Hks]. by apply IH.
Qed.

(** C5.  A row that is not empty, whose country is a non-empty string not
    seen before: every sector field that parses to NaN or to a negative
    number adds one error (in sector order), every accepted field above 1
    adds one warning, and the row is excluded exactly when some field is
    non-numeric or negative; a value above 1 never excludes it.  When the
    only defect is one negative field, the row is excluded and the single
    new error names that sector and the country. *)
Theorem sector_validation (st : validator_state) (o : object) (name : string)
    (index : nat) :
  get o "Country" = VStr name → name ≠ "" → name ∉ countrySet st →
  let st' := processRow parse_string st (Some o) index in
  let x := sector_value parse_string o in
  errors (report st')
    = errors (report st) ++ omap (λ k, sector_error name k (x k)) SECTORS
  ∧ warnings (report st')
    = warnings (report st) ++ omap (λ k, sector_warning name k (x k)) SECTORS
  ∧ length (errors (report st'))
    = (length (errors (report st))
       + length (List.filter (λ k, rejected (x k)) SECTORS))%nat
  ∧ length (warnings (report st'))
    = (length (warnings (report st))
       + length (List.filter (λ k, negb (rejected (x k)) && (1 <? x k)%float)
                   SECTORS))%nat
  ∧ ((∃ k, k ∈ SECTORS ∧ rejected (x k) = true) →
     processedData st' = processedData st)
  ∧ ((∀ k, k ∈ SECTORS → rejected (x k) = false) →
     processedData st'
       = processedData st ++ [row_record parse_string o name]
     ∧ errors (report st') = errors (report st))
  ∧ (∀ k0, k0 ∈ SECTORS → (x k0 <? 0) = true →
     (∀ k, k ∈ SECTORS → k ≠ k0 → rejected (x k) = false) →
     processedData st' = processedData st
     ∧ errors (report st')
       = errors (report st) ++ ["Negative " +:+ k0 +:+ " value for " +:+ name]).
Proof.
  intros Hc Hname Hfresh. cbv zeta.
  rewrite (processRow_named st o name index Hc Hname).
  rewrite bool_decide_eq_false_2 by done.
  unfold after_fresh_row, row_errors, row_warnings, row_rejected.
  cbn [errors warnings report processedData].
  set (x := sector_value parse_string o).
  assert (Hex : (∃ k, k ∈ SECTORS ∧ rejected (x k) = true) →
                existsb (λ k, rejected (x k)) SECTORS = true).
  { intros (k & Hk & Hrej). apply existsb_exists. exists k.
    by rewrite <- list_elem_of_In. }
  assert (Hall : (∀ k, k ∈ SECTORS → rejected (x k) = false) →
                 existsb (λ k, rejected (x k)) SECTORS = false).
  { intros Hacc. apply not_true_is_false. intros (k & Hk & Hrej)%existsb_exists.
    apply list_elem_of_In in Hk. rewrite (Hacc k Hk) in Hrej. done. }
  split; [done|]. split; [done|].
  split; [by rewrite length_app, sector_error_length|].
  split; [by rewrite length_app, sector_warning_length|].
  split; [intros Hrej; by rewrite (Hex Hrej)|].
  split.
  { intros Hacc. rewrite (Hall Hacc). split; [done|].
    by rewrite accepted_no_error, app_nil_r by auto. }
  intros k0 Hk0 Hneg Hothers.
  rewrite Hex by (exists k0; split; [done|];
                  unfold rejected; by rewrite Hneg, orb_true_r).
  split; [done|]. f_equal.
  assert (Herr0 : sector_error name k0 (x k0)
                  = Some ("Negative " +:+ k0 +:+ " value for " +:+ name)).
  { unfold sector_error. by rewrite (ltb_not_nan _ _ Hneg), Hneg. }
  assert (Herr : ∀ k, k ∈ SECTORS → k ≠ k0 → sector_error name k (x k) = None).
  { intros k Hk Hne. specialize (Hothers k Hk Hne).
    unfold rejected in Hothers. apply orb_false_elim in Hothers as [Hn Hl].
    unfold sector_error. by rewrite Hn, Hl. }
  pose proof (Herr "ai" ltac:(repeat constructor)) as H1.
  pose proof (Herr "quantum" ltac:(repeat constructor)) as H2.
  pose proof (Herr "semiconductors" ltac:(repeat constructor)) as H3.
  pose proof (Herr "biotech" ltac:(repeat constructor)) as H4.
  pose proof (Herr "space" ltac:(repeat constructor)) as H5.
  pose proof (Herr "fintech" ltac:(repeat constructor)) as H6.
  clear Herr. unfold SECTORS at 1. cbn [omap list_omap].
  each_sector Hk0;
    rewrite Herr0, ?H1, ?H2, ?H3, ?H4, ?H5, ?H6 by done; done.
Qed.

End SectorValidation.

Lemma sector_validation_witness :
  let st' :=
    processRow parseFloat_string (initial_state fresh_validation)
      (Some object_negative_biotech) 0 in
  processedData st' = []
  ∧ errors (report st') = ["Negative biotech value for Chile"].
Proof.
  pose proof (sector_validation parseFloat_string
                (initial_state fresh_validation) object_negative_biotech
                "Chile" 0 eq_refl ltac:(discriminate)
                ltac:(apply not_elem_of_empty)) as H.
  cbv zeta in H. destruct H as (_ & _ & _ & _ & _ & _ & H).
  apply (H "biotech").
  - repeat constructor.
  - reflexivity.
  - intros k Hk Hne. each_sector Hk; (reflexivity || by destruct Hne).
Defined.

(** ** The loop over the rows *)

Section Loop.

Variable parse_string : string → float.

Lemma forEach_rows_app (rows1 rows2 : list row) (index : nat)
    (st : validator_state) :
  forEach_rows parse_string (rows1 ++ rows2) index st
  = forEach_rows parse_string rows2 (index + length rows1)
      (forEach_rows parse_string rows1 index st).
Proof.
  revert index st. induction rows1 as [|r rows1 IH]; intros index st; cbn.
  - by rewrite Nat.add_0_r.
  - rewrite IH. f_equal. lia.
Qed.

(** The loop from row [n] on, started in the state reached at row [n]. *)
Lemma forEach_rows_from (rawData : list row) (n : nat) :
  n ≤ length rawData →
  forEach_rows parse_string rawData 0 (initial_state fresh_validation)
  = forEach_rows parse_string (drop n rawData) n
      (state_at parse_string rawData n).
Proof.
  intros Hn. rewrite <- (take_drop n rawData) at 1.
  rewrite forEach_rows_app, length_take. unfold state_at. f_equal. lia.
Qed.

Lemma state_at_S (rawData : list row) (n : nat) (r : row) :
  rawData !! n = Some r →
  state_at parse_string rawData (S n)
  = processRow parse_string (state_at parse_string rawData n) r n.
Proof.
  intros Hr. unfold state_at. rewrite (take_S_r _ _ _ Hr), forEach_rows_app.
  cbn. f_equal. rewrite length_take. apply lookup_lt_Some in Hr. lia.
Qed.

Lemma empty_keys_get (o : object) (k : string) :
  (length (keys o) =? 0)%nat = true → get o k = VUndefined.
Proof.
  intros Hlen. apply Nat.eqb_eq, length_zero_iff_nil in Hlen. unfold get.
  destruct (o !! k) eqn:Hk; [|done].
  assert (Hin : k ∈ keys o) by (apply elem_of_keys; by eexists).
  rewrite Hlen in Hin. by apply elem_of_nil in Hin.
Qed.

(** The four ways a row can go. *)
Lemma processRow_cases (st : validator_state) (r : row) (index : nat) :
  processRow parse_string st r index = st
  ∨ processRow parse_string st r index = after_invalid_name st index
  ∨ ∃ o name,
      r = Some o ∧ get o "Country" = VStr name ∧ name ≠ ""
      ∧ ((name ∈ countrySet st
          ∧ processRow parse_string st r index = after_duplicate st name)
         ∨ ((name ∉ countrySet st)
            ∧ processRow parse_string st r index
              = after_fresh_row parse_string st o name)).
Proof.
  destruct r as [o|]; [|by left].
  destruct (length (keys o) =? 0)%nat eqn:Hkeys.
  { left. unfold processRow. by rewrite Hkeys. }
  rewrite processRow_spec by done.
  destruct (get o "Country") as [| |b|x|name] eqn:Hc; try (right; by left).
  destruct (String.eqb_spec name ""); [right; by left|].
  right. right. exists o, name. repeat split; try done.
  case_bool_decide; [left|right]; done.
Qed.

(** The names seen so far: those seen before, and the valid country names
    of the rows walked through. *)
Lemma processRow_seen (st : validator_state) (r : row) (index : nat)
    (name : string) :
  name ∈ countrySet (processRow parse_string st r index)
  ↔ name ∈ countrySet st
    ∨ ∃ o, r = Some o ∧ get o "Country" = VStr name ∧ name ≠ "".
Proof.
  destruct r as [o|];
    [|cbn; split; [intros ?; by left|]; by intros [?|(? & [=] & _)]].
  assert (Hex : (∃ o', Some o = Some o' ∧ get o' "Country" = VStr name
                       ∧ name ≠ "")
                ↔ get o "Country" = VStr name ∧ name ≠ "").
  { split; [by intros (? & [= <-] & ?)|intros ?; by exists o]. }
  rewrite Hex. clear Hex.
  destruct (length (keys o) =? 0)%nat eqn:Hkeys.
  { unfold processRow. rewrite Hkeys.
    rewrite (empty_keys_get o "Country" Hkeys). intuition congruence. }
  rewrite processRow_spec by done.
  destruct (get o "Country") as [| |b|x|name'] eqn:Hc;
    try (cbn; intuition congruence).
  destruct (String.eqb_spec name' "") as [->|Hne]; [cbn; intuition congruence|].
  case_bool_decide as Hseen; cbn.
  - split; [intros ?; by left|]. intros [?|[[= <-] _]]; done.
  - rewrite elem_of_union, elem_of_singleton. split.
    + intros [->|?]; [right|left]; done.
    + intros [?|[[= <-] _]]; [right|left]; done.
Qed.

Lemma forEach_rows_seen (rows : list row) (index : nat) (st : validator_state)
    (name : string) :
  name ∈ countrySet (forEach_rows parse_string rows index st)
  ↔ name ∈ countrySet st
    ∨ ∃ o, Some o ∈ rows ∧ get o "Country" = VStr name ∧ name ≠ "".
Proof.
  revert index st. induction rows as [|r rows IH]; intros index st; cbn.
  - split; [intros ?; by left|]. intros [?|(o & Ho & _)]; [done|].
    by apply elem_of_nil in Ho.
  - rewrite IH, processRow_seen. split.
    + intros [[?|(o & -> & ?)]|(o & Ho & ?)]; [by left|right..].
      * exists o. split; [left|done].
      * exists o. split; [by right|done].
    + intros [?|(o & Ho & ?)]; [by left; left|].
      apply elem_of_cons in Ho as [<-|Ho].
      * left; right. by exists o.
      * right. by exists o.
Qed.

Lemma state_at_seen (rawData : list row) (n : nat) (name : string) :
  name ∈ countrySet (state_at parse_string rawData n)
  ↔ ∃ m o, m < n ∧ rawData !! m = Some (Some o)
           ∧ get o "Country" = VStr name ∧ name ≠ "".
Proof.
  unfold state_at. rewrite forEach_rows_seen. cbn. split.
  - intros [Hin|(o & Ho & ?)]; [by apply not_elem_of_empty in Hin|].
    apply list_elem_of_lookup in Ho as [m Hm].
    apply lookup_take_Some in Hm as [Hm Hlt]. by exists m, o.
  - intros (m & o & Hlt & Hm & ?). right. exists o. split; [|done].
    apply list_elem_of_lookup. exists m. by apply lookup_take_Some.
Qed.

(** The records, errors and warnings gathered so far are never taken back. *)
Lemma processRow_grows (st : validator_state) (r : row) (index : nat) :
  let st' := processRow parse_string st r index in
  (∃ ds, processedData st' = processedData st ++ ds)
  ∧ (∃ es, errors (report st') = errors (report st) ++ es)
  ∧ (∃ ws, warnings (report st') = warnings (report st) ++ ws)
  ∧ isValid (report st') = isValid (report st).
Proof.
  cbv zeta.
  destruct (processRow_cases st r index)
    as [-> | [-> | (o & name & _ & _ & _ & [[_ ->] | [_ ->]])]];
    cbn [after_fresh_row after_duplicate after_invalid_name processedData
         report errors warnings isValid push_error push_warning].
  4: destruct (row_rejected parse_string o).
  all: repeat split; done || (by exists []; rewrite app_nil_r) || (by eexists).
Qed.

Lemma forEach_rows_grows (rows : list row) (index : nat)
    (st : validator_state) :
  let st' := forEach_rows parse_string rows index st in
  (∃ ds, processedData st' = processedData st ++ ds)
  ∧ (∃ es, errors (report st') = errors (report st) ++ es)
  ∧ (∃ ws, warnings (report st') = warnings (report st) ++ ws)
  ∧ isValid (report st') = isValid (report st).
Proof.
  cbv zeta. revert index st.
  induction rows as [|r rows IH]; intros index st; cbn.
  { repeat split; exists []; by rewrite app_nil_r. }
  destruct (IH (S index) (processRow parse_string st r index))
    as ([ds Hd] & [es He] & [ws Hw] & Hv).
  destruct (processRow_grows st r index)
    as ([ds' Hd'] & [es' He'] & [ws' Hw'] & Hv').
  rewrite Hd, He, Hw, Hv, Hd', He', Hw', Hv', <- !app_assoc.
  repeat split; by eexists.
Qed.

(** Every record gathered comes from an accepted row. *)
Lemma processRow_records (P : object → Prop) (st : validator_state) (r : row)
    (index : nat) :
  Forall (validated_from parse_string P) (processedData st) →
  (∀ o, r = Some o → P o) →
  Forall (validated_from parse_string P)
    (processedData (processRow parse_string st r index)).
Proof.
  intros Hall HP.
  destruct (processRow_cases st r index)
    as [-> | [-> | (o & name & -> & Hc & Hname & [[_ ->] | [_ ->]])]];
    try done.
  unfold after_fresh_row. cbn [processedData].
  destruct (row_rejected parse_string o) eqn:Hrej; [done|].
  apply Forall_app. split; [done|]. apply Forall_singleton.
  exists o, name. repeat split; try done. by apply HP.
Qed.

Lemma forEach_rows_records (P : object → Prop) (rows : list row) (index : nat)
    (st : validator_state) :
  Forall (validated_from parse_string P) (processedData st) →
  (∀ o, Some o ∈ rows → P o) →
  Forall (validated_from parse_string P)
    (processedData (forEach_rows parse_string rows index st)).
Proof.
  revert index st.
  induction rows as [|r rows IH]; intros index st Hall HP; [done|].
  cbn. apply IH.
  - apply processRow_records; [done|]. intros o ->. apply HP. left.
  - intros o Ho. apply HP. by right.
Qed.

End Loop.

(** ** Duplicate countries *)

Section Duplicates.

Variable parse_string : string → float.

(** The validator, guard by guard. *)
Lemma validateAndProcessData_unfold (rawData : list row) :
  validateAndProcessData parse_string rawData
  = match rawData with
    | [] =>
        {| data := [];
           validation :=
             {| isValid := false; errors := ["No data provided"];
                warnings := [] |} |}
    | first :: _ =>
        match missing_columns first with
        | [] =>
            let st :=
              forEach_rows parse_string rawData 0
                (initial_state fresh_validation) in
            {| data := processedData st;
               validation :=
                 if (0 <? length (errors (report st)))%nat
                 then set_isValid false (report st)
                 else report st |}
        | missing =>
            {| data := [];
               validation :=
                 {| isValid := false;
                    errors :=
                      ["Missing required columns: " +:+ join ", " missing];
                    warnings := [] |} |}
        end
    end.
Proof.
  destruct rawData as [|first rest]; [reflexivity|].
  unfold validateAndProcessData.
  change (length (first :: rest) =? 0)%nat with false. cbv iota zeta.
  change (default None (head (first :: rest))) with first.
  fold (missing_columns first). destruct (missing_columns first); reflexivity.
Qed.

Lemma processRow_duplicate (st : validator_state) (o : object) (name : string)
    (index : nat) :
  get o "Country" = VStr name → name ≠ "" → name ∈ countrySet st →
  processRow parse_string st (Some o) index = after_duplicate st name.
Proof.
  intros Hc Hname Hseen. rewrite (processRow_named _ st o name index Hc Hname).
  by rewrite bool_decide_eq_true_2.
Qed.

(** Replacing a row that repeats a seen name by another row with the same
    name changes nothing in the loop. *)
Lemma forEach_rows_insert_duplicate (rawData : list row) (n : nat)
    (o o' : object) (name : string) :
  rawData !! n = Some (Some o) →
  get o "Country" = VStr name → get o' "Country" = VStr name → name ≠ "" →
  name ∈ countrySet (state_at parse_string rawData n) →
  forEach_rows parse_string (<[n := Some o']> rawData) 0
    (initial_state fresh_validation)
  = forEach_rows parse_string rawData 0 (initial_state fresh_validation).
Proof.
  intros Hn Hc Hc' Hname Hseen.
  pose proof (lookup_lt_Some _ _ _ Hn) as Hlt.
  rewrite (forEach_rows_from _ rawData n) by lia.
  rewrite (forEach_rows_from _ (<[n := Some o']> rawData) n)
    by (rewrite length_insert; lia).
  assert (Hst : state_at parse_string (<[n := Some o']> rawData) n
                = state_at parse_string rawData n).
  { unfold state_at. by rewrite take_insert_ge by lia. }
  rewrite Hst.
  rewrite (drop_S rawData (Some o) n Hn).
  rewrite (drop_S (<[n := Some o']> rawData) (Some o') n)
    by (by apply list_lookup_insert_eq).
  rewrite drop_insert_lt by lia. cbn [forEach_rows].
  by rewrite !(processRow_duplicate _ _ name).
Qed.

End Duplicates.

(** ** The first occurrence of a country *)

Section FirstOccurrence.

Variable parse_string : string → float.

(** The row number only shows in the text of an error. *)
Lemma processRow_shift (d : nat) (st1 st2 : validator_state) (r : row)
    (i j : nat) :
  same_up_to_warnings d st1 st2 →
  same_up_to_warnings d (processRow parse_string st1 r i)
    (processRow parse_string st2 r j).
Proof.
  intros (Hd & Hs & Hv & He & Hw).
  destruct r as [o|]; [|done].
  destruct (length (keys o) =? 0)%nat eqn:Hkeys.
  { unfold processRow. by rewrite Hkeys. }
  rewrite !processRow_spec by done.
  assert (Hinvalid : same_up_to_warnings d (after_invalid_name st1 i)
                       (after_invalid_name st2 j)).
  { repeat split; cbn; try done. rewrite !length_app. cbn. lia. }
  destruct (get o "Country") as [| |b|x|name]; try done.
  destruct (String.eqb name ""); [done|].
  rewrite Hs. case_bool_decide.
  - repeat split; cbn; try done. rewrite !length_app. cbn. lia.
  - unfold after_fresh_row. rewrite Hd, Hs, Hv.
    repeat split; cbn [processedData countrySet report isValid errors warnings];
      try done; rewrite !length_app; lia.
Qed.

Lemma forEach_rows_shift (d : nat) (rows : list row) (i j : nat)
    (st1 st2 : validator_state) :
  same_up_to_warnings d st1 st2 →
  same_up_to_warnings d (forEach_rows parse_string rows i st1)
    (forEach_rows parse_string rows j st2).
Proof.
  revert i j st1 st2.
  induction rows as [|r rows IH]; intros i j st1 st2 Hsame; [done|].
  cbn. by apply IH, processRow_shift.
Qed.

(** Dropping a row that repeats a seen name only removes its warning. *)
Lemma forEach_rows_delete_duplicate (rawData : list row) (n : nat)
    (o : object) (name : string) :
  rawData !! n = Some (Some o) → get o "Country" = VStr name → name ≠ "" →
  name ∈ countrySet (state_at parse_string rawData n) →
  same_up_to_warnings 1
    (forEach_rows parse_string rawData 0 (initial_state fresh_validation))
    (forEach_rows parse_string (delete n rawData) 0
       (initial_state fresh_validation)).
Proof.
  intros Hn Hc Hname Hseen.
  pose proof (lookup_lt_Some _ _ _ Hn) as Hlt.
  rewrite (forEach_rows_from _ rawData n) by lia.
  rewrite (drop_S rawData (Some o) n Hn). cbn [forEach_rows].
  rewrite (processRow_duplicate _ _ o name n Hc Hname Hseen).
  rewrite delete_take_drop, forEach_rows_app, length_take.
  fold (state_at parse_string rawData n).
  apply forEach_rows_shift. repeat split; cbn; try done.
  rewrite length_app. cbn. lia.
Qed.

(** A fresh row whose sector fields are all accepted stays in the output. *)
Lemma accepted_row_in_output (rawData : list row) (m : nat) (o : object)
    (name : string) :
  rawData !! m = Some (Some o) → get o "Country" = VStr name → name ≠ "" →
  name ∉ countrySet (state_at parse_string rawData m) →
  row_rejected parse_string o = false →
  row_record parse_string o name
  ∈ processedData
      (forEach_rows parse_string rawData 0 (initial_state fresh_validation)).
Proof.
  intros Hm Hc Hname Hfresh Hacc.
  pose proof (lookup_lt_Some _ _ _ Hm) as Hlt.
  rewrite (forEach_rows_from _ rawData (S m)) by lia.
  destruct (forEach_rows_grows parse_string (drop (S m) rawData) (S m)
              (state_at parse_string rawData (S m))) as ([ds ->] & _).
  rewrite (state_at_S _ _ _ _ Hm).
  rewrite (processRow_named _ _ o name m Hc Hname).
  rewrite bool_decide_eq_false_2 by done.
  unfold after_fresh_row. rewrite Hacc. cbn [processedData].
  rewrite !elem_of_app, list_elem_of_singleton. by left; right.
Qed.

(** C6, as amended.  In a batch that passes the column check, take two rows
    with the same non-empty country string.  The later row is excluded and
    leaves exactly one warning and no error, and the records, [isValid] and
    the number of errors are those of the batch without it.  When the
    earlier row is the first with that name and its sector fields are all
    accepted, its record, built from its own cells, is in the validator
    output. *)
Theorem first_occurrence_wins (rawData : list row) (m n : nat)
    (o1 o : object) (name : string) :
  missing_columns (default None (head rawData)) = [] →
  m < n →
  rawData !! m = Some (Some o1) → rawData !! n = Some (Some o) →
  get o1 "Country" = VStr name → get o "Country" = VStr name → name ≠ "" →
  let st := state_at parse_string rawData n in
  let st' := processRow parse_string st (Some o) n in
  let result := validateAndProcessData parse_string rawData in
  let without := validateAndProcessData parse_string (delete n rawData) in
  (processedData st' = processedData st
   ∧ errors (report st') = errors (report st)
   ∧ warnings (report st')
     = warnings (report st) ++ ["Duplicate country found: " +:+ name])
  ∧ (data result = data without
     ∧ isValid (validation result) = isValid (validation without)
     ∧ length (errors (validation result))
       = length (errors (validation without))
     ∧ length (warnings (validation result))
       = S (length (warnings (validation without))))
  ∧ ((∀ m' o', m' < m → rawData !! m' = Some (Some o') →
               get o' "Country" ≠ VStr name) →
     row_rejected parse_string o1 = false →
     row_record parse_string o1 name ∈ data result).
Proof.
  intros Hcols Hmn Hm Hn Hc1 Hc Hname. cbv zeta.
  assert (Hseen : name ∈ countrySet (state_at parse_string rawData n)).
  { apply state_at_seen. by exists m, o1. }
  split.
  { by rewrite (processRow_duplicate _ _ o name n Hc Hname Hseen). }
  rewrite !validateAndProcessData_unfold.
  destruct rawData as [|first rest]; [done|].
  destruct n as [|n]; [lia|]. cbn [delete list_delete].
  cbn [head default from_option id] in Hcols. rewrite Hcols. cbv zeta.
  change (first :: delete n rest) with (delete (S n) (first :: rest)).
  split.
  - destruct (forEach_rows_delete_duplicate (first :: rest) (S n) o name
                Hn Hc Hname Hseen) as (Hd & _ & Hv & He & Hw).
    cbn [data validation]. rewrite He.
    destruct (0 <? _)%nat; cbn [set_isValid isValid errors warnings];
      repeat split; try done; by rewrite ?He, ?Hw.
  - intros Hfirst Hacc. cbn [data].
    apply (accepted_row_in_output _ m o1 name); try done.
    rewrite state_at_seen. intros (m' & o' & Hlt & Hm' & Hc' & _).
    by apply (Hfirst m' o').
Qed.

End FirstOccurrence.

Lemma first_occurrence_wins_witness :
  let rawData := [row_japan; row_usa; Some object_japan_broken] in
  let result := validateAndProcessData parseFloat_string rawData in
  let without :=
    validateAndProcessData parseFloat_string (delete 2 rawData) in
  data result = data without
  ∧ isValid (validation result) = isValid (validation without)
  ∧ length (errors (validation result)) = length (errors (validation without))
  ∧ length (warnings (validation result))
    = S (length (warnings (validation without))).
Proof.
  refine (proj1 (proj2 (first_occurrence_wins parseFloat_string
            [row_japan; row_usa; Some object_japan_broken] 0 2
            _ object_japan_broken "Japan" eq_refl _ eq_refl eq_refl eq_refl
            eq_refl _))).
  - lia.
  - discriminate.
Defined.

(** C6 as stated fails when the earlier row is itself rejected: it still
    reserves the name, so neither of the two rows reaches the output. *)
Lemma rejected_first_occurrence_still_wins :
  validateAndProcessData parseFloat_string [row_japan_negative; row_japan]
  = {| data := [];
       validation :=
         {| isValid := false;
            errors := ["Negative ai value for Japan"];
            warnings := ["Duplicate country found: Japan"] |} |}.
Proof. vm_compute. reflexivity. Qed.

(** ** The orchestrator *)

Section Orchestrator.

Variable parse_string : string → float.

Lemma rejected_has_error (name : string) (x : string → float)
    (ks : list string) :
  existsb (λ k, rejected (x k)) ks = true →
  omap (λ k, sector_error name k (x k)) ks ≠ [].
Proof.
  intros (k & Hk & Hrej)%existsb_exists Hnil.
  apply (f_equal length) in Hnil. rewrite sector_error_length in Hnil.
  assert (Hin : In k (List.filter (λ k, rejected (x k)) ks))
    by (by apply filter_In).
  destruct (List.filter _ ks); [done|discriminate].
Qed.

(** Past the column check, the first row leaves a record or an error. *)
Lemma first_row_progress (first : row) :
  missing_columns first = [] →
  let st' :=
    processRow parse_string (initial_state fresh_validation) first 0 in
  errors (report st') ≠ [] ∨ processedData st' ≠ [].
Proof.
  intros Hcols. cbv zeta.
  assert (Hcountry : "Country" ∈ keys_of_row first).
  { destruct (decide ("Country" ∈ keys_of_row first)) as [|Hout]; [done|].
    assert (Hin : "Country" ∈ missing_columns first).
    { apply missing_columns_spec. split; [repeat constructor|done]. }
    rewrite Hcols in Hin. by apply elem_of_nil in Hin. }
  destruct first as [o|]; [|by apply elem_of_nil in Hcountry].
  apply elem_of_keys in Hcountry.
  rewrite processRow_spec by (by eapply keys_nonempty).
  assert (Hinvalid :
            errors (report (after_invalid_name
                              (initial_state fresh_validation) 0)) ≠ []
            ∨ processedData (after_invalid_name
                               (initial_state fresh_validation) 0) ≠ [])
    by (by left).
  destruct (get o "Country") as [| |b|x|name]; try done.
  destruct (String.eqb name ""); [done|].
  rewrite bool_decide_eq_false_2 by apply not_elem_of_empty.
  unfold after_fresh_row. cbn [processedData report errors initial_state
                               fresh_validation app].
  destruct (row_rejected parse_string o) eqn:Hrej; [left|by right].
  by apply rejected_has_error.
Qed.

(** What the validator reports on a batch that passes the guards. *)
Lemma validation_of_loop (st : validator_state) :
  isValid (report st) = true →
  let v :=
    if (0 <? length (errors (report st)))%nat
    then set_isValid false (report st) else report st in
  errors v = errors (report st)
  ∧ warnings v = warnings (report st)
  ∧ isValid v = bool_decide (errors (report st) = []).
Proof.
  intros Hv. cbv zeta. destruct (errors (report st)) eqn:He; cbn.
  - by rewrite He, Hv.
  - by rewrite He.
Qed.

(** C7.  [isValid] is [errors.length === 0].  Whenever the validator records
    an error, [processExcelData] returns the empty list, whatever the other
    rows are.  Whenever it records none, [processExcelData] returns one
    scored record per validated record and this list is not empty, whatever
    the warnings are. *)
Theorem short_circuit_on_errors (rawData : list row) (weights : SectorWeights) :
  let result := validateAndProcessData parse_string rawData in
  let out := processExcelData parse_string rawData weights in
  isValid (validation result) = bool_decide (errors (validation result) = [])
  ∧ (errors (validation result) ≠ [] → out = [])
  ∧ (errors (validation result) = [] →
     out = score_country parse_string weights
             <$> standardizeCountryNames (data result)
     ∧ length out = length (data result)
     ∧ out ≠ []).
Proof.
  cbv zeta. unfold processExcelData.
  assert (Hvalid : isValid (validation
                      (validateAndProcessData parse_string rawData))
                   = bool_decide
                       (errors (validation
                          (validateAndProcessData parse_string rawData)) = [])).
  { rewrite validateAndProcessData_unfold.
    destruct rawData as [|first rest]; [done|].
    destruct (missing_columns first); [|done]. cbv zeta. cbn [validation].
    set (st := forEach_rows parse_string (first :: rest) 0
                 (initial_state fresh_validation)).
    assert (Hv : isValid (report st) = true).
    { destruct (forEach_rows_grows parse_string (first :: rest) 0
                  (initial_state fresh_validation)) as (_ & _ & _ & Hv).
      exact Hv. }
    by destruct (validation_of_loop st Hv) as (-> & _ & ->). }
  split; [done|]. rewrite Hvalid. split.
  { intros Herr. by rewrite bool_decide_eq_false_2. }
  intros Hnone. rewrite bool_decide_eq_true_2 by done. cbn [negb].
  split; [done|].
  split; [unfold standardizeCountryNames; by rewrite !length_fmap|].
  revert Hnone. rewrite validateAndProcessData_unfold.
  destruct rawData as [|first rest]; [done|].
  destruct (missing_columns first) eqn:Hcols; [|done].
  cbv zeta. cbn [validation data].
  set (st := forEach_rows parse_string (first :: rest) 0
               (initial_state fresh_validation)).
  assert (Hv : isValid (report st) = true).
  { destruct (forEach_rows_grows parse_string (first :: rest) 0
                (initial_state fresh_validation)) as (_ & _ & _ & Hv).
    exact Hv. }
  destruct (validation_of_loop st Hv) as (-> & _ & _).
  intros Hnone Hout.
  apply fmap_nil_inv in Hout. apply fmap_nil_inv in Hout.
  subst st. cbn [forEach_rows] in Hnone, Hout.
  destruct (forEach_rows_grows parse_string rest 1
              (processRow parse_string (initial_state fresh_validation)
                 first 0)) as ([ds Hd] & [es He] & _).
  rewrite Hd in Hout. rewrite He in Hnone.
  apply app_eq_nil in Hout as [Hout _]. apply app_eq_nil in Hnone as [Hnone _].
  by destruct (first_row_progress first Hcols).
Qed.

End Orchestrator.

Lemma short_circuit_on_errors_witness :
  let rawData := [row_above_one; row_japan; row_japan] in
  let result := validateAndProcessData parseFloat_string rawData in
  let out := processExcelData parseFloat_string rawData defaultSectorWeights in
  warnings (validation result)
  = ["semiconductors value > 1 for Chile"; "Duplicate country found: Japan"]
  ∧ out = score_country parseFloat_string defaultSectorWeights
            <$> standardizeCountryNames (data result)
  ∧ length out = length (data result)
  ∧ out ≠ [].
Proof.
  split; [reflexivity|].
  refine (proj2 (proj2 (short_circuit_on_errors parseFloat_string
                          [row_above_one; row_japan; row_japan]
                          defaultSectorWeights)) _).
  reflexivity.
Defined.

(** ** Countries of the output *)

Section Countries.

Variable parse_string : string → float.

Lemma assoc_Some_elem_of {A : Type} (k : string) (l : list (string * A))
    (v : A) :
  assoc k l = Some v → (k, v) ∈ l.
Proof.
  induction l as [|[k' v'] l IH]; [done|]. cbn.
  destruct (String.eqb_spec k k') as [->|_].
  - intros [= ->]. left.
  - intros Hl. right. by apply IH.
Qed.

Lemma canonical_names_trimmed :
  Forall (λ p, trim p.2 = p.2) COUNTRY_NAME_MAPPINGS.
Proof. repeat constructor. Qed.

(** The normaliser turns a trimmed string into a trimmed string, when it
    leaves a string at all. *)
Lemma standardizeCountryName_trimmed (t s : string) :
  trim t = t → standardizeCountryName (Name t) = Name s → trim s = s.
Proof.
  intros Ht. unfold standardizeCountryName, mapping_lookup. cbn [property_key].
  destruct (assoc t COUNTRY_NAME_MAPPINGS) as [canonical|] eqn:Hassoc.
  - apply assoc_Some_elem_of in Hassoc.
    pose proof canonical_names_trimmed as Hall.
    rewrite Forall_forall in Hall. specialize (Hall _ Hassoc). cbn [snd] in Hall.
    cbn [name_truthy]. destruct (negb _); congruence.
  - destruct (includes OBJECT_PROTOTYPE t); cbn [name_truthy]; congruence.
Qed.

End Countries.

(** ** The normaliser *)

Lemma inherited_key_unmapped (m : string) :
  mapping_lookup (property_key (Inherited m)) = None.
Proof.
  unfold property_key. destruct (String.eqb m "__proto__"); [reflexivity|].
  unfold mapping_lookup, includes, OBJECT_PROTOTYPE. cbn [assoc].
  cbn. rewrite bool_decide_eq_false_2; [done|].
  rewrite !not_elem_of_cons. repeat split; try discriminate.
  apply not_elem_of_nil.
Qed.

Lemma standardizeCountryName_inherited (m : string) :
  standardizeCountryName (Inherited m) = Inherited m.
Proof. unfold standardizeCountryName. by rewrite inherited_key_unmapped. Qed.

Lemma aliases_map_to_canonical :
  Forall (λ p, standardizeCountryName (Name p.1) = Name p.2)
    COUNTRY_NAME_MAPPINGS.
Proof. repeat constructor. Qed.

Lemma canonical_names_fixed :
  Forall (λ p, standardizeCountryName (Name p.2) = Name p.2
               ∧ name_truthy (Name p.2) = true)
    COUNTRY_NAME_MAPPINGS.
Proof. repeat constructor. Qed.

(** A name that is neither an alias nor inherited from [Object.prototype]
    passes through. *)
Lemma standardizeCountryName_other (s : string) :
  assoc s COUNTRY_NAME_MAPPINGS = None → s ∉ OBJECT_PROTOTYPE →
  standardizeCountryName (Name s) = Name s.
Proof.
  intros Hassoc Hproto. unfold standardizeCountryName, mapping_lookup, includes.
  cbn [property_key]. by rewrite Hassoc, bool_decide_eq_false_2.
Qed.

Lemma standardizeCountryName_idemp (c : country_name) :
  standardizeCountryName (standardizeCountryName c) = standardizeCountryName c.
Proof.
  destruct c as [s|m]; [|by rewrite !standardizeCountryName_inherited].
  unfold standardizeCountryName at 2 3. unfold mapping_lookup.
  cbn [property_key].
  destruct (assoc s COUNTRY_NAME_MAPPINGS) as [canonical|] eqn:Hassoc.
  - apply assoc_Some_elem_of in Hassoc.
    pose proof canonical_names_fixed as Hall.
    rewrite Forall_forall in Hall.
    destruct (Hall _ Hassoc) as [Hfix Htruthy]. cbn [snd] in Hfix, Htruthy.
    by rewrite Htruthy.
  - unfold includes. case_bool_decide as Hproto; cbn [name_truthy].
    + apply standardizeCountryName_inherited.
    + by apply standardizeCountryName_other.
Qed.

(** The normaliser is idempotent, sends every alias to its canonical name,
    and leaves alone every name that is neither an alias nor a property name
    of [Object.prototype]. *)
Lemma standardizeCountryNames_idemp (x : list CountryData) :
  standardizeCountryNames (standardizeCountryNames x)
  = standardizeCountryNames x.
Proof.
  unfold standardizeCountryNames. rewrite <- list_fmap_compose.
  apply list_fmap_ext. intros i c _. cbn.
  by rewrite standardizeCountryName_idemp.
Qed.

(** C8, on the input where the code departs from it.  ["constructor"] is
    not in the alias table, yet the normaliser does not pass it through: the
    read [COUNTRY_NAME_MAPPINGS["constructor"]] finds the member that the
    table inherits from [Object.prototype], which is truthy, and stores it
    in the [country] field.  The same happens to every property name of
    [Object.prototype], and the value reaches the output of the pipeline. *)
Theorem inherited_name_not_passed_through :
  assoc "constructor" COUNTRY_NAME_MAPPINGS = None
  ∧ standardizeCountryNames [sample_record (Name "constructor")]
    = [sample_record (Inherited "constructor")]
  ∧ standardizeCountryNames [sample_record (Name "constructor")]
    ≠ [sample_record (Name "constructor")]
  ∧ Forall (λ m, assoc m COUNTRY_NAME_MAPPINGS = None
                 ∧ standardizeCountryName (Name m) = Inherited m)
      OBJECT_PROTOTYPE
  ∧ country <$>
      processExcelData parseFloat_string [row_constructor] defaultSectorWeights
    = [Inherited "constructor"].
Proof.
  split; [reflexivity|]. split; [reflexivity|]. split.
  { intros Heq. apply (f_equal (fmap country)) in Heq.
    vm_compute in Heq. discriminate. }
  split; [repeat constructor|]. vm_compute. reflexivity.
Qed.

(** ** The scores of the output *)

Section Scores.

Variable parse_string : string → float.

Local Open Scope float_scope.

(** The validator's invariant: every record it returns was built from a
    row of the input whose six sector fields are numeric and not negative. *)
Lemma validated_records (rawData : list row) :
  Forall (validated_from parse_string (λ o, Some o ∈ rawData))
    (data (validateAndProcessData parse_string rawData)).
Proof.
  rewrite validateAndProcessData_unfold.
  destruct rawData as [|first rest]; [constructor|].
  destruct (missing_columns first); [|constructor].
  cbv zeta. cbn [data]. by apply forEach_rows_records; [constructor|].
Qed.

Lemma row_record_raw_cell (o : object) (name k : string) :
  k ∈ SECTORS →
  raw_cell (row_record parse_string o name) k = get o (column_of k).
Proof.
  intros Hk. each_sector Hk; reflexivity.
Qed.

End Scores.

(** * Further properties of the validator *)

Section ValidatorOrder.

Variable parse_string : string → float.

Lemma forEach_rows_sublist (rows : list row) (index : nat)
    (st : validator_state) :
  ∃ accepted : list (object * string),
    (Some ∘ fst <$> accepted) `sublist_of` rows
    ∧ Forall (λ p, get p.1 "Country" = VStr p.2 ∧ p.2 ≠ ""
                   ∧ row_rejected parse_string p.1 = false) accepted
    ∧ processedData (forEach_rows parse_string rows index st)
      = processedData st
        ++ ((λ p, row_record parse_string p.1 p.2) <$> accepted).
Proof.
  revert index st. induction rows as [|r rows IH]; intros index st.
  { exists []. cbn. by rewrite app_nil_r. }
  cbn [forEach_rows].
  destruct (IH (S index) (processRow parse_string st r index))
    as (accepted & Hsub & Hall & Hdata).
  rewrite Hdata. clear Hdata.
  destruct (processRow_cases parse_string st r index)
    as [-> | [-> | (o & name & -> & Hc & Hname & [[_ ->] | [_ ->]])]];
    try (exists accepted; split; [by apply sublist_cons|done]).
  unfold after_fresh_row. cbn [processedData].
  destruct (row_rejected parse_string o) eqn:Hrej.
  { exists accepted. split; [by apply sublist_cons|done]. }
  exists ((o, name) :: accepted). split; [by apply sublist_skip|].
  split; [by constructor|]. by rewrite <- app_assoc.
Qed.

(** X1.  The validator keeps the input order: its records are, in order,
    the records of the accepted rows, which form a subsequence of the
    input; so there are never more records than rows, and the same bound
    holds for the output of the pipeline. *)
Theorem validator_keeps_row_order (rawData : list row)
    (weights : SectorWeights) :
  (∃ accepted : list (object * string),
     (Some ∘ fst <$> accepted) `sublist_of` rawData
     ∧ Forall (λ p, get p.1 "Country" = VStr p.2 ∧ p.2 ≠ ""
                    ∧ row_rejected parse_string p.1 = false) accepted
     ∧ data (validateAndProcessData parse_string rawData)
       = (λ p, row_record parse_string p.1 p.2) <$> accepted)
  ∧ length (data (validateAndProcessData parse_string rawData))
    ≤ length rawData
  ∧ length (processExcelData parse_string rawData weights) ≤ length rawData.
Proof.
  assert (Hacc :
    ∃ accepted : list (object * string),
      (Some ∘ fst <$> accepted) `sublist_of` rawData
      ∧ Forall (λ p, get p.1 "Country" = VStr p.2 ∧ p.2 ≠ ""
                     ∧ row_rejected parse_string p.1 = false) accepted
      ∧ data (validateAndProcessData parse_string rawData)
        = (λ p, row_record parse_string p.1 p.2) <$> accepted).
  { rewrite validateAndProcessData_unfold.
    destruct rawData as [|first rest].
    { exists []. repeat split; constructor. }
    destruct (missing_columns first).
    - cbv zeta. cbn [data].
      apply (forEach_rows_sublist (first :: rest) 0
               (initial_state fresh_validation)).
    - exists []. repeat split; [apply sublist_nil_l|constructor]. }
  assert (Hlen : length (data (validateAndProcessData parse_string rawData))
                 ≤ length rawData).
  { destruct Hacc as (accepted & Hsub & _ & ->).
    apply sublist_length in Hsub. by rewrite !length_fmap in *. }
  split; [done|]. split; [done|].
  unfold processExcelData, standardizeCountryNames.
  destruct (negb _); [cbn; lia|]. by rewrite !length_fmap.
Qed.

(** X2.  A first row that is a hole or an empty object fails the whole
    batch: the column check reads its (empty) key set, all seven columns
    are reported missing, and no row is looked at. *)
Theorem empty_first_row_fails_batch (first : row) (rest : list row) :
  keys_of_row first = [] →
  validateAndProcessData parse_string (first :: rest)
  = {| data := [];
       validation :=
         {| isValid := false;
            errors :=
              ["Missing required columns: Country, AI, Quantum, "
               +:+ "Semiconductors, Biotech, Space, Fintech"];
            warnings := [] |} |}.
Proof.
  intros Hkeys. rewrite validateAndProcessData_unfold.
  unfold missing_columns. by rewrite Hkeys.
Qed.

Lemma processRow_empty (st : validator_state) (r : row) (index : nat) :
  keys_of_row r = [] → processRow parse_string st r index = st.
Proof.
  destruct r as [o|]; [|done]. cbn. intros Hkeys.
  unfold processRow. by rewrite Hkeys.
Qed.

Lemma processRow_renumber (st1 st2 : validator_state) (r : row) (i j : nat) :
  same_but_error_texts st1 st2 →
  same_but_error_texts (processRow parse_string st1 r i)
    (processRow parse_string st2 r j).
Proof.
  intros (Hd & Hs & Hv & Hw & He).
  destruct r as [o|]; [|done].
  destruct (length (keys o) =? 0)%nat eqn:Hkeys.
  { unfold processRow. by rewrite Hkeys. }
  rewrite !processRow_spec by done.
  assert (Hinvalid : same_but_error_texts (after_invalid_name st1 i)
                       (after_invalid_name st2 j)).
  { repeat split; cbn; try done. rewrite !length_app. cbn. lia. }
  destruct (get o "Country") as [| |b|x|name]; try done.
  destruct (String.eqb name ""); [done|].
  rewrite Hs. case_bool_decide.
  - repeat split; cbn; try done. by rewrite Hw.
  - unfold after_fresh_row. rewrite Hd, Hs, Hv, Hw.
    repeat split; cbn [processedData countrySet report isValid errors warnings];
      try done; rewrite !length_app; lia.
Qed.

Lemma forEach_rows_renumber (rows : list row) (i j : nat)
    (st1 st2 : validator_state) :
  same_but_error_texts st1 st2 →
  same_but_error_texts (forEach_rows parse_string rows i st1)
    (forEach_rows parse_string rows j st2).
Proof.
  revert i j st1 st2.
  induction rows as [|r rows IH]; intros i j st1 st2 Hsame; [done|].
  cbn. by apply IH, processRow_renumber.
Qed.

(** X3.  A hole or an empty object anywhere after the first row is skipped
    silently: with or without it, the validator returns the same records,
    the same warnings, the same [isValid] and the same number of errors
    (only the row numbers quoted by later errors move). *)
Theorem empty_row_is_skipped (rawData : list row) (n : nat) (r : row) :
  0 < n → n ≤ length rawData → keys_of_row r = [] →
  let result := validateAndProcessData parse_string rawData in
  let padded :=
    validateAndProcessData parse_string (take n rawData ++ r :: drop n rawData) in
  data padded = data result
  ∧ warnings (validation padded) = warnings (validation result)
  ∧ isValid (validation padded) = isValid (validation result)
  ∧ length (errors (validation padded)) = length (errors (validation result)).
Proof.
  intros Hpos Hlen Hkeys. cbv zeta.
  rewrite !validateAndProcessData_unfold.
  destruct rawData as [|first rest]; [cbn in Hlen; lia|].
  destruct n as [|n]; [lia|]. cbn [take drop app].
  destruct (missing_columns first); [|done]. cbv zeta.
  change (first :: take n rest ++ r :: drop n rest)
    with (take (S n) (first :: rest) ++ r :: drop (S n) (first :: rest)).
  assert (Hsame : same_but_error_texts
            (forEach_rows parse_string
               (take (S n) (first :: rest) ++ r :: drop (S n) (first :: rest))
               0 (initial_state fresh_validation))
            (forEach_rows parse_string (first :: rest) 0
               (initial_state fresh_validation))).
  { rewrite (forEach_rows_from _ (first :: rest) (S n)) by done.
    rewrite forEach_rows_app. cbn [forEach_rows].
    rewrite processRow_empty by done.
    fold (state_at parse_string (first :: rest) (S n)).
    by apply forEach_rows_renumber. }
  destruct Hsame as (Hd & _ & Hv & Hw & He).
  cbn [data validation]. rewrite He.
  destruct (0 <? _)%nat; cbn [set_isValid isValid errors warnings]; done.
Qed.

End ValidatorOrder.

Lemma empty_first_row_fails_batch_witness :
  validateAndProcessData parseFloat_string [Some ∅; row_japan; row_usa]
  = {| data := [];
       validation :=
         {| isValid := false;
            errors :=
              ["Missing required columns: Country, AI, Quantum, "
               +:+ "Semiconductors, Biotech, Space, Fintech"];
            warnings := [] |} |}.
Proof.
  apply (empty_first_row_fails_batch parseFloat_string (Some ∅)
           [row_japan; row_usa]).
  reflexivity.
Defined.

Lemma empty_row_is_skipped_witness :
  let result := validateAndProcessData parseFloat_string [row_japan; row_usa] in
  let padded :=
    validateAndProcessData parseFloat_string [row_japan; None; row_usa] in
  data padded = data result
  ∧ warnings (validation padded) = warnings (validation result)
  ∧ isValid (validation padded) = isValid (validation result)
  ∧ length (errors (validation padded)) = length (errors (validation result)).
Proof.
  apply (empty_row_is_skipped parseFloat_string [row_japan; row_usa] 1 None).
  - lia.
  - cbn. lia.
  - reflexivity.
Defined.

Section ValidatorCells.

Variable parse_string : string → float.

Local Open Scope float_scope.

(** X4.  A row that is not empty and whose [Country] cell is anything but a
    non-empty string is rejected before its sector cells are read: exactly
    one error is added, quoting the row's position counted from 1, and the
    records, the warnings and the set of seen names stay as they are. *)
Theorem invalid_country_rejects_row (st : validator_state) (o : object)
    (index : nat) :
  keys o ≠ [] →
  (∀ name, get o "Country" = VStr name → name = "") →
  let st' := processRow parse_string st (Some o) index in
  processedData st' = processedData st
  ∧ countrySet st' = countrySet st
  ∧ warnings (report st') = warnings (report st)
  ∧ errors (report st')
    = errors (report st)
      ++ ["Invalid country name at row " +:+ pretty (index + 1)%nat].
Proof.
  intros Hkeys Hcountry. cbv zeta.
  rewrite processRow_spec by (destruct (keys o); done).
  destruct (get o "Country") as [| |b|x|name]; try done.
  by rewrite (Hcountry name eq_refl).
Qed.

Lemma elem_of_keys_of_row (r : row) (col : string) :
  col ∈ keys_of_row r ↔ is_Some (cell_of r col).
Proof.
  destruct r as [o|]; cbn.
  - apply elem_of_keys.
  - split; [by intros ?%elem_of_nil|by intros [? ?]].
Qed.

Lemma same_required_cells_get (o o' : object) (col : string) :
  same_required_cells (Some o) (Some o') → col ∈ REQUIRED_COLUMNS →
  get o col = get o' col.
Proof.
  intros [_ Hcells] Hcol. specialize (Hcells col Hcol). cbn in Hcells.
  unfold get. by rewrite Hcells.
Qed.

Lemma after_fresh_row_same_cells (st : validator_state) (o o' : object)
    (name : string) :
  same_required_cells (Some o) (Some o') →
  after_fresh_row parse_string st o name
  = after_fresh_row parse_string st o' name.
Proof.
  intros Hsame.
  unfold after_fresh_row, row_rejected, row_errors, row_warnings, row_record,
    sector_value, SECTORS.
  cbn [existsb omap list_omap fmap list_fmap].
  change (column_of "ai") with "AI".
  change (column_of "quantum") with "Quantum".
  change (column_of "semiconductors") with "Semiconductors".
  change (column_of "biotech") with "Biotech".
  change (column_of "space") with "Space".
  change (column_of "fintech") with "Fintech".
  by rewrite !(same_required_cells_get o o' _ Hsame) by repeat constructor.
Qed.

Lemma processRow_same_cells (st : validator_state) (r r' : row) (index : nat) :
  same_required_cells r r' →
  processRow parse_string st r index = processRow parse_string st r' index.
Proof.
  intros Hsame.
  destruct (decide (keys_of_row r = [])) as [Hempty|Hfull].
  { rewrite !processRow_empty; [done|by apply Hsame|done]. }
  assert (Hfull' : keys_of_row r' ≠ []) by (intros ?; by apply Hfull, Hsame).
  destruct r as [o|]; [|done]. destruct r' as [o'|]; [|done].
  cbn [keys_of_row] in *.
  rewrite (processRow_spec _ st o) by (by destruct (keys o)).
  rewrite (processRow_spec _ st o') by (by destruct (keys o')).
  rewrite <- (same_required_cells_get o o' "Country" Hsame)
    by repeat constructor.
  destruct (get o "Country") as [| |b|x|name]; try done.
  destruct (String.eqb name ""); [done|].
  case_bool_decide; [done|]. by apply after_fresh_row_same_cells.
Qed.

Lemma forEach_rows_same_cells (rows rows' : list row) (index : nat)
    (st : validator_state) :
  Forall2 same_required_cells rows rows' →
  forEach_rows parse_string rows index st
  = forEach_rows parse_string rows' index st.
Proof.
  intros Hsame. revert index st.
  induction Hsame as [|r r' rows rows' Hr _ IH]; intros index st; [done|].
  cbn. by rewrite (processRow_same_cells st r r' index Hr), IH.
Qed.

Lemma missing_columns_same_cells (r r' : row) :
  same_required_cells r r' → missing_columns r = missing_columns r'.
Proof.
  intros [_ Hcells]. unfold missing_columns. apply filter_ext_in.
  intros col Hcol%list_elem_of_In. f_equal. unfold includes.
  apply bool_decide_ext. by rewrite !elem_of_keys_of_row, (Hcells col Hcol).
Qed.

(** X5.  The validator reads nothing of a row but whether it is empty and
    its seven required cells: two batches whose rows agree, one by one, on
    these give the same records and the same report, whatever other
    columns they carry. *)
Theorem validator_reads_required_cells_only (rawData rawData' : list row) :
  Forall2 same_required_cells rawData rawData' →
  validateAndProcessData parse_string rawData
  = validateAndProcessData parse_string rawData'.
Proof.
  intros Hsame. rewrite !validateAndProcessData_unfold.
  destruct Hsame as [|first first' rest rest' Hfirst Hrest]; [done|].
  rewrite (missing_columns_same_cells first first' Hfirst).
  destruct (missing_columns first'); [|done]. cbv zeta.
  by rewrite (forEach_rows_same_cells (first :: rest) (first' :: rest'))
    by by constructor.
Qed.

(** X6.  The column check looks at the first row only.  In any row with a
    fresh, valid country name, a sector cell that is absent reads as
    [undefined], parses to NaN, and so costs the row its place in the
    output and adds the error [Invalid <sector> value for <country>]. *)
Theorem absent_sector_cell_rejects_row (st : validator_state) (o : object)
    (name k : string) (index : nat) :
  get o "Country" = VStr name → name ≠ "" → name ∉ countrySet st →
  k ∈ SECTORS → o !! column_of k = None →
  let st' := processRow parse_string st (Some o) index in
  processedData st' = processedData st
  ∧ "Invalid " +:+ k +:+ " value for " +:+ name ∈ errors (report st')
  ∧ length (errors (report st)) < length (errors (report st')).
Proof.
  intros Hc Hname Hfresh Hk Hcell. cbv zeta.
  rewrite (processRow_named _ st o name index Hc Hname).
  rewrite bool_decide_eq_false_2 by done.
  assert (Hnan : sector_value parse_string o k = nan).
  { unfold sector_value, get. by rewrite Hcell. }
  assert (Herr : "Invalid " +:+ k +:+ " value for " +:+ name
                 ∈ row_errors parse_string o name).
  { unfold row_errors. apply list_elem_of_omap. exists k. split; [done|].
    by rewrite Hnan. }
  assert (Hrej : row_rejected parse_string o = true).
  { unfold row_rejected. apply existsb_exists. exists k.
    split; [by apply list_elem_of_In|]. by rewrite Hnan. }
  unfold after_fresh_row. rewrite Hrej.
  cbn [processedData report errors]. split; [done|].
  split; [apply elem_of_app; by right|].
  rewrite length_app. destruct (row_errors parse_string o name);
    [by apply elem_of_nil in Herr|cbn; lia].
Qed.

End ValidatorCells.

Lemma invalid_country_rejects_row_witness :
  let st := initial_state fresh_validation in
  let st' :=
    processRow parseFloat_string st (Some object_numeric_country) 4 in
  processedData st' = processedData st
  ∧ countrySet st' = countrySet st
  ∧ warnings (report st') = warnings (report st)
  ∧ errors (report st') = errors (report st) ++ ["Invalid country name at row 5"].
Proof.
  apply (invalid_country_rejects_row parseFloat_string
           (initial_state fresh_validation) object_numeric_country 4).
  - intros Hnil. apply (f_equal length) in Hnil. vm_compute in Hnil.
    discriminate.
  - intros name Hname. vm_compute in Hname. discriminate.
Defined.

Lemma validator_reads_required_cells_only_witness :
  validateAndProcessData parseFloat_string [row_japan_annotated; row_usa]
  = validateAndProcessData parseFloat_string [row_japan; row_usa].
Proof.
  apply (validator_reads_required_cells_only parseFloat_string).
  constructor; [|constructor; [done|constructor]].
  split.
  - split; intros Hnil; apply (f_equal length) in Hnil; vm_compute in Hnil;
      discriminate.
  - intros col Hcol. unfold REQUIRED_COLUMNS in Hcol.
    rewrite !elem_of_cons, elem_of_nil in Hcol.
    destruct Hcol as [-> | [-> | [-> | [-> | [-> | [-> | [-> | []]]]]]]];
      reflexivity.
Defined.

Lemma absent_sector_cell_rejects_row_witness :
  let st := initial_state fresh_validation in
  let st' :=
    processRow parseFloat_string st row_country_only 1 in
  processedData st' = processedData st
  ∧ "Invalid biotech value for Peru" ∈ errors (report st')
  ∧ length (errors (report st)) < length (errors (report st')).
Proof.
  apply (absent_sector_cell_rejects_row parseFloat_string
           (initial_state fresh_validation) {["Country" := VStr "Peru"]}
           "Peru" "biotech" 1).
  - reflexivity.
  - discriminate.
  - apply not_elem_of_empty.
  - repeat constructor.
  - reflexivity.
Defined.

(** * Further properties of records, names and scores *)

Section Records.

Variable parse_string : string → float.

Local Open Scope float_scope.

(** X7.  No partial records: every record the validator returns lists the
    six sectors in order, each with the number its raw cell parses to; none
    of these is NaN or negative; the validator-stage [totalScore] is their
    unweighted sum, and the country is a trimmed string. *)
Theorem validated_records_are_complete (rawData : list row) :
  Forall (λ d,
            sectorScores d
            = (λ k, (k, parseFloat parse_string (raw_cell d k))) <$> SECTORS
            ∧ Forall (λ p, is_nan p.2 = false ∧ (p.2 <? 0) = false)
                (sectorScores d)
            ∧ totalScore d = sum_values (sectorScores d)
            ∧ ∃ s, country d = Name s ∧ trim s = s)
    (data (validateAndProcessData parse_string rawData)).
Proof.
  eapply Forall_impl; [apply validated_records|].
  intros d (o & name & _ & _ & _ & Hacc & ->).
  split; [reflexivity|]. split; [|split; [reflexivity|]].
  - unfold row_rejected in Hacc. cbn [row_record sectorScores].
    apply Forall_fmap, Forall_forall. intros k Hk. cbn.
    assert (Hk' : rejected (sector_value parse_string o k) = false).
    { apply not_true_iff_false. intros Hrej.
      apply not_true_iff_false in Hacc. apply Hacc, existsb_exists.
      exists k. by rewrite <- list_elem_of_In. }
    by apply orb_false_elim in Hk'.
  - exists (trim name). split; [reflexivity|apply trim_idemp].
Qed.

(** X8.  A sector value of [Infinity] passes validation with no more than
    the "> 1" warning; scored with a weight of 0 for that sector, the record
    then gets the contribution [Infinity * 0] and a [totalScore] of NaN. *)
Theorem infinite_score_is_accepted (st : validator_state) (o : object)
    (name k : string) (index : nat) :
  get o "Country" = VStr name → name ≠ "" → name ∉ countrySet st →
  k ∈ SECTORS → sector_value parse_string o k = infinity →
  (∀ k', k' ∈ SECTORS → rejected (sector_value parse_string o k') = false) →
  let st' := processRow parse_string st (Some o) index in
  processedData st' = processedData st ++ [row_record parse_string o name]
  ∧ errors (report st') = errors (report st)
  ∧ k +:+ " value > 1 for " +:+ name ∈ warnings (report st')
  ∧ ∀ weights : SectorWeights,
      weights !! k = Some 0 →
      totalScore (score_country parse_string weights
                    (row_record parse_string o name)) = nan.
Proof.
  intros Hc Hname Hfresh Hk Hinf Hacc. cbv zeta.
  rewrite (processRow_named _ st o name index Hc Hname).
  rewrite bool_decide_eq_false_2 by done.
  assert (Hrej : row_rejected parse_string o = false).
  { apply not_true_iff_false. intros (k' & Hk' & Hrej)%existsb_exists.
    apply list_elem_of_In in Hk'. by rewrite (Hacc k' Hk') in Hrej. }
  unfold after_fresh_row. rewrite Hrej.
  cbn [processedData report errors warnings]. split; [done|]. split.
  { unfold row_errors. rewrite accepted_no_error; [by rewrite app_nil_r|].
    exact Hrej. }
  split.
  { apply elem_of_app. right. unfold row_warnings.
    apply list_elem_of_omap. exists k. split; [done|]. by rewrite Hinf. }
  intros weights Hw.
  assert (Hzero : weight weights k = 0) by (unfold weight; by rewrite Hw).
  assert (Hcell : parseFloat parse_string
                    (raw_cell (row_record parse_string o name) k) = infinity).
  { rewrite <- Hinf. clear -Hk. each_sector Hk; reflexivity. }
  clear -Hk Hzero Hcell.
  cbn [score_country totalScore sum_values map fold_left snd].
  each_sector Hk; cbn [raw_cell String.eqb Ascii.eqb Bool.eqb] in Hcell;
    rewrite Hzero, Hcell;
    change (infinity * 0) with nan;
    rewrite ?add_nan_r, ?add_nan_l; reflexivity.
Qed.

Lemma parseFloat_not_string (parse1 parse2 : string → float) (v : value) :
  typeof_string v = false → parseFloat parse1 v = parseFloat parse2 v.
Proof. by destruct v. Qed.

End Records.

Lemma infinite_score_is_accepted_witness :
  let st := initial_state fresh_validation in
  let st' := processRow parseFloat_string st (Some object_infinite_space) 0 in
  processedData st'
  = processedData st ++ [row_record parseFloat_string object_infinite_space "Chile"]
  ∧ errors (report st') = errors (report st)
  ∧ "space value > 1 for Chile" ∈ warnings (report st')
  ∧ ∀ weights : SectorWeights,
      weights !! "space" = Some 0%float →
      totalScore (score_country parseFloat_string weights
                    (row_record parseFloat_string object_infinite_space "Chile"))
      = nan.
Proof.
  apply (infinite_score_is_accepted parseFloat_string
           (initial_state fresh_validation) object_infinite_space
           "Chile" "space" 0).
  - reflexivity.
  - discriminate.
  - apply not_elem_of_empty.
  - repeat constructor.
  - reflexivity.
  - intros k Hk. each_sector Hk; reflexivity.
Defined.

Section ParserIndependence.

Variables parse1 parse2 : string → float.

Lemma sector_value_not_string (o : object) (k : string) :
  typeof_string (get o (column_of k)) = false →
  sector_value parse1 o k = sector_value parse2 o k.
Proof. apply parseFloat_not_string. Qed.

Lemma after_fresh_row_not_strings (st : validator_state) (o : object)
    (name : string) :
  sector_cells_not_strings (Some o) →
  after_fresh_row parse1 st o name = after_fresh_row parse2 st o name.
Proof.
  intros Hcells.
  assert (Hv : ∀ k, k ∈ SECTORS →
                 sector_value parse1 o k = sector_value parse2 o k).
  { intros k Hk. apply sector_value_not_string. by apply (Hcells o). }
  unfold after_fresh_row, row_rejected, row_errors, row_warnings, row_record.
  unfold SECTORS. cbn [existsb omap list_omap fmap list_fmap].
  by rewrite !Hv by repeat constructor.
Qed.

Lemma processRow_not_strings (st : validator_state) (r : row) (index : nat) :
  sector_cells_not_strings r →
  processRow parse1 st r index = processRow parse2 st r index.
Proof.
  intros Hcells. destruct r as [o|]; [|done].
  destruct (length (keys o) =? 0)%nat eqn:Hkeys.
  { unfold processRow. by rewrite Hkeys. }
  rewrite !processRow_spec by done.
  destruct (get o "Country") as [| |b|x|name]; try done.
  destruct (String.eqb name ""); [done|].
  case_bool_decide; [done|]. by apply after_fresh_row_not_strings.
Qed.

Lemma forEach_rows_not_strings (rows : list row) (index : nat)
    (st : validator_state) :
  Forall sector_cells_not_strings rows →
  forEach_rows parse1 rows index st = forEach_rows parse2 rows index st.
Proof.
  intros Hrows. revert index st.
  induction Hrows as [|r rows Hr _ IH]; intros index st; [done|].
  cbn. by rewrite (processRow_not_strings st r index Hr), IH.
Qed.

Lemma validate_not_strings (rawData : list row) :
  Forall sector_cells_not_strings rawData →
  validateAndProcessData parse1 rawData = validateAndProcessData parse2 rawData.
Proof.
  intros Hrows. rewrite !validateAndProcessData_unfold.
  destruct rawData as [|first rest]; [done|].
  destruct (missing_columns first); [|done]. cbv zeta.
  by rewrite (forEach_rows_not_strings (first :: rest)).
Qed.

Lemma processExcelData_not_strings (rawData : list row)
    (weights : SectorWeights) :
  Forall sector_cells_not_strings rawData →
  processExcelData parse1 rawData weights
  = processExcelData parse2 rawData weights.
Proof.
  intros Hrows. unfold processExcelData.
  rewrite <- (validate_not_strings rawData Hrows).
  destruct (negb _); [done|].
  unfold standardizeCountryNames. rewrite <- !list_fmap_compose.
  apply Forall_fmap_ext. eapply Forall_impl; [apply validated_records|].
  intros d (o & name & Ho & _ & _ & _ & ->).
  rewrite Forall_forall in Hrows. specialize (Hrows _ Ho).
  assert (Hp : ∀ k, k ∈ SECTORS →
                 parseFloat parse1 (get o (column_of k))
                 = parseFloat parse2 (get o (column_of k))).
  { intros k Hk. apply parseFloat_not_string. by apply (Hrows o). }
  cbn [compose]. unfold score_country.
  cbn [row_record ai quantum semiconductors biotech space fintech country].
  pose proof (Hp "ai" ltac:(repeat constructor)) as H1.
  pose proof (Hp "quantum" ltac:(repeat constructor)) as H2.
  pose proof (Hp "semiconductors" ltac:(repeat constructor)) as H3.
  pose proof (Hp "biotech" ltac:(repeat constructor)) as H4.
  pose proof (Hp "space" ltac:(repeat constructor)) as H5.
  pose proof (Hp "fintech" ltac:(repeat constructor)) as H6.
  change (column_of "ai") with "AI" in H1.
  change (column_of "quantum") with "Quantum" in H2.
  change (column_of "semiconductors") with "Semiconductors" in H3.
  change (column_of "biotech") with "Biotech" in H4.
  change (column_of "space") with "Space" in H5.
  change (column_of "fintech") with "Fintech" in H6.
  by rewrite H1, H2, H3, H4, H5, H6.
Qed.

(** X9.  [parseFloat] only consults its string grammar for string cells.  On
    rows whose sector cells are numbers, booleans or missing, the records,
    the report and the scored output are fixed by the cells alone: any two
    readings of strings give the same results. *)
Theorem numeric_rows_need_no_string_parsing (rawData : list row)
    (weights : SectorWeights) :
  Forall sector_cells_not_strings rawData →
  validateAndProcessData parse1 rawData = validateAndProcessData parse2 rawData
  ∧ processExcelData parse1 rawData weights
    = processExcelData parse2 rawData weights.
Proof.
  intros Hrows. split.
  - by apply validate_not_strings.
  - by apply processExcelData_not_strings.
Qed.

End ParserIndependence.

Lemma numeric_rows_need_no_string_parsing_witness :
  validateAndProcessData parseFloat_string [row_japan; row_japan_negative]
  = validateAndProcessData parse_nothing [row_japan; row_japan_negative]
  ∧ processExcelData parseFloat_string [row_japan; row_japan_negative]
      defaultSectorWeights
    = processExcelData parse_nothing [row_japan; row_japan_negative]
        defaultSectorWeights.
Proof.
  apply (numeric_rows_need_no_string_parsing parseFloat_string parse_nothing
           [row_japan; row_japan_negative] defaultSectorWeights).
  repeat constructor; intros o k [= <-] Hk; each_sector Hk; reflexivity.
Defined.

(** X10.  The normaliser is idempotent on every record list; it never
    drops, adds or reorders records and touches the [country] field only;
    it sends every alias of the table to its canonical name, and leaves
    alone every name that is neither an alias nor a property name of
    [Object.prototype]. *)
Theorem normaliser_is_idempotent (x : list CountryData) :
  standardizeCountryNames (standardizeCountryNames x)
  = standardizeCountryNames x
  ∧ Forall2 (λ c c',
               country c' = standardizeCountryName (country c)
               ∧ (∀ k, raw_cell c' k = raw_cell c k)
               ∧ totalScore c' = totalScore c
               ∧ sectorScores c' = sectorScores c)
      x (standardizeCountryNames x)
  ∧ (∀ alias canonical,
       (alias, canonical) ∈ COUNTRY_NAME_MAPPINGS →
       standardizeCountryName (Name alias) = Name canonical)
  ∧ (∀ s, assoc s COUNTRY_NAME_MAPPINGS = None → s ∉ OBJECT_PROTOTYPE →
          standardizeCountryName (Name s) = Name s).
Proof.
  split; [apply standardizeCountryNames_idemp|]. split.
  { unfold standardizeCountryNames.
    apply Forall2_fmap_r, Forall_Forall2_diag, Forall_forall. by intros c _. }
  split.
  - intros alias canonical Hin.
    pose proof aliases_map_to_canonical as Hall.
    rewrite Forall_forall in Hall. apply (Hall _ Hin).
  - apply standardizeCountryName_other.
Qed.

(** X11.  The scorer keeps no memory of earlier weights: it reads the
    country and the six raw cells only, so rescoring an already scored list
    with new weights gives exactly what scoring the original list with the
    new weights gives, and scoring commutes with name standardization. *)
Theorem rescoring_forgets_old_weights (parse_string : string → float)
    (w1 w2 : SectorWeights) (x : list CountryData) :
  score_country parse_string w2 <$> (score_country parse_string w1 <$> x)
  = score_country parse_string w2 <$> x
  ∧ standardizeCountryNames (score_country parse_string w1 <$> x)
    = score_country parse_string w1 <$> standardizeCountryNames x.
Proof.
  unfold standardizeCountryNames. rewrite <- !list_fmap_compose.
  split; by apply list_fmap_ext.
Qed.

(** * The spreadsheet reader *)

Section IngestFacts.

Context `{Runtime}.

Lemma forEach_headers_app (ws : worksheet) (R : nat) (pre post : list value)
    (index : nat) (o : object) :
  forEach_headers ws R (pre ++ post) index o
  = forEach_headers ws R post (index + length pre)
      (forEach_headers ws R pre index o).
Proof.
  revert index o. induction pre as [|h pre IH]; intros index o; cbn.
  - by rewrite Nat.add_0_r.
  - rewrite IH. f_equal. lia.
Qed.

(** A key that no header names keeps what it had. *)
Lemma forEach_headers_other (ws : worksheet) (R : nat) (headers : list value)
    (index : nat) (o : object) (k : string) :
  Forall (λ h, property_name h ≠ k) headers →
  forEach_headers ws R headers index o !! k = o !! k.
Proof.
  intros Hall. revert index o.
  induction Hall as [|h headers Hh _ IH]; intros index o; [done|].
  cbn. rewrite IH. unfold assign.
  destruct (String.eqb _ "__proto__"); [done|]. by rewrite lookup_insert_ne.
Qed.

Lemma forEach_headers_proto (ws : worksheet) (R : nat) (headers : list value)
    (index : nat) (o : object) :
  forEach_headers ws R headers index o !! "__proto__" = o !! "__proto__".
Proof.
  revert index o. induction headers as [|h headers IH]; intros index o; [done|].
  cbn. rewrite IH. unfold assign.
  destruct (String.eqb_spec (property_name h) "__proto__") as [|Hne]; [done|].
  by rewrite lookup_insert_ne.
Qed.

(** The last header that names a key decides its value. *)
Lemma forEach_headers_last (ws : worksheet) (R : nat)
    (pre post : list value) (h : value) (index : nat) (o : object) :
  property_name h ≠ "__proto__" →
  Forall (λ h', property_name h' ≠ property_name h) post →
  forEach_headers ws R (pre ++ h :: post) index o !! property_name h
  = Some (VNum (cell_number ws R (index + length pre + 1))).
Proof.
  intros Hproto Hpost. rewrite forEach_headers_app. cbn [forEach_headers].
  rewrite forEach_headers_other by done. unfold assign.
  apply String.eqb_neq in Hproto. rewrite Hproto. by rewrite lookup_insert_eq.
Qed.

(** Every property is either one the row started with or a number. *)
Lemma forEach_headers_values (ws : worksheet) (R : nat) (headers : list value)
    (index : nat) (o : object) (k : string) (v : value) :
  forEach_headers ws R headers index o !! k = Some v →
  o !! k = Some v ∨ ∃ x, v = VNum x.
Proof.
  revert index o. induction headers as [|h headers IH]; intros index o; cbn.
  { by left. }
  intros [Hv|Hv]%IH; [|by right]. revert Hv. unfold assign.
  destruct (String.eqb _ "__proto__"); [by left|].
  destruct (decide (property_name h = k)) as [<-|Hne].
  - rewrite lookup_insert_eq. intros [= <-]. right. by eexists.
  - rewrite lookup_insert_ne by done. by left.
Qed.

(** The keys of a row: those it started with and the header names. *)
Lemma forEach_headers_keys (ws : worksheet) (R : nat) (headers : list value)
    (index : nat) (o : object) (k : string) :
  is_Some (forEach_headers ws R headers index o !! k)
  ↔ is_Some (o !! k)
    ∨ (k ≠ "__proto__" ∧ ∃ h, h ∈ headers ∧ property_name h = k).
Proof.
  revert index o. induction headers as [|h headers IH]; intros index o; cbn.
  { split; [by left|]. intros [?|(_ & h & Hh & _)]; [done|].
    by apply elem_of_nil in Hh. }
  rewrite IH. unfold assign.
  destruct (String.eqb_spec (property_name h) "__proto__") as [Hp|Hp].
  - split.
    + intros [?|(Hk & h' & Hh' & Hn)]; [by left|right].
      split; [done|]. exists h'. split; [by right|done].
    + intros [?|(Hk & h' & Hh' & Hn)]; [by left|right].
      split; [done|]. apply elem_of_cons in Hh' as [->|Hh']; [congruence|].
      by exists h'.
  - destruct (decide (property_name h = k)) as [<-|Hne].
    + rewrite lookup_insert_eq. split.
      * intros _. right. split; [done|]. exists h. split; [left|done].
      * intros _. left. by eexists.
    + rewrite lookup_insert_ne by done. split.
      * intros [?|(Hk & h' & Hh' & Hn)]; [by left|right].
        split; [done|]. exists h'. split; [by right|done].
      * intros [?|(Hk & h' & Hh' & Hn)]; [by left|right].
        split; [done|]. apply elem_of_cons in Hh' as [->|Hh']; [congruence|].
        by exists h'.
Qed.

Lemma elem_of_read_headers (ws : worksheet) (h : value) :
  h ∈ read_headers ws
  ↔ ∃ C, s_c (ref ws) < C ≤ e_c (ref ws)
         ∧ h = header_of (cells ws !! (s_r (ref ws), C)).
Proof.
  unfold read_headers. rewrite list_elem_of_fmap. split.
  - intros (C & -> & HC). apply elem_of_seq in HC. exists C. split; [lia|done].
  - intros (C & HC & ->). exists C. split; [done|]. apply elem_of_seq. lia.
Qed.

Lemma elem_of_parseXlsxData (ws : worksheet) (r : row) :
  r ∈ parseXlsxData ws
  ↔ ∃ R, s_r (ref ws) < R ≤ e_r (ref ws)
         ∧ read_row ws (read_headers ws) R = Some r.
Proof.
  unfold parseXlsxData. cbv zeta. rewrite list_elem_of_omap. split.
  - intros (R & HR & Hrow). apply elem_of_seq in HR. exists R.
    split; [lia|done].
  - intros (R & HR & Hrow). exists R. split; [|done]. apply elem_of_seq. lia.
Qed.

Lemma length_omap_le {A B : Type} (f : A → option B) (l : list A) :
  length (omap f l) ≤ length l.
Proof.
  induction l as [|x l IH]; [done|]. cbn. destruct (f x); cbn; lia.
Qed.

(** The reading of one data row that has a cell in the first column. *)
Lemma read_row_Some (ws : worksheet) (headers : list value) (R : nat)
    (r : row) :
  read_row ws headers R = Some r →
  ∃ v, cells ws !! (R, s_c (ref ws)) = Some v
       ∧ r = Some (forEach_headers ws R headers 0 {["Country" := v]}).
Proof.
  unfold read_row. destruct (cells ws !! (R, s_c (ref ws))) as [v|]; [|done].
  intros [= <-]. by exists v.
Qed.

(** A key named by some header ends up holding a number. *)
Lemma forEach_headers_overwritten (ws : worksheet) (R : nat)
    (headers : list value) (index : nat) (o : object) (k : string) :
  k ≠ "__proto__" →
  Exists (λ h, property_name h = k) headers →
  ∃ x, forEach_headers ws R headers index o !! k = Some (VNum x).
Proof.
  intros Hproto Hex. revert index o.
  induction headers as [|h headers IH]; intros index o.
  { by apply Exists_nil in Hex. }
  cbn [forEach_headers].
  destruct (decide (Exists (λ h', property_name h' = k) headers))
    as [Hlater|Hlast]; [by apply IH|].
  apply Exists_cons in Hex as [Hh|?]; [|done].
  apply not_Exists_Forall in Hlast; [|intros ?; apply _].
  rewrite forEach_headers_other by done. unfold assign. rewrite Hh.
  apply String.eqb_neq in Hproto. rewrite Hproto, lookup_insert_eq.
  by eexists.
Qed.

(** Every row read is an object with a [Country] property whose other
    properties hold numbers. *)
Lemma ingested_rows_shape_aux (ws : worksheet) :
  Forall (λ r,
            ∃ o, r = Some o
                 ∧ is_Some (o !! "Country")
                 ∧ (∀ k v, k ≠ "Country" → o !! k = Some v → ∃ x, v = VNum x))
    (parseXlsxData ws).
Proof.
  apply Forall_forall. intros r (R & _ & Hrow)%elem_of_parseXlsxData.
  apply read_row_Some in Hrow as (v & _ & ->).
  eexists. split; [reflexivity|]. split.
  - apply forEach_headers_keys. left. rewrite lookup_singleton_eq. by eexists.
  - intros k w Hk [Hw|Hw]%forEach_headers_values; [|done].
    by rewrite lookup_singleton_ne in Hw.
Qed.

(** X12.  The reader returns at most one row per data row of the range.
    Each is an object that is not empty: it has a [Country] property and one
    property per header name, and every property other than [Country] holds
    a number. *)
Theorem ingested_rows_shape (ws : worksheet) :
  length (parseXlsxData ws) ≤ e_r (ref ws) - s_r (ref ws)
  ∧ Forall (λ r,
              ∃ o, r = Some o
                   ∧ is_Some (o !! "Country")
                   ∧ keys o ≠ []
                   ∧ (∀ k v, k ≠ "Country" → o !! k = Some v → ∃ x, v = VNum x)
                   ∧ (∀ C, s_c (ref ws) < C ≤ e_c (ref ws) →
                           header_key ws C ≠ "__proto__" →
                           is_Some (o !! header_key ws C)))
      (parseXlsxData ws).
Proof.
  split.
  { unfold parseXlsxData. cbv zeta.
    etrans; [apply length_omap_le|]. by rewrite length_seq. }
  apply Forall_forall. intros r (R & _ & Hrow)%elem_of_parseXlsxData.
  apply read_row_Some in Hrow as (v & _ & ->).
  eexists. split; [reflexivity|].
  assert (Hcountry :
            is_Some (forEach_headers ws R (read_headers ws) 0
                       {["Country" := v]} !! "Country")).
  { apply forEach_headers_keys. left. rewrite lookup_singleton_eq. by eexists. }
  split; [done|]. split.
  { apply elem_of_keys in Hcountry. intros Hnil. rewrite Hnil in Hcountry.
    by apply elem_of_nil in Hcountry. }
  split.
  - intros k w Hk [Hw|Hw]%forEach_headers_values; [|done].
    by rewrite lookup_singleton_ne in Hw.
  - intros C HC Hproto. apply forEach_headers_keys. right. split; [done|].
    eexists. split; [|reflexivity]. apply elem_of_read_headers. by exists C.
Qed.

(** The header row, split at a column. *)
Lemma read_headers_split (ws : worksheet) (C : nat) :
  s_c (ref ws) < C ≤ e_c (ref ws) →
  ∃ pre post,
    read_headers ws
    = pre ++ header_of (cells ws !! (s_r (ref ws), C)) :: post
    ∧ length pre + 1 = C - s_c (ref ws)
    ∧ Forall (λ h, ∃ C', C < C' ≤ e_c (ref ws)
                         ∧ h = header_of (cells ws !! (s_r (ref ws), C')))
        post.
Proof.
  intros HC. unfold read_headers.
  replace (e_c (ref ws) - s_c (ref ws))
    with ((C - s_c (ref ws) - 1) + S (e_c (ref ws) - C)) by lia.
  rewrite seq_app, fmap_app. cbn [seq fmap list_fmap].
  replace (s_c (ref ws) + 1 + (C - s_c (ref ws) - 1)) with C by lia.
  eexists _, _. split; [reflexivity|]. split.
  { rewrite length_fmap, length_seq. lia. }
  apply Forall_fmap, Forall_forall. intros C' HC'%elem_of_seq.
  exists C'. split; [lia|done].
Qed.

(** X13.  In the row read from a data row [R] that has a first-column cell,
    the property named by the header at column [C] (when no header further
    right repeats the name) holds the number found at column [C - s_c] of
    row [R], where [s_c] is the first column of the range: the very column
    [C] when the range starts at column A.  An absent cell there gives 0.
    When no header is named [Country], the [Country] property is the
    first-column cell. *)
Theorem ingested_cell (ws : worksheet) (R C : nat) (v : value) :
  s_r (ref ws) < R ≤ e_r (ref ws) →
  cells ws !! (R, s_c (ref ws)) = Some v →
  s_c (ref ws) < C ≤ e_c (ref ws) →
  header_key ws C ≠ "__proto__" →
  (∀ C', C < C' ≤ e_c (ref ws) → header_key ws C' ≠ header_key ws C) →
  ∃ o, Some o ∈ parseXlsxData ws
       ∧ read_row ws (read_headers ws) R = Some (Some o)
       ∧ o !! header_key ws C
         = Some (VNum (cell_number ws R (C - s_c (ref ws))))
       ∧ (cells ws !! (R, C - s_c (ref ws)) = None →
          o !! header_key ws C = Some (VNum 0%float))
       ∧ ((∀ C', s_c (ref ws) < C' ≤ e_c (ref ws) →
                 header_key ws C' ≠ "Country") →
          o !! "Country" = Some v).
Proof.
  intros HR Hv HC Hproto Hlast.
  assert (Hrow : read_row ws (read_headers ws) R
                 = Some (Some (forEach_headers ws R (read_headers ws) 0
                                 {["Country" := v]}))).
  { unfold read_row. by rewrite Hv. }
  eexists. split; [apply elem_of_parseXlsxData; by exists R|].
  split; [exact Hrow|].
  assert (Hcell : forEach_headers ws R (read_headers ws) 0 {["Country" := v]}
                    !! header_key ws C
                  = Some (VNum (cell_number ws R (C - s_c (ref ws))))).
  { destruct (read_headers_split ws C HC) as (pre & post & -> & Hlen & Hpost).
    unfold header_key. rewrite forEach_headers_last.
    - do 3 f_equal. lia.
    - exact Hproto.
    - eapply Forall_impl; [exact Hpost|]. intros h (C' & HC' & ->).
      by apply Hlast. }
  split; [exact Hcell|]. split.
  - intros Habsent. rewrite Hcell. unfold cell_number. by rewrite Habsent.
  - intros Hnone. rewrite forEach_headers_other.
    + by rewrite lookup_singleton_eq.
    + apply Forall_forall. intros h (C' & HC' & ->)%elem_of_read_headers.
      by apply Hnone.
Qed.

End IngestFacts.

Lemma ingested_cell_witness :
  ∃ o, Some o ∈ parseXlsxData sample_sheet
       ∧ read_row sample_sheet (read_headers sample_sheet) 2 = Some (Some o)
       ∧ o !! "Quantum" = Some (VNum (cell_number sample_sheet 2 2))
       ∧ (cells sample_sheet !! (2, 2) = None →
          o !! "Quantum" = Some (VNum 0%float))
       ∧ ((∀ C', 0 < C' ≤ 6 → header_key sample_sheet C' ≠ "Country") →
          o !! "Country" = Some (VStr "Peru")).
Proof.
  apply (ingested_cell sample_sheet 2 2 (VStr "Peru")).
  - cbn. lia.
  - reflexivity.
  - cbn. lia.
  - discriminate.
  - cbn. intros C' HC'.
    assert (HC : C' = 3 ∨ C' = 4 ∨ C' = 5 ∨ C' = 6) by lia.
    destruct HC as [-> | [-> | [-> | ->]]]; discriminate.
Defined.

(** * The reader and the pipeline together *)

(** What [processExcelData] returns, by the errors of the validator. *)
Lemma pipeline_outcome (parse_string : string → float) (rawData : list row)
    (weights : SectorWeights) :
  let result := validateAndProcessData parse_string rawData in
  let out := processExcelData parse_string rawData weights in
  (errors (validation result) ≠ [] → out = [])
  ∧ (errors (validation result) = [] →
     out = score_country parse_string weights
             <$> standardizeCountryNames (data result)
     ∧ out ≠ []).
Proof.
  cbv zeta. unfold processExcelData.
  rewrite validateAndProcessData_unfold.
  destruct rawData as [|first rest]; [by split|].
  destruct (missing_columns first) eqn:Hcols; [|by split].
  cbv zeta. cbn [validation data].
  set (st := forEach_rows parse_string (first :: rest) 0
               (initial_state fresh_validation)).
  assert (Hv : isValid (report st) = true).
  { destruct (forEach_rows_grows parse_string (first :: rest) 0
                (initial_state fresh_validation)) as (_ & _ & _ & Hv).
    exact Hv. }
  destruct (validation_of_loop st Hv) as (-> & _ & ->). split.
  { intros Herr. by rewrite bool_decide_eq_false_2. }
  intros Hnone. rewrite bool_decide_eq_true_2 by done. cbn [negb].
  split; [done|]. intros Hout.
  apply fmap_nil_inv in Hout. apply fmap_nil_inv in Hout.
  subst st. cbn [forEach_rows] in Hnone, Hout.
  destruct (forEach_rows_grows parse_string rest 1
              (processRow parse_string (initial_state fresh_validation)
                 first 0)) as ([ds Hd] & [es He] & _).
  rewrite Hd in Hout. rewrite He in Hnone.
  apply app_eq_nil in Hout as [Hout _]. apply app_eq_nil in Hnone as [Hnone _].
  by destruct (first_row_progress parse_string first Hcols).
Qed.

Section IngestPipeline.

Context `{Runtime}.

(** A required column other than [Country] is never [Country] or
    [__proto__]. *)
Lemma sector_column_names (k : string) :
  k ∈ SECTORS → column_of k ≠ "Country" ∧ column_of k ∈ REQUIRED_COLUMNS.
Proof.
  intros Hk. each_sector Hk; (split; [discriminate|repeat constructor]).
Qed.

Lemma ingested_sector_cells (ws : worksheet) :
  Forall sector_cells_not_strings (parseXlsxData ws).
Proof.
  eapply Forall_impl; [apply ingested_rows_shape_aux|].
  intros r (o & -> & _ & Hnum) o' k [= <-] Hk.
  destruct (sector_column_names k Hk) as [Hne _].
  unfold get. destruct (o !! column_of k) as [v|] eqn:Hv; [|done].
  by destruct (Hnum _ _ Hne Hv) as [x ->].
Qed.

(** X14.  Whatever the sheet, the rows the reader returns carry numbers in
    their sector cells, so the validator, the pipeline and [onDrop] give
    the same result under any two readings of strings by [parseFloat]. *)
Theorem ingested_sheet_needs_no_string_parsing (parse1 parse2 : string → float)
    (ws : worksheet) (weights : SectorWeights) :
  validateAndProcessData parse1 (parseXlsxData ws)
  = validateAndProcessData parse2 (parseXlsxData ws)
  ∧ processExcelData parse1 (parseXlsxData ws) weights
    = processExcelData parse2 (parseXlsxData ws) weights
  ∧ onDrop parse1 ws weights = onDrop parse2 ws weights.
Proof.
  pose proof (ingested_sector_cells ws) as Hcells.
  assert (Hout : processExcelData parse1 (parseXlsxData ws) weights
                 = processExcelData parse2 (parseXlsxData ws) weights)
    by (by apply processExcelData_not_strings).
  split; [by apply validate_not_strings|]. split; [done|].
  unfold onDrop. cbv zeta. by rewrite Hout.
Qed.

(** X15.  The header of the first column is never read: [Country] is never
    reported missing.  Of the six sector columns, the validator reports as
    missing exactly those whose name no header cell right of the first
    column carries. *)
Theorem ingested_missing_columns (ws : worksheet) (first : row)
    (rest : list row) (col : string) :
  parseXlsxData ws = first :: rest →
  col ∈ missing_columns first
  ↔ col ∈ REQUIRED_COLUMNS ∧ col ≠ "Country"
    ∧ ∀ C, s_c (ref ws) < C ≤ e_c (ref ws) → header_key ws C ≠ col.
Proof.
  intros Hrows.
  assert (Hfirst : first ∈ parseXlsxData ws) by (rewrite Hrows; left).
  apply elem_of_parseXlsxData in Hfirst as (R & _ & Hrow).
  apply read_row_Some in Hrow as (v & _ & ->).
  rewrite missing_columns_spec. cbn [keys_of_row].
  rewrite elem_of_keys, forEach_headers_keys.
  split.
  - intros [Hreq Hout]. split; [done|]. split.
    + intros ->. apply Hout. left. rewrite lookup_singleton_eq. by eexists.
    + intros C HC Hkey. apply Hout. right. split.
      * intros ->. revert Hreq. unfold REQUIRED_COLUMNS.
        rewrite !elem_of_cons, elem_of_nil. intuition discriminate.
      * eexists. split; [|exact Hkey]. apply elem_of_read_headers. by exists C.
  - intros (Hreq & Hne & Hnone). split; [done|].
    intros [[w Hw]|(_ & h & (C & HC & ->)%elem_of_read_headers & Hkey)].
    + by rewrite lookup_singleton_ne in Hw.
    + by apply (Hnone C HC).
Qed.

Lemma omap_all_None {A B : Type} (f : A → option B) (l : list A) :
  Forall (λ x, f x = None) l → omap f l = [].
Proof. induction 1 as [|x l Hx _ IH]; [done|]. cbn. by rewrite Hx. Qed.

(** X16.  A sheet without a first-column cell in any data row (in
    particular a sheet with a header row only, or without a range) gives no
    row; the validator answers "No data provided" and [onDrop] reports a
    failure. *)
Theorem sheet_without_countries (parse_string : string → float)
    (ws : worksheet) (weights : SectorWeights) :
  (∀ R, s_r (ref ws) < R ≤ e_r (ref ws) →
        cells ws !! (R, s_c (ref ws)) = None) →
  parseXlsxData ws = []
  ∧ errors (validation (validateAndProcessData parse_string (parseXlsxData ws)))
    = ["No data provided"]
  ∧ onDrop parse_string ws weights
    = inl "Failed to process data. Please check the file format and try again.".
Proof.
  intros Hnone.
  assert (Hrows : parseXlsxData ws = []).
  { unfold parseXlsxData. cbv zeta. apply omap_all_None, Forall_forall.
    intros R HR%elem_of_seq. unfold read_row. rewrite Hnone; [done|lia]. }
  unfold onDrop. cbv zeta. by rewrite Hrows.
Qed.

(** X17.  [onDrop] reports "Failed to process data" exactly when the
    validator recorded an error on the rows read; warnings never block.
    Otherwise it hands over one scored record per validated record. *)
Theorem onDrop_fails_on_errors_only (parse_string : string → float)
    (ws : worksheet) (weights : SectorWeights) :
  let result := validateAndProcessData parse_string (parseXlsxData ws) in
  (errors (validation result) ≠ [] →
   onDrop parse_string ws weights
   = inl "Failed to process data. Please check the file format and try again.")
  ∧ (errors (validation result) = [] →
     onDrop parse_string ws weights
     = inr (score_country parse_string weights
              <$> standardizeCountryNames (data result))).
Proof.
  cbv zeta.
  destruct (pipeline_outcome parse_string (parseXlsxData ws) weights)
    as [Herr Hok].
  unfold onDrop. cbv zeta. split.
  - intros He. by rewrite (Herr He).
  - intros He. destruct (Hok He) as [Hout Hne]. rewrite <- Hout.
    by destruct (processExcelData _ _ _).
Qed.

(** X18.  A header cell named [Country] right of the first column
    overwrites the country name of every row with a number, so no row
    passes the country check: the pipeline returns nothing and [onDrop]
    reports a failure. *)
Theorem country_header_blocks_sheet (parse_string : string → float)
    (ws : worksheet) (weights : SectorWeights) (C : nat) :
  s_c (ref ws) < C ≤ e_c (ref ws) → header_key ws C = "Country" →
  Forall (λ r, ∃ o x, r = Some o ∧ o !! "Country" = Some (VNum x))
    (parseXlsxData ws)
  ∧ processExcelData parse_string (parseXlsxData ws) weights = []
  ∧ onDrop parse_string ws weights
    = inl "Failed to process data. Please check the file format and try again.".
Proof.
  intros HC Hkey.
  assert (Hrows : Forall (λ r, ∃ o x, r = Some o
                                      ∧ o !! "Country" = Some (VNum x))
                    (parseXlsxData ws)).
  { apply Forall_forall. intros r (R & _ & Hrow)%elem_of_parseXlsxData.
    apply read_row_Some in Hrow as (v & _ & ->).
    destruct (forEach_headers_overwritten ws R (read_headers ws) 0
                {["Country" := v]} "Country") as [x Hx]; [done| |by eexists _, x].
    apply Exists_exists. eexists. split; [|exact Hkey].
    apply elem_of_read_headers. by exists C. }
  assert (Hout : processExcelData parse_string (parseXlsxData ws) weights = []).
  { apply pipeline_outcome. rewrite validateAndProcessData_unfold.
    destruct (parseXlsxData ws) as [|first rest]; [done|].
    destruct (missing_columns first); [|done]. cbv zeta. cbn [validation].
    apply Forall_cons in Hrows as [(o & x & -> & Hx) _].
    set (st := forEach_rows parse_string (Some o :: rest) 0
                 (initial_state fresh_validation)).
    assert (Hv : isValid (report st) = true).
    { destruct (forEach_rows_grows parse_string (Some o :: rest) 0
                  (initial_state fresh_validation)) as (_ & _ & _ & Hv).
      exact Hv. }
    destruct (validation_of_loop st Hv) as (-> & _ & _).
    subst st. cbn [forEach_rows].
    destruct (forEach_rows_grows parse_string rest 1
                (processRow parse_string (initial_state fresh_validation)
                   (Some o) 0)) as (_ & [es ->] & _).
    rewrite processRow_spec
      by (apply (keys_nonempty o "Country"); by eexists).
    unfold get. rewrite Hx. cbn. by destruct es. }
  split; [done|]. split; [done|]. unfold onDrop. cbv zeta. by rewrite Hout.
Qed.

End IngestPipeline.

Lemma ingested_missing_columns_witness :
  "AI" ∈ missing_columns (default None (head (parseXlsxData sample_sheet)))
  ↔ "AI" ∈ REQUIRED_COLUMNS ∧ "AI" ≠ "Country"
    ∧ ∀ C, 0 < C ≤ 6 → header_key sample_sheet C ≠ "AI".
Proof.
  apply (ingested_missing_columns sample_sheet
           (default None (head (parseXlsxData sample_sheet)))
           (tail (parseXlsxData sample_sheet)) "AI").
  vm_compute. reflexivity.
Defined.

Lemma sheet_without_countries_witness :
  parseXlsxData headers_only_sheet = []
  ∧ errors (validation (validateAndProcessData parseFloat_string
                          (parseXlsxData headers_only_sheet)))
    = ["No data provided"]
  ∧ onDrop parseFloat_string headers_only_sheet defaultSectorWeights
    = inl "Failed to process data. Please check the file format and try again.".
Proof.
  apply (sheet_without_countries parseFloat_string headers_only_sheet
           defaultSectorWeights).
  cbn. intros R HR. lia.
Defined.

Lemma country_header_blocks_sheet_witness :
  Forall (λ r, ∃ o x, r = Some o ∧ o !! "Country" = Some (VNum x))
    (parseXlsxData country_header_sheet)
  ∧ processExcelData parseFloat_string (parseXlsxData country_header_sheet)
      defaultSectorWeights = []
  ∧ onDrop parseFloat_string country_header_sheet defaultSectorWeights
    = inl "Failed to process data. Please check the file format and try again.".
Proof.
  apply (country_header_blocks_sheet parseFloat_string country_header_sheet
           defaultSectorWeights 3).
  - cbn. lia.
  - reflexivity.
Defined.

(** * The colour scale *)

Section ColourScale.

Local Open Scope float_scope.

Lemma ltb_leb (x y : float) : (x <? y) = true → (x <=? y) = true.
Proof.
  rewrite ltb_spec, leb_spec. unfold SFltb, SFleb.
  by destruct (SFcompare _ _) as [[]|].
Qed.

Lemma ltb_not_nan_r (x y : float) : (x <? y) = true → is_nan y = false.
Proof.
  unfold is_nan. rewrite ltb_spec, FloatAxioms.eqb_spec. unfold SFltb, SFeqb.
  destruct (Prim2SF y) as [s | s | | s m e].
  - done.
  - by destruct s.
  - by destruct (Prim2SF x).
  - intros _. cbn [SFcompare negb]. destruct s; rewrite Z.compare_refl;
      change (Pos.compare_cont Eq m m) with (m ?= m)%positive;
      by rewrite Pos.compare_refl.
Qed.

Lemma SFcompare_antisym (x y : spec_float) :
  SFcompare y x = CompOpp <$> SFcompare x y.
Proof.
  destruct x as [sx | sx | | sx mx ex], y as [sy | sy | | sy my ey];
    cbn [SFcompare fmap option_fmap option_map]; try done;
    try (by destruct sx); try (by destruct sy);
    try (by destruct sx, sy).
  destruct sx, sy; try done;
    rewrite (Z.compare_antisym ex ey);
    destruct (ex ?= ey)%Z; cbn [CompOpp]; try done;
    by rewrite (Pos.compare_cont_antisym mx my Eq).
Qed.

Lemma ltb_asym (x y : float) : (x <? y) = true → (y <? x) = false.
Proof.
  rewrite !ltb_spec. unfold SFltb. rewrite (SFcompare_antisym (Prim2SF x)).
  by destruct (SFcompare _ _) as [[]|].
Qed.

(** A negative number is below 0.9 and not above it. *)
Lemma negative_below (x : float) :
  (x <? 0) = true → (x <? 0.9) = true.
Proof.
  rewrite !ltb_spec. unfold SFltb.
  change (Prim2SF 0) with (S754_zero false).
  set (c := Prim2SF 0.9). vm_compute in c. subst c.
  destruct (Prim2SF x) as [s | s | | s m e]; cbn [SFcompare]; try done;
    by destruct s.
Qed.

Lemma Math_max_0_above (x : float) :
  is_nan x = false → (0 <? x) = true → Math_max 0 x = x.
Proof.
  intros Hnan Hpos. unfold Math_max. change (is_nan 0) with false.
  cbn [orb]. by rewrite Hnan, Hpos.
Qed.

Lemma Math_max_0_below (x : float) :
  is_nan x = false → (0 <? x) = false → Math_max 0 x = 0.
Proof.
  intros Hnan Hpos. unfold Math_max. change (is_nan 0) with false.
  cbn [orb]. rewrite Hnan, Hpos.
  change (is_zero 0 && get_sign 0) with false. by destruct (x <? 0).
Qed.

Lemma Math_min_09_below (x : float) :
  is_nan x = false → (0.9 <? x) = false → (x <? 0.9) = true →
  Math_min 0.9 x = x.
Proof.
  intros Hnan Habove Hbelow. unfold Math_min. change (is_nan 0.9) with false.
  cbn [orb]. by rewrite Hnan, Habove, Hbelow.
Qed.

Lemma Math_min_09_above (x : float) :
  is_nan x = false → (x <? 0.9) = false → Math_min 0.9 x = 0.9.
Proof.
  intros Hnan Hbelow. unfold Math_min. change (is_nan 0.9) with false.
  cbn [orb]. rewrite Hnan, Hbelow.
  change (is_zero 0.9 && negb (get_sign 0.9)) with false.
  by destruct (0.9 <? x).
Qed.

Lemma color_intensity_nan (value max : float) :
  is_nan (value / max) = true → color_intensity value max = nan.
Proof.
  intros Hnan. unfold color_intensity, Math_min.
  by rewrite Hnan, orb_true_r.
Qed.

(** The three outcomes of the clamp on a ratio that is a number. *)
Lemma color_intensity_cases (value max : float) :
  is_nan (value / max) = false →
  color_intensity value max = 0.9
  ∨ color_intensity value max = 0
  ∨ (color_intensity value max = value / max
     ∧ (0 <? value / max) = true ∧ (value / max <? 0.9) = true).
Proof.
  intros Hnan. unfold color_intensity. set (r := value / max) in *.
  destruct (r <? 0.9) eqn:Hbelow.
  - rewrite Math_min_09_below; [|done|by apply ltb_asym|done].
    destruct (0 <? r) eqn:Hpos.
    + right; right. by rewrite Math_max_0_above.
    + right; left. by rewrite Math_max_0_below.
  - left. by rewrite Math_min_09_above.
Qed.

(** X19.  The colour string is built from an intensity that is NaN exactly
    when [value / max] is NaN (as for 0 / 0); for every other pair of
    arguments the intensity lies between 0 and 0.9. *)
Theorem calculateColorIntensity_range `{Runtime} (value max : float) :
  calculateColorIntensity value max
  = "rgba(34, 197, 94, "
    +:+ number_to_string (color_intensity value max) +:+ ")"
  ∧ is_nan (color_intensity value max) = is_nan (value / max)
  ∧ (is_nan (value / max) = false →
     (0 <=? color_intensity value max) = true
     ∧ (color_intensity value max <=? 0.9) = true).
Proof.
  split; [reflexivity|].
  destruct (is_nan (value / max)) eqn:Hnan.
  { split; [by rewrite color_intensity_nan|done]. }
  destruct (color_intensity_cases value max Hnan)
    as [-> | [-> | (-> & Hpos & Hbelow)]]; try done.
  split; [done|]. intros _. split; by apply ltb_leb.
Qed.

(** X20.  The clamp: a ratio above 0.9 gives the intensity 0.9, a negative
    ratio gives 0, and a ratio strictly between 0 and 0.9 is kept as it
    is. *)
Theorem color_intensity_clamps (value max : float) :
  ((0.9 <? value / max) = true → color_intensity value max = 0.9)
  ∧ ((value / max <? 0) = true → color_intensity value max = 0)
  ∧ ((0 <? value / max) = true → (value / max <? 0.9) = true →
     color_intensity value max = value / max).
Proof.
  unfold color_intensity. set (r := value / max). split; [|split].
  - intros Habove.
    by rewrite Math_min_09_above
      by (by apply (ltb_not_nan_r 0.9) || by apply ltb_asym).
  - intros Hneg.
    rewrite Math_min_09_below;
      [|by apply (ltb_not_nan r 0)
       |by apply ltb_asym, negative_below
       |by apply negative_below].
    apply Math_max_0_below; [by apply (ltb_not_nan r 0)|by apply ltb_asym].
  - intros Hpos Hbelow.
    rewrite Math_min_09_below;
      [|by apply (ltb_not_nan r 0.9)|by apply ltb_asym|done].
    apply Math_max_0_above; [by apply (ltb_not_nan r 0.9)|done].
Qed.

End ColourScale.

(** * Reading hexadecimal strings *)

Section Hex.

Local Open Scope Z_scope.

(** Case analysis on a value below 16. *)
Ltac each_nibble d H :=
  assert (d = 0 ∨ d = 1 ∨ d = 2 ∨ d = 3 ∨ d = 4 ∨ d = 5 ∨ d = 6 ∨ d = 7
          ∨ d = 8 ∨ d = 9 ∨ d = 10 ∨ d = 11 ∨ d = 12 ∨ d = 13 ∨ d = 14
          ∨ d = 15) as H by lia;
  destruct H as [-> | [-> | [-> | [-> | [-> | [-> | [-> | [-> | [-> | [-> |
                [-> | [-> | [-> | [-> | [-> | ->]]]]]]]]]]]]]]].

Lemma hex_char_not_terminator (d : Z) :
  0 ≤ d < 16 → is_line_terminator (hex_char d) = false.
Proof. intros Hd. each_nibble d H; reflexivity. Qed.

Lemma parseInt16_digit (d : Z) :
  0 ≤ d < 16 → parseInt16 (String (hex_char d) EmptyString) = Some d.
Proof. intros Hd. each_nibble d H; reflexivity. Qed.

Lemma parseInt16_two_digits (d1 d2 : Z) :
  0 ≤ d1 < 16 → 0 ≤ d2 < 16 →
  parseInt16 (String (hex_char d1) (String (hex_char d2) EmptyString))
  = Some (16 * d1 + d2).
Proof.
  intros Hd1 Hd2. each_nibble d1 H1; each_nibble d2 H2; reflexivity.
Qed.

Lemma match_chunks_two_digits (d1 d2 : Z) (s : string) :
  0 ≤ d1 < 16 → 0 ≤ d2 < 16 →
  match_chunks (String (hex_char d1) (String (hex_char d2) s))
  = String (hex_char d1) (String (hex_char d2) EmptyString) :: match_chunks s.
Proof.
  intros Hd1 Hd2. cbn [match_chunks].
  by rewrite !hex_char_not_terminator.
Qed.

Lemma string_app_nil_r (s : string) : s +:+ EmptyString = s.
Proof.
  induction s as [|a s IH]; [done|].
  change (String a s +:+ EmptyString) with (String a (s +:+ EmptyString)).
  by rewrite IH.
Qed.

(** Decoding an encoded prefix does not depend on what follows it. *)
Lemma fromHexString_to_hex_app (bytes : list Z) (s : string) :
  Forall (λ b, 0 ≤ b < 256) bytes →
  fromHexString (to_hex bytes +:+ s) = bytes ++ fromHexString s.
Proof.
  induction 1 as [|b bytes Hb _ IH]; [done|].
  assert (Hhi : 0 ≤ b / 16 < 16).
  { split; [apply Z.div_pos; lia|apply Z.div_lt_upper_bound; lia]. }
  assert (Hlo : 0 ≤ b mod 16 < 16) by (apply Z.mod_pos_bound; lia).
  change (to_hex (b :: bytes) +:+ s)
    with (String (hex_char (b / 16))
            (String (hex_char (b mod 16)) (to_hex bytes +:+ s))).
  unfold fromHexString in *.
  rewrite match_chunks_two_digits by done. cbn [fmap list_fmap].
  rewrite IH, parseInt16_two_digits by done. cbn [ToUint8].
  rewrite <- Z.div_mod by lia. by rewrite Z.mod_small by lia.
Qed.

(** X21.  Round trip: a list of bytes written with two lower-case
    hexadecimal digits per byte is read back as the same list, and this
    reading of an encoded prefix is independent of the text that follows. *)
Theorem fromHexString_round_trip (bytes : list Z) (s : string) :
  Forall (λ b, 0 ≤ b < 256) bytes →
  fromHexString (to_hex bytes) = bytes
  ∧ fromHexString (to_hex bytes +:+ s) = bytes ++ fromHexString s.
Proof.
  intros Hbytes. split; [|by apply fromHexString_to_hex_app].
  pose proof (fromHexString_to_hex_app bytes EmptyString Hbytes) as Hall.
  change (fromHexString EmptyString) with (@nil Z) in Hall.
  by rewrite app_nil_r, string_app_nil_r in Hall.
Qed.

(** X22.  An odd number of digits: the lone last digit is read as a byte of
    its own, equal to its value (the low half of a byte, not the high
    one). *)
Theorem fromHexString_lone_digit (bytes : list Z) (d : Z) :
  Forall (λ b, 0 ≤ b < 256) bytes → 0 ≤ d < 16 →
  fromHexString (to_hex bytes +:+ String (hex_char d) EmptyString)
  = bytes ++ [d].
Proof.
  intros Hbytes Hd. rewrite fromHexString_to_hex_app by done. f_equal.
  unfold fromHexString. cbn [match_chunks].
  rewrite hex_char_not_terminator by done. cbn [fmap list_fmap].
  rewrite parseInt16_digit by done. cbn [ToUint8].
  by rewrite Z.mod_small by lia.
Qed.

End Hex.

Section HexChunks.




Lemma match_chunks_split_aux (s1 s2 : string) (t : ascii) :
  is_line_terminator t = true →
  match_chunks (s1 +:+ String t s2) = match_chunks s1 ++ match_chunks s2
  ∧ ∀ a, match_chunks (String a (s1 +:+ String t s2))
         = match_chunks (String a s1) ++ match_chunks s2.
Proof.
  intros Ht. induction s1 as [|b s1 [IH1 IH2]].
  { change (EmptyString +:+ String t s2) with (String t s2).
    split; [cbn [match_chunks]; by rewrite Ht|].
    intros a. cbn [match_chunks].
    destruct (is_line_terminator a); by rewrite Ht. }
  change (String b s1 +:+ String t s2) with (String b (s1 +:+ String t s2)).
  split; [apply IH2|]. intros a. cbn [match_chunks].
  destruct (is_line_terminator a).
  - apply (IH2 b).
  - destruct (is_line_terminator b); by rewrite IH1.
Qed.

(** X24.  A line terminator separates: it is skipped and ends the chunk
    before it, so the bytes of [s1], a line feed or carriage return, and
    [s2] are the bytes of [s1] followed by the bytes of [s2]. *)
Theorem fromHexString_line_break (s1 s2 : string) (t : ascii) :
  is_line_terminator t = true →
  fromHexString (s1 +:+ String t s2) = fromHexString s1 ++ fromHexString s2.
Proof.
  intros Ht. unfold fromHexString.
  destruct (match_chunks_split_aux s1 s2 t Ht) as [-> _]. apply fmap_app.
Qed.

End HexChunks.

Lemma fromHexString_round_trip_witness :
  fromHexString (to_hex [0; 255; 16; 171]%Z) = [0; 255; 16; 171]%Z
  ∧ fromHexString (to_hex [0; 255; 16; 171]%Z +:+ "zz")
    = [0; 255; 16; 171]%Z ++ fromHexString "zz".
Proof.
  apply (fromHexString_round_trip [0; 255; 16; 171]%Z "zz").
  repeat constructor; lia.
Defined.

Lemma fromHexString_lone_digit_witness :
  fromHexString (to_hex [18; 52]%Z +:+ String (hex_char 11) EmptyString)
  = [18; 52]%Z ++ [11%Z].
Proof.
  apply (fromHexString_lone_digit [18; 52]%Z 11).
  - repeat constructor; lia.
  - lia.
Defined.

Lemma fromHexString_line_break_witness :
  fromHexString ("a" +:+ String "010" "bcd")
  = fromHexString "a" ++ fromHexString "bcd".
Proof.
  apply (fromHexString_line_break "a" "bcd" "010").
  reflexivity.
Defined.

(** * Moving one weight slider *)

Section Sliders.

Variable parse_string : string → float.

Local Open Scope float_scope.

(** The scorer reads the six sector weights and nothing else. *)
Lemma score_country_six_weights (w1 w2 : SectorWeights) (c : CountryData) :
  (∀ j, j ∈ SECTORS → w1 !! j = w2 !! j) →
  score_country parse_string w1 c = score_country parse_string w2 c.
Proof.
  intros Hw. unfold score_country, weight.
  rewrite (Hw "ai"), (Hw "quantum"), (Hw "semiconductors"), (Hw "biotech"),
    (Hw "space"), (Hw "fintech"); [done|..]; unfold SECTORS;
    repeat first [apply list_elem_of_here | apply list_elem_of_further].
Qed.

Lemma processExcelData_scored (rawData : list row) (weights : SectorWeights)
    (r : CountryData) :
  r ∈ processExcelData parse_string rawData weights →
  ∃ c, r = score_country parse_string weights c.
Proof.
  unfold processExcelData.
  destruct (negb _); [by intros ?%elem_of_nil|].
  change (map ?f ?l) with (f <$> l).
  intros (c & -> & _)%list_elem_of_fmap. by exists c.
Qed.

(** X25.  A slider that names none of the six sectors changes nothing in
    the rescored output.  A slider for sector [k] makes the contribution of
    [k] in every rescored record the product of the parsed raw cell of [k]
    with the new value, whatever the weights held before. *)
Theorem weight_change_reaches_one_sector (rawData : list row)
    (prev : SectorWeights) (sector : string) (value : float) :
  (sector ∉ SECTORS →
   processExcelData parse_string rawData
     (handleSectorWeightChange prev sector value)
   = processExcelData parse_string rawData prev)
  ∧ (sector ∈ SECTORS →
     Forall (λ r, assoc sector (sectorScores r)
                  = Some (parseFloat parse_string (raw_cell r sector) * value))
       (processExcelData parse_string rawData
          (handleSectorWeightChange prev sector value))).
Proof.
  split.
  - intros Hout. unfold processExcelData.
    destruct (negb _); [done|]. apply map_ext. intros c.
    apply score_country_six_weights. intros j Hj.
    unfold handleSectorWeightChange. apply lookup_insert_ne.
    intros ->. by apply Hout.
  - intros Hin. apply Forall_forall. intros r [c ->]%processExcelData_scored.
    rewrite sector_contribution by done.
    unfold weight, handleSectorWeightChange. rewrite lookup_insert_eq.
    reflexivity.
Qed.

End Sliders.

(** * The total score and the dot product *)

Section TotalScore.

Variable parse_string : string → float.

Local Open Scope float_scope.

(** A number that is not finite minus itself is NaN. *)
Lemma sub_diag_not_finite (x : float) : is_finite x = false → x - x = nan.
Proof.
  unfold is_finite, is_nan, is_infinity.
  rewrite !FloatAxioms.eqb_spec, abs_spec. intros Hfin.
  apply Prim2SF_inj. rewrite sub_spec.
  change (Prim2SF nan) with S754_nan.
  change (Prim2SF infinity) with (S754_infinity false) in Hfin.
  unfold SF64sub.
  destruct (Prim2SF x) as [s | s | | s m e].
  - destruct s; vm_compute in Hfin; discriminate.
  - by destruct s.
  - done.
  - exfalso. revert Hfin. unfold SFeqb, SFabs. cbn [SFcompare].
    rewrite Z.compare_refl.
    change (Pos.compare_cont Eq m m) with (m ?= m)%positive.
    rewrite Pos.compare_refl. by destruct s.
Qed.

(** A number is within the tolerance of itself exactly when it is finite:
    [Infinity - Infinity] and [NaN - NaN] are NaN, which no comparison
    accepts. *)
Lemma within_tolerance_diag (x : float) :
  within_tolerance 1e-9 x x = is_finite x.
Proof.
  destruct (is_finite x) eqn:Hfin; [by apply within_tolerance_refl|].
  unfold within_tolerance. by rewrite sub_diag_not_finite.
Qed.

(** The validator sets [isValid] to [false] as soon as it records an
    error. *)
Lemma isValid_no_errors (rawData : list row) :
  isValid (validation (validateAndProcessData parse_string rawData)) = true →
  errors (validation (validateAndProcessData parse_string rawData)) = [].
Proof.
  rewrite validateAndProcessData_unfold.
  destruct rawData as [|first rest]; [done|].
  destruct (missing_columns first); [|done].
  cbv zeta. cbn [validation].
  set (st := forEach_rows parse_string (first :: rest) 0
               (initial_state fresh_validation)).
  assert (Hv : isValid (report st) = true).
  { destruct (forEach_rows_grows parse_string (first :: rest) 0
                (initial_state fresh_validation)) as (_ & _ & _ & Hv).
    exact Hv. }
  destruct (validation_of_loop st Hv) as (-> & _ & ->).
  intros Hvalid. by apply bool_decide_eq_true_1 in Hvalid.
Qed.

(** C1, as amended.  On a batch that the validator accepts, with weights
    that supply all six sector keys, the scoring stage emits something: one
    record for each validated record, in the same order, with the same raw
    cells (which parse to numbers that are not negative) and the
    standardized country.  Its six contributions are the products of the
    parsed raw cells with the weights, and its [totalScore] is the dot
    product of the parsed raw cells with the weights, accumulated from 0 in
    the order ai, quantum, semiconductors, biotech, space, fintech: the two
    are the same binary64 value.  They agree to the tolerance 1e-9 exactly
    when that value is finite. *)
Theorem totalScore_is_dot_product
    (rawData : list row) (weights : SectorWeights) (w : string → float) :
  Forall (λ k, weights !! k = Some (w k)) SECTORS →
  isValid (validation (validateAndProcessData parse_string rawData)) = true →
  let validated := data (validateAndProcessData parse_string rawData) in
  let out := processExcelData parse_string rawData weights in
  out ≠ []
  ∧ Forall2 (λ d r,
               let raw k := parseFloat parse_string (raw_cell d k) in
               let dot := dot_product raw w SECTORS in
               country r = standardizeCountryName (country d)
               ∧ (∀ k, raw_cell r k = raw_cell d k)
               ∧ Forall (λ k, rejected (raw k) = false) SECTORS
               ∧ sectorScores r = (λ k, (k, raw k * w k)) <$> SECTORS
               ∧ totalScore r = dot
               ∧ within_tolerance 1e-9 (totalScore r) dot = is_finite dot)
      validated out.
Proof.
  intros Hw Hvalid. cbv zeta.
  destruct (pipeline_outcome parse_string rawData weights) as [_ Hout].
  destruct (Hout (isValid_no_errors rawData Hvalid)) as [-> Hne].
  split; [exact Hne|].
  unfold standardizeCountryNames. rewrite <- list_fmap_compose.
  apply Forall2_fmap_r, Forall_Forall2_diag.
  eapply Forall_impl; [apply validated_records|].
  intros d (o & name & Ho & _ & _ & Hacc & ->). cbn [compose]. cbv zeta.
  match goal with
  | |- context [score_country _ _ ?c] => set (std := c)
  end.
  assert (Hweights : Forall (λ k, weight weights k = w k) SECTORS).
  { eapply Forall_impl; [exact Hw|]. intros k Hk. unfold weight.
    by rewrite Hk. }
  assert (Heq : totalScore (score_country parse_string weights std)
                = dot_product
                    (λ k, parseFloat parse_string
                            (raw_cell (row_record parse_string o name) k))
                    w SECTORS).
  { rewrite score_country_total. by apply dot_product_ext. }
  split; [reflexivity|]. split; [reflexivity|]. split.
  { apply Forall_forall. intros k Hk. rewrite (row_record_raw_cell _ o name k Hk).
    unfold row_rejected in Hacc. apply not_true_iff_false. intros Hrej.
    apply not_true_iff_false in Hacc. apply Hacc, existsb_exists.
    exists k. by rewrite <- list_elem_of_In. }
  split.
  { rewrite Forall_forall in Hweights. unfold SECTORS in *.
    cbn [score_country sectorScores fmap list_fmap].
    rewrite <- !Hweights by (repeat first [apply list_elem_of_here
                                          | apply list_elem_of_further]).
    reflexivity. }
  split; [exact Heq|]. rewrite Heq. apply within_tolerance_diag.
Qed.

End TotalScore.

Lemma totalScore_is_dot_product_witness :
  let rawData := [row_japan; row_usa] in
  let validated := data (validateAndProcessData parseFloat_string rawData) in
  let out := processExcelData parseFloat_string rawData defaultSectorWeights in
  out ≠ []
  ∧ Forall2 (λ d r,
               let raw k := parseFloat parseFloat_string (raw_cell d k) in
               let dot :=
                 dot_product raw (weight defaultSectorWeights) SECTORS in
               country r = standardizeCountryName (country d)
               ∧ (∀ k, raw_cell r k = raw_cell d k)
               ∧ Forall (λ k, rejected (raw k) = false) SECTORS
               ∧ sectorScores r
                 = (λ k, (k, raw k * weight defaultSectorWeights k)%float)
                     <$> SECTORS
               ∧ totalScore r = dot
               ∧ within_tolerance 1e-9 (totalScore r) dot = is_finite dot)
      validated out.
Proof.
  apply (totalScore_is_dot_product parseFloat_string [row_japan; row_usa]
           defaultSectorWeights (weight defaultSectorWeights)).
  - repeat constructor.
  - reflexivity.
Defined.

(** C1 as stated fails on validated input whose score leaves the finite
    range.  An [AI] cell of 1e308 with a weight of 10 gives an infinite
    [totalScore] and an infinite dot product, and [Infinity - Infinity] is
    NaN, not a number below 1e-9.  An [AI] cell of [Infinity] with a weight
    of 0 gives NaN for both, and NaN equals nothing, itself included. *)
Lemma totalScore_not_within_tolerance :
  let expected weights r :=
    dot_product (λ k, parseFloat parseFloat_string (raw_cell r k))
      (weight weights) SECTORS in
  (isValid (validation (validateAndProcessData parseFloat_string [row_huge]))
   = true
   ∧ Forall (λ k, is_Some (weights_ai_ten !! k)) SECTORS
   ∧ (λ r, (totalScore r, expected weights_ai_ten r,
            within_tolerance 1e-9 (totalScore r) (expected weights_ai_ten r)))
       <$> processExcelData parseFloat_string [row_huge] weights_ai_ten
     = [(infinity, infinity, false)])
  ∧ (isValid
       (validation (validateAndProcessData parseFloat_string [row_infinite]))
     = true
     ∧ Forall (λ k, is_Some (weights_ai_zero !! k)) SECTORS
     ∧ (λ r, (totalScore r, expected weights_ai_zero r,
              within_tolerance 1e-9 (totalScore r) (expected weights_ai_zero r),
              (totalScore r =? expected weights_ai_zero r)%float))
         <$> processExcelData parseFloat_string [row_infinite] weights_ai_zero
       = [(nan, nan, false, false)]).
Proof.
  cbv zeta. split; (split; [vm_compute; reflexivity|]);
    (split; [repeat constructor; by eexists|]); vm_compute; reflexivity.
Qed.

(** * A duplicate is recognised before its sector cells are read *)

Section DuplicateFirst.

Variable parse_string : string → float.

(** Past the column check, the validator's result is what the loop leaves
    after the rows from [n] on, started in the state it reaches at row
    [n]. *)
Lemma validateAndProcessData_from (rawData : list row) (n : nat) :
  missing_columns (default None (head rawData)) = [] →
  rawData ≠ [] → n ≤ length rawData →
  let final :=
    forEach_rows parse_string (drop n rawData) n
      (state_at parse_string rawData n) in
  data (validateAndProcessData parse_string rawData) = processedData final
  ∧ errors (validation (validateAndProcessData parse_string rawData))
    = errors (report final)
  ∧ warnings (validation (validateAndProcessData parse_string rawData))
    = warnings (report final)
  ∧ isValid (validation (validateAndProcessData parse_string rawData))
    = bool_decide (errors (report final) = []).
Proof.
  intros Hcols Hrows Hn. cbv zeta.
  rewrite <- (forEach_rows_from parse_string rawData n) by lia.
  rewrite validateAndProcessData_unfold.
  destruct rawData as [|first rest]; [done|].
  cbn [head default from_option id] in Hcols. rewrite Hcols. cbv zeta.
  cbn [data validation].
  set (st := forEach_rows parse_string (first :: rest) 0
               (initial_state fresh_validation)).
  assert (Hv : isValid (report st) = true).
  { destruct (forEach_rows_grows parse_string (first :: rest) 0
                (initial_state fresh_validation)) as (_ & _ & _ & Hv).
    exact Hv. }
  by destruct (validation_of_loop st Hv) as (-> & -> & ->).
Qed.

(** C10, as amended.  In a batch that passes the column check, take a row
    whose country is the same non-empty string as that of an earlier row.
    The validator reaches it in the state [st] and goes on from the state
    [st'] in which it leaves it.  From [st] to [st'] the records, the seen
    names and the errors are unchanged and exactly one warning is added.
    None of its other cells is read: any row with the same country in its
    place gives the same result of the whole validation.  So its sector
    defects add no error and cannot flip [isValid]: the records, [isValid]
    and the number of errors are those of the batch without the row, with
    one more warning. *)
Theorem duplicate_checked_before_sectors (rawData : list row) (m n : nat)
    (o1 o : object) (name : string) :
  missing_columns (default None (head rawData)) = [] →
  m < n →
  rawData !! m = Some (Some o1) → rawData !! n = Some (Some o) →
  get o1 "Country" = VStr name → get o "Country" = VStr name → name ≠ "" →
  let result := validateAndProcessData parse_string rawData in
  let without := validateAndProcessData parse_string (delete n rawData) in
  let st := state_at parse_string rawData n in
  let st' := processRow parse_string st (Some o) n in
  let final := forEach_rows parse_string (drop (S n) rawData) (S n) st' in
  (data result = processedData final
   ∧ errors (validation result) = errors (report final)
   ∧ warnings (validation result) = warnings (report final)
   ∧ isValid (validation result) = bool_decide (errors (report final) = []))
  ∧ (processedData st' = processedData st
     ∧ countrySet st' = countrySet st
     ∧ errors (report st') = errors (report st)
     ∧ warnings (report st')
       = warnings (report st) ++ ["Duplicate country found: " +:+ name])
  ∧ (∀ o', get o' "Country" = VStr name →
           validateAndProcessData parse_string (<[n := Some o']> rawData)
           = result)
  ∧ (data result = data without
     ∧ isValid (validation result) = isValid (validation without)
     ∧ length (errors (validation result))
       = length (errors (validation without))
     ∧ length (warnings (validation result))
       = S (length (warnings (validation without)))).
Proof.
  intros Hcols Hmn Hm Hn Hc1 Hc Hname. cbv zeta.
  pose proof (lookup_lt_Some _ _ _ Hn) as Hlt.
  assert (Hseen : name ∈ countrySet (state_at parse_string rawData n)).
  { apply state_at_seen. by exists m, o1. }
  split.
  { rewrite <- (state_at_S parse_string rawData n (Some o) Hn).
    apply validateAndProcessData_from; [done| |lia].
    by intros ->. }
  split.
  { by rewrite (processRow_duplicate _ _ o name n Hc Hname Hseen). }
  split.
  { intros o' Hc'. rewrite !validateAndProcessData_unfold.
    destruct rawData as [|first rest]; [done|].
    destruct n as [|n]; [lia|]. cbn [insert list_insert].
    destruct (missing_columns first); [|done].
    change (first :: <[n := Some o']> rest)
      with (<[S n := Some o']> (first :: rest)).
    cbv zeta.
    by rewrite (forEach_rows_insert_duplicate _ (first :: rest) (S n) o o'
                  name). }
  rewrite !validateAndProcessData_unfold.
  destruct rawData as [|first rest]; [done|].
  destruct n as [|n]; [lia|]. cbn [delete list_delete].
  cbn [head default from_option id] in Hcols. rewrite Hcols. cbv zeta.
  change (first :: delete n rest) with (delete (S n) (first :: rest)).
  destruct (forEach_rows_delete_duplicate _ (first :: rest) (S n) o name
              Hn Hc Hname Hseen) as (Hd & _ & Hv & He & Hw).
  cbn [data validation]. rewrite He.
  destruct (0 <? _)%nat; cbn [set_isValid isValid errors warnings];
    repeat split; try done; by rewrite ?He, ?Hw.
Qed.

End DuplicateFirst.

Lemma duplicate_checked_before_sectors_witness :
  let rawData := [row_japan; row_usa; Some object_japan_broken] in
  let result := validateAndProcessData parseFloat_string rawData in
  let without := validateAndProcessData parseFloat_string (delete 2 rawData) in
  (∀ o', get o' "Country" = VStr "Japan" →
         validateAndProcessData parseFloat_string (<[2 := Some o']> rawData)
         = result)
  ∧ (data result = data without
     ∧ isValid (validation result) = isValid (validation without)
     ∧ length (errors (validation result))
       = length (errors (validation without))
     ∧ length (warnings (validation result))
       = S (length (warnings (validation without)))).
Proof.
  refine (proj2 (proj2 (duplicate_checked_before_sectors parseFloat_string
            [row_japan; row_usa; Some object_japan_broken] 0 2
            _ object_japan_broken "Japan" eq_refl _ eq_refl eq_refl eq_refl
            eq_refl _))).
  - lia.
  - discriminate.
Defined.

(** C10 as stated fails for rows that share a country which is no valid
    name, and in a batch that fails the column check.  Two rows with the
    same empty country string each draw the error "Invalid country name",
    and no warning; after a first row without a [Quantum] column no row is
    looked at, so a repeated country leaves no warning at all. *)
Lemma duplicate_of_invalid_name_is_an_error :
  validation
    (validateAndProcessData parseFloat_string
       [row_japan; row_nameless; row_nameless_broken])
  = {| isValid := false;
       errors :=
         ["Invalid country name at row 2"; "Invalid country name at row 3"];
       warnings := [] |}
  ∧ validateAndProcessData parseFloat_string
      [row_without_quantum; Some object_japan_broken]
    = {| data := [];
         validation :=
           {| isValid := false;
              errors := ["Missing required columns: Quantum"];
              warnings := [] |} |}.
Proof. split; vm_compute; reflexivity. Qed.

(** * Countries of the output *)

(** C3, on inputs where the code departs from it.  The validator looks for a
    repeated country in the cell as it stands, and only then stores the
    trimmed string; the alias table is applied later still.  So "Japan" and
    "Japan " are not recognised as the same country (no warning is
    recorded) and give two records named "Japan"; "USA" and "US" give two
    records named "United States of America"; and a cell of two spaces
    passes the test for an empty name and gives a record whose country is
    the empty string. *)
Theorem output_countries_repeat :
  (validation
     (validateAndProcessData parseFloat_string [row_japan; row_japan_padded])
   = {| isValid := true; errors := []; warnings := [] |}
   ∧ country <$>
       processExcelData parseFloat_string [row_japan; row_japan_padded]
         defaultSectorWeights
     = [Name "Japan"; Name "Japan"])
  ∧ (validation (validateAndProcessData parseFloat_string [row_usa; row_us])
     = {| isValid := true; errors := [];
          warnings := ["space value > 1 for USA"] |}
     ∧ country <$>
         processExcelData parseFloat_string [row_usa; row_us]
           defaultSectorWeights
       = [Name "United States of America"; Name "United States of America"])
  ∧ (validation (validateAndProcessData parseFloat_string [row_blank])
     = {| isValid := true; errors := []; warnings := [] |}
     ∧ country <$>
         processExcelData parseFloat_string [row_blank] defaultSectorWeights
       = [Name ""]).
Proof. repeat split; vm_compute; reflexivity. Qed.

Section RawNames.

Variable parse_string : string → float.

(** The rows that leave a record: a subsequence of the rows, with pairwise
    distinct country cells, none of them seen before the loop started. *)
Lemma forEach_rows_distinct (rows : list row) (index : nat)
    (st : validator_state) :
  ∃ accepted : list (object * string),
    (Some ∘ fst <$> accepted) `sublist_of` rows
    ∧ Forall (λ p, get p.1 "Country" = VStr p.2 ∧ p.2 ≠ ""
                   ∧ p.2 ∉ countrySet st) accepted
    ∧ NoDup accepted.*2
    ∧ processedData (forEach_rows parse_string rows index st)
      = processedData st
        ++ ((λ p, row_record parse_string p.1 p.2) <$> accepted).
Proof.
  revert index st. induction rows as [|r rows IH]; intros index st.
  { exists []. cbn. rewrite app_nil_r. repeat split; constructor. }
  cbn [forEach_rows].
  destruct (IH (S index) (processRow parse_string st r index))
    as (accepted & Hsub & Hall & Hnodup & Hdata).
  rewrite Hdata. clear Hdata.
  destruct (processRow_cases parse_string st r index)
    as [Hst | [Hst | (o & name & -> & Hc & Hname & [[_ Hst] | [Hfresh Hst]])]];
    rewrite Hst in *; cbn [after_invalid_name after_duplicate countrySet
                            processedData] in *;
    try (exists accepted; split; [by apply sublist_cons|done]).
  unfold after_fresh_row in *. cbn [processedData countrySet] in *.
  assert (Hall' : Forall (λ p, get p.1 "Country" = VStr p.2 ∧ p.2 ≠ ""
                               ∧ p.2 ∉ countrySet st) accepted).
  { eapply Forall_impl; [exact Hall|]. intros p (? & ? & Hp).
    repeat split; try done. intros Hin. apply Hp, elem_of_union. by right. }
  destruct (row_rejected parse_string o) eqn:Hrej.
  { exists accepted. split; [by apply sublist_cons|done]. }
  exists ((o, name) :: accepted). split; [by apply sublist_skip|].
  split; [by constructor|]. split; [|by rewrite <- app_assoc].
  cbn [fmap list_fmap snd]. apply NoDup_cons. split; [|done].
  intros (p & Hp & Hin)%list_elem_of_fmap.
  rewrite Forall_forall in Hall. destruct (Hall p Hin) as (_ & _ & Hnew).
  apply Hnew, elem_of_union. left. apply elem_of_singleton. by rewrite <- Hp.
Qed.

(** X26.  What the pipeline does guarantee about countries.  The records of
    the validator come, in input order, from rows whose country cells are
    non-empty strings that differ pairwise as they stand in the cells; each
    record carries the trimmed cell.  When the validator accepts the batch,
    the output has one record per such row, in the same order, whose
    country is what the alias table makes of the trimmed cell; a country
    that is still a string there is a trimmed one. *)
Theorem output_raw_names_distinct (rawData : list row)
    (weights : SectorWeights) :
  let result := validateAndProcessData parse_string rawData in
  let out := processExcelData parse_string rawData weights in
  ∃ accepted : list (object * string),
    (Some ∘ fst <$> accepted) `sublist_of` rawData
    ∧ Forall (λ p, get p.1 "Country" = VStr p.2 ∧ p.2 ≠ "") accepted
    ∧ NoDup accepted.*2
    ∧ country <$> data result = (λ p, Name (trim p.2)) <$> accepted
    ∧ (isValid (validation result) = true →
       country <$> out
       = (λ p, standardizeCountryName (Name (trim p.2))) <$> accepted
       ∧ Forall (λ r, ∀ s, country r = Name s → trim s = s) out).
Proof.
  cbv zeta.
  assert (Hacc :
    ∃ accepted : list (object * string),
      (Some ∘ fst <$> accepted) `sublist_of` rawData
      ∧ Forall (λ p, get p.1 "Country" = VStr p.2 ∧ p.2 ≠ "") accepted
      ∧ NoDup accepted.*2
      ∧ data (validateAndProcessData parse_string rawData)
        = (λ p, row_record parse_string p.1 p.2) <$> accepted).
  { rewrite validateAndProcessData_unfold.
    destruct rawData as [|first rest].
    { exists []. repeat split; constructor. }
    destruct (missing_columns first).
    - cbv zeta. cbn [data].
      destruct (forEach_rows_distinct (first :: rest) 0
                  (initial_state fresh_validation))
        as (accepted & Hsub & Hall & Hnodup & Hdata).
      exists accepted. repeat split; try done.
      eapply Forall_impl; [exact Hall|]. by intros p (? & ? & _).
    - exists []. repeat split; [apply sublist_nil_l|constructor..]. }
  destruct Hacc as (accepted & Hsub & Hall & Hnodup & Hdata).
  exists accepted. do 3 (split; [done|]).
  assert (Hcountries :
            country <$> data (validateAndProcessData parse_string rawData)
            = (λ p, Name (trim p.2)) <$> accepted).
  { rewrite Hdata, <- list_fmap_compose. by apply list_fmap_ext. }
  split; [exact Hcountries|]. intros Hvalid.
  assert (Hout :
            country <$> processExcelData parse_string rawData weights
            = (λ p, standardizeCountryName (Name (trim p.2))) <$> accepted).
  { unfold processExcelData. rewrite Hvalid. cbn [negb].
    change (map ?f ?l) with (f <$> l). unfold standardizeCountryNames.
    rewrite <- !list_fmap_compose.
    rewrite (list_fmap_compose country standardizeCountryName).
    rewrite Hcountries. by rewrite <- list_fmap_compose. }
  split; [exact Hout|].
  apply Forall_forall. intros r Hr s Hs.
  assert (Hin : country r
                ∈ (λ p, standardizeCountryName (Name (trim p.2))) <$> accepted).
  { rewrite <- Hout. by apply list_elem_of_fmap_2. }
  apply list_elem_of_fmap in Hin as (p & Hp & _). rewrite Hs in Hp.
  apply (standardizeCountryName_trimmed (trim p.2)); [apply trim_idemp|done].
Qed.

End RawNames.
